(** * The power / safety / status control triad of the holographic watch

    A shallow embedding of
      - [src/core/power_management.py]
                    (modules [PowerManagement] and [PowerManagementIEEE]),
      - [src/core/power_management/battery_controller.py]
                    (modules [BatteryController] and [BatteryControllerIEEE]),
      - [src/core/system_interface/status_monitor.py]
                                                 (module [StatusMonitor]),
      - [src/core/system_interface/safety_manager.py]
                                                 (module [SafetyManager]),
      - [src/core/system_interface/main_controller.py]
                          (modules [MainController] and [ProjectionStart]),
      - [src/core/system_interface.py] with the projector of
        [src/core/holographic_controller.py]
                                      (module [HolographicSystemInterface]),
    followed by the properties of the specification that concern them and
    by further properties of the code.

    Conventions of the embedding.
      - Python [float] values are exact rationals ([Q]); every literal of the
        source is a decimal literal and is written as the same decimal here.
        Statements about computed values use [==] ([Qeq]); statements that an
        object is left alone use Leibniz equality of the whole record.
      - Where a result turns on the rounding of a float (the comparison of
        the available power with the required power, the integer part of
        the remaining time), the method is embedded a second time over
        binary64 numbers, in the modules whose name ends in [IEEE], and the
        property is stated there.
      - A Python object is a record, a method is a function from the record
        (and the arguments) to the result and the new record.
      - A [dict] whose iteration order is observable is an association list in
        insertion order; looking up a missing key ([KeyError]) is [None].
      - [print], [logging] and [time] are not part of the state: clock readings
        are arguments, log lines are dropped. *)

From Stdlib Require Import PeanoNat ZArith QArith Qminmax Qabs Qround Qpower.
From Stdlib Require Import Bool List String.
From Stdlib Require Import Permutation Sorted Lia Lqa.
From Stdlib Require Floats.
Set Warnings "-inexact-float".
Import ListNotations.
Open Scope Q_scope.

(** ** Python helpers *)

(** [a < b] on floats, as a boolean. *)
Definition Qltb (a b : Q) : bool := negb (Qle_bool b a).

(** Python's [min(a, b)] returns [b] only when [b < a], and [max(a, b)]
    returns [b] only when [b > a]; [Qmin] and [Qmax] make the same choice. *)
Definition py_min (a b : Q) : Q := Qmin a b.
Definition py_max (a b : Q) : Q := Qmax a b.

(** A [dict] in insertion order. *)
Module Dict.
Section Ops.
Context {K V : Type} (eqb : K -> K -> bool).

(** [d[k]]; [None] stands for [KeyError]. *)
Fixpoint get (d : list (K * V)) (k : K) : option V :=
  match d with
  | [] => None
  | (k', v) :: d' => if eqb k' k then Some v else get d' k
  end.

(** [k in d]. *)
Definition mem (d : list (K * V)) (k : K) : bool :=
  match get d k with Some _ => true | None => false end.

(** [d[k] = v]: an existing key keeps its position, a new key goes last. *)
Fixpoint set (d : list (K * V)) (k : K) (v : V) : list (K * V) :=
  match d with
  | [] => [(k, v)]
  | (k', v') :: d' =>
      if eqb k' k then (k', v) :: d' else (k', v') :: set d' k v
  end.

(** [del d[k]]: no binding of [k] is left. *)
Fixpoint del (d : list (K * V)) (k : K) : list (K * V) :=
  match d with
  | [] => []
  | (k', v') :: d' => if eqb k' k then del d' k else (k', v') :: del d' k
  end.

Definition keys (d : list (K * V)) : list K := map fst d.
End Ops.
End Dict.

(** ** [src/core/power_management.py] *)

Module PowerManagement.

Inductive PowerState : Type :=
| STANDBY | LOW_POWER | ACTIVE | BURST | CHARGING.

Definition PowerState_eqb (a b : PowerState) : bool :=
  match a, b with
  | STANDBY, STANDBY | LOW_POWER, LOW_POWER | ACTIVE, ACTIVE
  | BURST, BURST | CHARGING, CHARGING => true
  | _, _ => false
  end.

(** The [value] of each enum member. *)
Definition PowerState_value (s : PowerState) : string :=
  match s with
  | STANDBY => "standby"
  | LOW_POWER => "low_power"
  | ACTIVE => "active"
  | BURST => "burst"
  | CHARGING => "charging"
  end.

Module PowerProfile.
Record t : Type := mk {
    voltage : Q;      (* in volts *)
    current : Q;      (* in amperes *)
    max_power : Q;    (* in watts *)
    min_power : Q     (* in watts *)
  }.
End PowerProfile.

Module LithiumSulfurBattery.
Record t : Type := mk {
    capacity : Q;     (* mAh *)
    voltage : Q;      (* V *)
    current : Q       (* A *)
  }.

Definition __init__ : t := mk 1000 3.7 0.3.

Definition get_available_power (self : t) : Q :=
    voltage self * current self.

Definition set_output (self : t) (v c : Q) : t :=
    mk (capacity self) (py_min v 3.7) (py_min c 1.0).

Definition get_current_power (self : t) : Q :=
    voltage self * current self.
End LithiumSulfurBattery.

Module Supercapacitor.
Record t : Type := mk {
    capacity : Q;          (* F *)
    voltage : Q;           (* V *)
    in_burst_mode : bool
  }.

Definition __init__ : t := mk 100 0.0 false.

Definition enable_burst_mode (self : t) : t :=
    mk (capacity self) (voltage self) true.

Definition disable_burst_mode (self : t) : t :=
    mk (capacity self) (voltage self) false.

  (** The body of [charge] is [pass]. *)
Definition charge (self : t) (power : Q) : t := self.

Definition get_available_power (self : t) : Q :=
    if Qltb 0 (voltage self)
    then 0.5 * capacity self * (voltage self ^ 2)
    else 0.

Definition get_current_power (self : t) : Q :=
    if in_burst_mode self then get_available_power self else 0.
End Supercapacitor.

Module ThermalGenerator.
Record t : Type := mk { efficiency : Q }.
Definition __init__ : t := mk 0.05.
Definition get_current_power (self : t) : Q := 0.1 * efficiency self.
End ThermalGenerator.

Module MotionGenerator.
Record t : Type := mk { efficiency : Q }.
Definition __init__ : t := mk 0.1.
Definition get_current_power (self : t) : Q := 0.05 * efficiency self.
End MotionGenerator.

(** One entry of [power_history], the dict built by
    [monitor_power_consumption]. *)
Module ConsumptionData.
Record t : Type := mk {
    timestamp : Q;
    state : string;
    battery_level : Q;
    temperature : Q;
    primary_power : Q;
    supercap_power : Q;
    thermal_power : Q;
    motion_power : Q
  }.
End ConsumptionData.

Record PowerManagementSystem : Type := mkPMS {
  current_state : PowerState;
  battery_level : Q;                               (* percentage *)
  temperature : Q;                                 (* Celsius *)
  power_profiles : list (PowerState * PowerProfile.t);
  primary_battery : LithiumSulfurBattery.t;
  supercapacitor : Supercapacitor.t;
  thermal_generator : ThermalGenerator.t;
  motion_generator : MotionGenerator.t;
  power_history : list ConsumptionData.t
}.

Definition default_power_profiles : list (PowerState * PowerProfile.t) :=
  [ (STANDBY,   PowerProfile.mk 3.3 0.01 0.033 0.01);
    (LOW_POWER, PowerProfile.mk 3.3 0.1  0.33  0.1);
    (ACTIVE,    PowerProfile.mk 3.3 0.5  1.65  0.5);
    (BURST,     PowerProfile.mk 3.7 1.0  3.7   1.65);
    (CHARGING,  PowerProfile.mk 5.0 1.0  5.0   3.7) ].

Definition __init__ : PowerManagementSystem :=
  mkPMS STANDBY 100.0 25.0 default_power_profiles
        LithiumSulfurBattery.__init__ Supercapacitor.__init__
        ThermalGenerator.__init__ MotionGenerator.__init__ [].

Definition dict_get {V : Type} (d : list (PowerState * V)) (k : PowerState)
  : option V := Dict.get PowerState_eqb d k.

(** [x in xs] for a list of states. *)
Definition state_in (x : PowerState) (xs : list PowerState) : bool :=
  existsb (PowerState_eqb x) xs.

(** The table local to [_validate_state_transition]. *)
Definition valid_transitions : list (PowerState * list PowerState) :=
  [ (STANDBY,   [ACTIVE; LOW_POWER]);
    (LOW_POWER, [STANDBY; ACTIVE]);
    (ACTIVE,    [STANDBY; LOW_POWER; BURST]);
    (BURST,     [ACTIVE; STANDBY]);
    (CHARGING,  [STANDBY; LOW_POWER]) ].

Definition _validate_state_transition
  (self : PowerManagementSystem) (new_state : PowerState) : bool :=
  match dict_get valid_transitions (current_state self) with
  | Some targets => state_in new_state targets
  | None => false
  end.

(** The sum formed by [_check_power_availability], in exact arithmetic.  The
    sum as the interpreter rounds it, and the guard decided on it, are in
    [PowerManagementIEEE]. *)
Definition total_available_power (self : PowerManagementSystem) : Q :=
  LithiumSulfurBattery.get_available_power (primary_battery self)
  + Supercapacitor.get_available_power (supercapacitor self)
  + ThermalGenerator.get_current_power (thermal_generator self)
  + MotionGenerator.get_current_power (motion_generator self).

Definition _check_power_availability
  (self : PowerManagementSystem) (required_power : Q) : bool :=
  Qle_bool required_power (total_available_power self).

Definition set_battery (self : PowerManagementSystem)
  (b : LithiumSulfurBattery.t) : PowerManagementSystem :=
  mkPMS (current_state self) (battery_level self) (temperature self)
        (power_profiles self) b (supercapacitor self)
        (thermal_generator self) (motion_generator self) (power_history self).

Definition set_supercapacitor (self : PowerManagementSystem)
  (c : Supercapacitor.t) : PowerManagementSystem :=
  mkPMS (current_state self) (battery_level self) (temperature self)
        (power_profiles self) (primary_battery self) c
        (thermal_generator self) (motion_generator self) (power_history self).

Definition set_current_state (self : PowerManagementSystem)
  (s : PowerState) : PowerManagementSystem :=
  mkPMS s (battery_level self) (temperature self)
        (power_profiles self) (primary_battery self) (supercapacitor self)
        (thermal_generator self) (motion_generator self) (power_history self).

(** [_apply_power_profile], given the profile already looked up. *)
Definition _apply_power_profile (self : PowerManagementSystem)
  (state : PowerState) (profile : PowerProfile.t) : PowerManagementSystem :=
  let self1 :=
    set_battery self
      (LithiumSulfurBattery.set_output (primary_battery self)
         (PowerProfile.voltage profile) (PowerProfile.current profile)) in
  if PowerState_eqb state BURST
  then set_supercapacitor self1
         (Supercapacitor.enable_burst_mode (supercapacitor self1))
  else set_supercapacitor self1
         (Supercapacitor.disable_burst_mode (supercapacitor self1)).

(** [request_power_state].  The result is [None] when
    [self.power_profiles[requested_state]] raises [KeyError] (the object is
    then as it was); otherwise the boolean the method returns. *)
Definition request_power_state
  (self : PowerManagementSystem) (requested_state : PowerState)
  : option bool * PowerManagementSystem :=
  if negb (_validate_state_transition self requested_state)
  then (Some false, self)
  else
    match dict_get (power_profiles self) requested_state with
    | None => (None, self)
    | Some profile =>
        if negb (_check_power_availability self (PowerProfile.min_power profile))
        then (Some false, self)
        else
          (Some true,
           _apply_power_profile (set_current_state self requested_state)
                                requested_state profile)
    end.

(** The two places where [request_power_state] returns [False], under the
    names the specification gives them. *)
Inductive PowerError : Type := InvalidTransition | InsufficientPower.

Definition rejection
  (self : PowerManagementSystem) (requested_state : PowerState)
  : option PowerError :=
  if negb (_validate_state_transition self requested_state)
  then Some InvalidTransition
  else
    match dict_get (power_profiles self) requested_state with
    | None => None
    | Some profile =>
        if negb (_check_power_availability self (PowerProfile.min_power profile))
        then Some InsufficientPower
        else None
    end.

Definition monitor_power_consumption
  (self : PowerManagementSystem) (now : Q)
  : ConsumptionData.t * PowerManagementSystem :=
  let consumption_data :=
    ConsumptionData.mk now
      (PowerState_value (current_state self))
      (battery_level self)
      (temperature self)
      (LithiumSulfurBattery.get_current_power (primary_battery self))
      (Supercapacitor.get_current_power (supercapacitor self))
      (ThermalGenerator.get_current_power (thermal_generator self))
      (MotionGenerator.get_current_power (motion_generator self)) in
  (consumption_data,
   mkPMS (current_state self) (battery_level self) (temperature self)
         (power_profiles self) (primary_battery self) (supercapacitor self)
         (thermal_generator self) (motion_generator self)
         (power_history self ++ [consumption_data])).

Definition _activate_thermal_management (self : PowerManagementSystem)
  : PowerManagementSystem :=
  snd (request_power_state self LOW_POWER).

Definition optimize_power_consumption (self : PowerManagementSystem)
  : PowerManagementSystem :=
  let self1 :=
    if Qltb (battery_level self) 20.0
    then snd (request_power_state self LOW_POWER)
    else self in
  if Qltb 40.0 (temperature self1)
  then _activate_thermal_management self1
  else self1.

Definition charge_supercapacitor (self : PowerManagementSystem)
  : PowerManagementSystem :=
  if Qltb 50.0 (battery_level self)
  then set_supercapacitor self
         (Supercapacitor.charge (supercapacitor self)
            (LithiumSulfurBattery.get_available_power (primary_battery self)
             * 0.2))
  else self.

(** What a client does with the controller: the public methods, and the
    assignments to [battery_level] and [temperature] that callers and tests
    make from outside. *)
Inductive Call : Type :=
| Request_power_state (requested_state : PowerState)
| Monitor_power_consumption (now : Q)
| Optimize_power_consumption
| Charge_supercapacitor
| Assign_battery_level (v : Q)
| Assign_temperature (v : Q).

Definition call (self : PowerManagementSystem) (c : Call)
  : PowerManagementSystem :=
  match c with
  | Request_power_state t => snd (request_power_state self t)
  | Monitor_power_consumption now => snd (monitor_power_consumption self now)
  | Optimize_power_consumption => optimize_power_consumption self
  | Charge_supercapacitor => charge_supercapacitor self
  | Assign_battery_level v =>
      mkPMS (current_state self) v (temperature self) (power_profiles self)
            (primary_battery self) (supercapacitor self)
            (thermal_generator self) (motion_generator self)
            (power_history self)
  | Assign_temperature v =>
      mkPMS (current_state self) (battery_level self) v (power_profiles self)
            (primary_battery self) (supercapacitor self)
            (thermal_generator self) (motion_generator self)
            (power_history self)
  end.

Definition calls (self : PowerManagementSystem) (cs : list Call)
  : PowerManagementSystem :=
  fold_left call cs self.

(** Whether some call of [cs], made in turn from [self], is
    [charge_supercapacitor()] with the battery level above 50. *)
Fixpoint charge_invoked (self : PowerManagementSystem) (cs : list Call)
  : bool :=
  match cs with
  | [] => false
  | c :: cs' =>
      match c with
      | Charge_supercapacitor => Qltb 50.0 (battery_level self)
      | _ => false
      end
      || charge_invoked (call self c) cs'
  end.

(** *** Reading a run of calls *)

(** How many calls of [cs] are [monitor_power_consumption()]. *)
Fixpoint monitor_calls (cs : list Call) : nat :=
  match cs with
  | [] => 0%nat
  | Monitor_power_consumption _ :: cs' => S (monitor_calls cs')
  | _ :: cs' => monitor_calls cs'
  end.

(** The profiles and harvesters that [__init__] installs and an uncharged
    supercapacitor; no method assigns any of these. *)
Definition factory_configuration (self : PowerManagementSystem) : Prop :=
  power_profiles self = default_power_profiles
  /\ thermal_generator self = ThermalGenerator.__init__
  /\ motion_generator self = MotionGenerator.__init__
  /\ ~ 0 < Supercapacitor.voltage (supercapacitor self).

(** The burst flag of the supercapacitor says whether the state is BURST. *)
Definition burst_flag_consistent (self : PowerManagementSystem) : Prop :=
  Supercapacitor.in_burst_mode (supercapacitor self)
  = PowerState_eqb (current_state self) BURST.

(** The battery output is within the limits of [set_output]. *)
Definition output_within_limits (self : PowerManagementSystem) : Prop :=
  LithiumSulfurBattery.voltage (primary_battery self) <= 3.7
  /\ LithiumSulfurBattery.current (primary_battery self) <= 1.0.

(** A controller in STANDBY or LOW_POWER whose sources give less than the
    0.5 W that ACTIVE requires. *)
Definition throttled (self : PowerManagementSystem) : Prop :=
  factory_configuration self
  /\ (current_state self = STANDBY \/ current_state self = LOW_POWER)
  /\ LithiumSulfurBattery.get_available_power (primary_battery self) + 0.01
     < 0.5.

End PowerManagement.

(** ** [src/core/power_management/battery_controller.py] *)

Module BatteryController.

(** [_calculate_battery_level].  The divisor is the constant
    [max_voltage - min_voltage], so the [try] block cannot raise. *)
Definition _calculate_battery_level (voltage : Q) : Q :=
  let min_voltage := 3.2 in
  let max_voltage := 4.2 in
  let level := ((voltage - min_voltage) / (max_voltage - min_voltage)) * 100 in
  py_max (py_min level 100.0) 0.0.

(** The local [level] of [_calculate_battery_level], before clamping. *)
Definition raw_level (voltage : Q) : Q :=
  ((voltage - 3.2) / (4.2 - 3.2)) * 100.

(** *** The controller object *)

(** A call returns a value or raises; the string names the exception
    class. *)
Inductive Outcome (A : Type) : Type :=
| Return (a : A)
| Raise (error : string).
Arguments Return {A} a.
Arguments Raise {A} error.

(** Float division: a zero divisor raises. *)
Definition py_div (a b : Q) : Outcome Q :=
  if Qeq_bool b 0 then Raise "ZeroDivisionError" else Return (a / b).

(** [int(x)]: truncation towards zero. *)
Definition py_int (x : Q) : Z := Z.quot (Qnum x) (Zpos (Qden x)).

Module BatteryStatus.
Record t : Type := mk {
  level : Q;                        (* Percentage (0-100) *)
  voltage : Q;                      (* Volts *)
  current : Q;                      (* Amperes *)
  temperature : Q;                  (* Celsius *)
  charging : bool;
  health : Q;                       (* Percentage (0-100) *)
  estimated_remaining_time : Z      (* Minutes *)
}.
End BatteryStatus.

Module PowerProfile.
Record t : Type := mk {
  max_discharge_rate : Q;           (* Amperes *)
  max_charge_rate : Q;              (* Amperes *)
  nominal_voltage : Q;              (* Volts *)
  capacity : Q;                     (* mAh *)
  low_power_threshold : Q;          (* Percentage *)
  critical_power_threshold : Q      (* Percentage *)
}.

Definition set_max_discharge_rate (self : t) (rate : Q) : t :=
  mk rate (max_charge_rate self) (nominal_voltage self) (capacity self)
     (low_power_threshold self) (critical_power_threshold self).
End PowerProfile.

(** The controller.  Its driver is represented by what each driver call
    gives back (see the arguments of the methods); its private
    [StatusMonitor] is used for one thing only, the call of
    [notify_power_warning], a method [StatusMonitor] does not define. *)
Record t : Type := mk {
  _current_status : option BatteryStatus.t;
  _is_initialized : bool;
  _power_profile : PowerProfile.t;
  _power_history : list (Q * Q);
  _last_update : Q
}.

Definition __init__ (now : Q) : t :=
  mk None false (PowerProfile.mk 2.0 1.0 3.7 2500.0 20.0 10.0) [] now.

Definition set_power_profile (self : t) (p : PowerProfile.t) : t :=
  mk (_current_status self) (_is_initialized self) p (_power_history self)
     (_last_update self).

Definition set_is_initialized (self : t) (b : bool) : t :=
  mk (_current_status self) b (_power_profile self) (_power_history self)
     (_last_update self).

(** [_calculate_battery_health]; any exception of the body is re-raised as
    [PowerManagementError]. *)
Definition _calculate_battery_health (self : t) (voltage current : Q)
  : Outcome Q :=
  let base_health := 100.0 in
  match py_div voltage (PowerProfile.nominal_voltage (_power_profile self))
  with
  | Raise _ => Raise "PowerManagementError"
  | Return ratio =>
      let voltage_factor := py_min ratio 1.0 in
      match py_div (Qabs current)
                   (PowerProfile.max_discharge_rate (_power_profile self))
      with
      | Raise _ => Raise "PowerManagementError"
      | Return load =>
          let current_factor := py_min load 1.0 in
          let health :=
            base_health * voltage_factor * (1.0 - (current_factor * 0.1)) in
          Return (py_max (py_min health 100.0) 0.0)
      end
  end.

(** [_estimate_remaining_time], in exact arithmetic.  The divisor
    [current * 1000] is positive where it is used.  The integer the
    interpreter returns, and the overflow of the quotient for a tiny
    current, are in [BatteryControllerIEEE]. *)
Definition _estimate_remaining_time (self : t) (level current : Q) : Z :=
  if Qle_bool current 0 then (-1)%Z
  else
    let remaining_capacity :=
      (level / 100.0) * PowerProfile.capacity (_power_profile self) in
    let hours_remaining := remaining_capacity / (current * 1000) in
    py_int (hours_remaining * 60).

(** [_update_power_profile]. *)
Definition _update_power_profile (self : t) (health : Q) : t :=
  let health_factor := health / 100.0 in
  set_power_profile self
    (PowerProfile.set_max_discharge_rate (_power_profile self)
       (PowerProfile.max_discharge_rate (_power_profile self)
        * health_factor)).

(** [_calibrate_battery], given what [measure_voltage] and
    [measure_current] give back ([None]: the driver raises). *)
Definition _calibrate_battery (self : t) (voltage current : option Q)
  : Outcome unit * t :=
  match voltage, current with
  | Some v, Some c =>
      match _calculate_battery_health self v c with
      | Raise _ => (Raise "PowerManagementError", self)
      | Return health => (Return tt, _update_power_profile self health)
      end
  | _, _ => (Raise "PowerManagementError", self)
  end.

(** [_record_power_usage]: the reading is stored under the clock reading and
    entries not newer than an hour are dropped. *)
Definition _record_power_usage (self : t) (current voltage now : Q) : t :=
  let power := Qabs (current * voltage) in
  let history := Dict.set Qeq_bool (_power_history self) now power in
  let cutoff := now - 3600 in
  mk (_current_status self) (_is_initialized self) (_power_profile self)
     (filter (fun kv => Qltb cutoff (fst kv)) history)
     (_last_update self).

(** [self._status_monitor.notify_power_warning(...)]: the attribute lookup
    raises. *)
Definition notify_power_warning : Outcome unit := Raise "AttributeError".

(** [_emergency_power_shutdown] and [_emergency_thermal_shutdown] have the
    same body: the driver's [emergency_shutdown] and, if it returns, the
    flag; an exception is logged. *)
Definition _emergency_power_shutdown (self : t) (driver_returns : bool) : t :=
  if driver_returns then set_is_initialized self false else self.

Definition _emergency_thermal_shutdown (self : t) (driver_returns : bool)
  : t :=
  if driver_returns then set_is_initialized self false else self.

Definition _handle_low_power (self : t) : Outcome unit * t :=
  match notify_power_warning with
  | Raise e => (Raise e, self)
  | Return _ => (Return tt, self)
  end.

Definition _handle_critical_power (self : t) (driver_returns : bool)
  : Outcome unit * t :=
  match notify_power_warning with
  | Raise e => (Raise e, self)
  | Return _ => (Return tt, _emergency_power_shutdown self driver_returns)
  end.

(** [_check_critical_conditions]; what a handler raises is logged. *)
Definition _check_critical_conditions (self : t) (driver_returns : bool)
  : t :=
  match _current_status self with
  | None => self
  | Some status =>
      if Qle_bool (BatteryStatus.level status)
                  (PowerProfile.critical_power_threshold (_power_profile self))
      then snd (_handle_critical_power self driver_returns)
      else if Qle_bool (BatteryStatus.level status)
                       (PowerProfile.low_power_threshold (_power_profile self))
      then snd (_handle_low_power self)
      else self
  end.

(** [_reduce_power_consumption]: the rate is reduced, then the notification
    raises and is logged. *)
Definition _reduce_power_consumption (self : t) : t :=
  let self1 :=
    set_power_profile self
      (PowerProfile.set_max_discharge_rate (_power_profile self)
         (PowerProfile.max_discharge_rate (_power_profile self) * 0.7)) in
  match notify_power_warning with
  | Raise _ => self1
  | Return _ => self1
  end.

(** [_handle_thermal_event]. *)
Definition _handle_thermal_event (self : t) (temperature : Q)
  (driver_returns : bool) : t :=
  if Qltb 50.0 temperature
  then _emergency_thermal_shutdown self driver_returns
  else _reduce_power_consumption self.

(** One iteration of [_monitor_temperature], given the temperature the
    driver reports ([None]: it raises). *)
Definition monitor_temperature_step (driver_returns : bool) (self : t)
  (temperature : option Q) : t :=
  match temperature with
  | None => self
  | Some temp =>
      if Qltb 45.0 temp
      then _handle_thermal_event self temp driver_returns
      else self
  end.

(** What the driver reports in one iteration of [_monitor_battery_status]. *)
Module Readings.
Record t : Type := mk {
  voltage : option Q;
  current : option Q;
  temperature : option Q;
  charging : option bool;
  emergency_shutdown_returns : bool
}.
End Readings.

(** One iteration of [_monitor_battery_status]; an exception ends it. *)
Definition monitor_battery_step (self : t) (r : Readings.t) (now : Q) : t :=
  match Readings.voltage r, Readings.current r, Readings.temperature r,
        Readings.charging r with
  | Some voltage, Some current, Some temperature, Some charging =>
      let level := _calculate_battery_level voltage in
      match _calculate_battery_health self voltage current with
      | Raise _ => self
      | Return health =>
          let status :=
            BatteryStatus.mk level voltage current temperature charging
              health (_estimate_remaining_time self level current) in
          let self1 :=
            mk (Some status) (_is_initialized self) (_power_profile self)
               (_power_history self) (_last_update self) in
          let self2 := _record_power_usage self1 current voltage now in
          _check_critical_conditions self2
            (Readings.emergency_shutdown_returns r)
      end
  | _, _, _, _ => self
  end.

(** [get_status]. *)
Definition get_status (self : t) : Outcome BatteryStatus.t :=
  match _current_status self with
  | None => Raise "PowerManagementError"
  | Some status => Return status
  end.

End BatteryController.

(** ** Python floats as binary64

    Where the outcome of a method turns on the last bit of a float, the
    method is embedded over the kernel's binary64 numbers: [+], [*], [/] and
    the comparisons are the IEEE operations that Python's [float] uses, and a
    decimal literal is the double nearest to it, as in the source. *)

Module PyFloat.
Import PrimFloat FloatOps SpecFloat.
Local Open Scope float_scope.

Inductive Exception : Type :=
| KeyError
| OverflowError
| ValueError
| ZeroDivisionError
| PowerManagementError.

Inductive Outcome (A : Type) : Type :=
| Return (a : A)
| Raise (e : Exception).
Arguments Return {A} a.
Arguments Raise {A} e.

(** [min(a, b)]: [b] when [b < a], otherwise [a]. *)
Definition py_min (a b : float) : float := if b <? a then b else a.

(** [a / b]: a zero divisor of either sign raises. *)
Definition py_div (a b : float) : Outcome float :=
  if b =? 0 then Raise ZeroDivisionError else Return (a / b).

(** [int(x)]: the integer part, towards zero; not a number and the
    infinities raise. *)
Definition py_int (x : float) : Outcome Z :=
  match Prim2SF x with
  | S754_nan => Raise ValueError
  | S754_infinity _ => Raise OverflowError
  | S754_zero _ => Return 0%Z
  | S754_finite s m e =>
      let n := if (0 <=? e)%Z
               then (Zpos m * 2 ^ e)%Z
               else (Zpos m / 2 ^ (- e))%Z in
      Return (if s then (- n)%Z else n)
  end.


End PyFloat.

(** ** [src/core/power_management.py] in binary64: the guards of a request *)

Module PowerManagementIEEE.
Import PrimFloat PyFloat.
Local Open Scope float_scope.

Module PowerProfile.
Record t : Type := mk {
  voltage : float;      (* in volts *)
  current : float;      (* in amperes *)
  max_power : float;    (* in watts *)
  min_power : float     (* in watts *)
}.
End PowerProfile.

Module LithiumSulfurBattery.
Record t : Type := mk {
  capacity : float;     (* mAh *)
  voltage : float;      (* V *)
  current : float       (* A *)
}.

Definition __init__ : t := mk 1000 3.7 0.3.

Definition get_available_power (self : t) : float :=
  voltage self * current self.

Definition set_output (self : t) (v c : float) : t :=
  mk (capacity self) (py_min v 3.7) (py_min c 1.0).
End LithiumSulfurBattery.

Module Supercapacitor.
Record t : Type := mk {
  capacity : float;          (* F *)
  voltage : float;           (* V *)
  in_burst_mode : bool
}.

Definition __init__ : t := mk 100 0.0 false.

Definition enable_burst_mode (self : t) : t :=
  mk (capacity self) (voltage self) true.

Definition disable_burst_mode (self : t) : t :=
  mk (capacity self) (voltage self) false.

(** [get_available_power].  [float_pow] is the [**] of two floats: the C
    library's [pow], which raises [OverflowError] when its result is out of
    range. *)
Definition get_available_power
  (float_pow : float -> float -> Outcome float) (self : t) : Outcome float :=
  if 0 <? voltage self
  then match float_pow (voltage self) 2 with
       | Return squared => Return (0.5 * capacity self * squared)
       | Raise e => Raise e
       end
  else Return 0.
End Supercapacitor.

Module ThermalGenerator.
Record t : Type := mk { efficiency : float }.
Definition __init__ : t := mk 0.05.
Definition get_current_power (self : t) : float := 0.1 * efficiency self.
End ThermalGenerator.

Module MotionGenerator.
Record t : Type := mk { efficiency : float }.
Definition __init__ : t := mk 0.1.
Definition get_current_power (self : t) : float := 0.05 * efficiency self.
End MotionGenerator.

Module ConsumptionData.
Record t : Type := mk {
  timestamp : float;
  state : string;
  battery_level : float;
  temperature : float;
  primary_power : float;
  supercap_power : float;
  thermal_power : float;
  motion_power : float
}.
End ConsumptionData.

Record PowerManagementSystem : Type := mkPMS {
  current_state : PowerManagement.PowerState;
  battery_level : float;                           (* percentage *)
  temperature : float;                             (* Celsius *)
  power_profiles : list (PowerManagement.PowerState * PowerProfile.t);
  primary_battery : LithiumSulfurBattery.t;
  supercapacitor : Supercapacitor.t;
  thermal_generator : ThermalGenerator.t;
  motion_generator : MotionGenerator.t;
  power_history : list ConsumptionData.t
}.

Definition default_power_profiles
  : list (PowerManagement.PowerState * PowerProfile.t) :=
  [ (PowerManagement.STANDBY,   PowerProfile.mk 3.3 0.01 0.033 0.01);
    (PowerManagement.LOW_POWER, PowerProfile.mk 3.3 0.1  0.33  0.1);
    (PowerManagement.ACTIVE,    PowerProfile.mk 3.3 0.5  1.65  0.5);
    (PowerManagement.BURST,     PowerProfile.mk 3.7 1.0  3.7   1.65);
    (PowerManagement.CHARGING,  PowerProfile.mk 5.0 1.0  5.0   3.7) ].

Definition __init__ : PowerManagementSystem :=
  mkPMS PowerManagement.STANDBY 100.0 25.0 default_power_profiles
        LithiumSulfurBattery.__init__ Supercapacitor.__init__
        ThermalGenerator.__init__ MotionGenerator.__init__ [].

Definition _validate_state_transition
  (self : PowerManagementSystem) (new_state : PowerManagement.PowerState)
  : bool :=
  match PowerManagement.dict_get PowerManagement.valid_transitions
          (current_state self) with
  | Some targets => PowerManagement.state_in new_state targets
  | None => false
  end.

Section Requests.

(** The [**] of two floats. *)
Variable float_pow : float -> float -> Outcome float.

(** [_check_power_availability]: the four reports are added from left to
    right and the sum is tested with [>=]. *)
Definition _check_power_availability
  (self : PowerManagementSystem) (required_power : float) : Outcome bool :=
  let battery_power :=
    LithiumSulfurBattery.get_available_power (primary_battery self) in
  match Supercapacitor.get_available_power float_pow (supercapacitor self)
  with
  | Raise e => Raise e
  | Return supercap_power =>
      let thermal_power :=
        ThermalGenerator.get_current_power (thermal_generator self) in
      let motion_power :=
        MotionGenerator.get_current_power (motion_generator self) in
      let total_available_power :=
        battery_power + supercap_power + thermal_power + motion_power in
      Return (required_power <=? total_available_power)
  end.

(** [_apply_power_profile], given the profile already looked up. *)
Definition _apply_power_profile (self : PowerManagementSystem)
  (state : PowerManagement.PowerState) (profile : PowerProfile.t)
  : PowerManagementSystem :=
  mkPMS (current_state self) (battery_level self) (temperature self)
        (power_profiles self)
        (LithiumSulfurBattery.set_output (primary_battery self)
           (PowerProfile.voltage profile) (PowerProfile.current profile))
        (if PowerManagement.PowerState_eqb state PowerManagement.BURST
         then Supercapacitor.enable_burst_mode (supercapacitor self)
         else Supercapacitor.disable_burst_mode (supercapacitor self))
        (thermal_generator self) (motion_generator self)
        (power_history self).

Definition set_current_state (self : PowerManagementSystem)
  (s : PowerManagement.PowerState) : PowerManagementSystem :=
  mkPMS s (battery_level self) (temperature self)
        (power_profiles self) (primary_battery self) (supercapacitor self)
        (thermal_generator self) (motion_generator self) (power_history self).

(** [request_power_state]: what it returns or raises, and the object
    afterwards.  A missing profile raises [KeyError] and an overflowing
    square raises [OverflowError], both before anything is assigned. *)
Definition request_power_state
  (self : PowerManagementSystem)
  (requested_state : PowerManagement.PowerState)
  : Outcome bool * PowerManagementSystem :=
  if negb (_validate_state_transition self requested_state)
  then (Return false, self)
  else
    match PowerManagement.dict_get (power_profiles self) requested_state with
    | None => (Raise KeyError, self)
    | Some profile =>
        match _check_power_availability self (PowerProfile.min_power profile)
        with
        | Raise e => (Raise e, self)
        | Return false => (Return false, self)
        | Return true =>
            (Return true,
             _apply_power_profile (set_current_state self requested_state)
                                  requested_state profile)
        end
    end.

(** Which of the two guards returned [False]. *)
Definition rejection
  (self : PowerManagementSystem)
  (requested_state : PowerManagement.PowerState)
  : option PowerManagement.PowerError :=
  if negb (_validate_state_transition self requested_state)
  then Some PowerManagement.InvalidTransition
  else
    match PowerManagement.dict_get (power_profiles self) requested_state with
    | None => None
    | Some profile =>
        match _check_power_availability self (PowerProfile.min_power profile)
        with
        | Return false => Some PowerManagement.InsufficientPower
        | _ => None
        end
    end.

End Requests.

(** A [pow] that is correctly rounded for squares, for running the model. *)
Definition rounded_square (x y : float) : Outcome float :=
  if is_infinity (x * x) && negb (is_infinity x)
  then Raise OverflowError
  else Return (x * x).

(** The controller of the constructor with its battery set to [v] volts and
    [c] amperes. *)
Definition with_battery_output (v c : float) : PowerManagementSystem :=
  mkPMS PowerManagement.STANDBY 100.0 25.0 default_power_profiles
        (LithiumSulfurBattery.mk 1000 v c) Supercapacitor.__init__
        ThermalGenerator.__init__ MotionGenerator.__init__ [].

End PowerManagementIEEE.

(** ** [src/core/power_management/battery_controller.py] in binary64:
       the remaining time *)

Module BatteryControllerIEEE.
Import PrimFloat PyFloat.
Local Open Scope float_scope.

(** [_estimate_remaining_time], given the capacity of the power profile.
    Whatever the [try] block raises comes out as [PowerManagementError]. *)
Definition _estimate_remaining_time (capacity level current : float)
  : Outcome Z :=
  if current <=? 0 then Return (-1)%Z
  else
    let remaining_capacity := (level / 100.0) * capacity in
    match py_div remaining_capacity (current * 1000) with
    | Raise _ => Raise PowerManagementError
    | Return hours_remaining =>
        match py_int (hours_remaining * 60) with
        | Raise _ => Raise PowerManagementError
        | Return minutes => Return minutes
        end
    end.

End BatteryControllerIEEE.

(** ** [src/core/system_interface/status_monitor.py] *)

Module StatusMonitor.

Inductive SystemComponent : Type :=
| POWER | PROJECTION | THERMAL | MOTION | INTERFACE | SAFETY.

Definition SystemComponent_eqb (a b : SystemComponent) : bool :=
  match a, b with
  | POWER, POWER | PROJECTION, PROJECTION | THERMAL, THERMAL
  | MOTION, MOTION | INTERFACE, INTERFACE | SAFETY, SAFETY => true
  | _, _ => false
  end.

Definition all_components : list SystemComponent :=
  [POWER; PROJECTION; THERMAL; MOTION; INTERFACE; SAFETY].

Inductive AlertLevel : Type := INFO | WARNING | ERROR | CRITICAL.

Definition AlertLevel_eqb (a b : AlertLevel) : bool :=
  match a, b with
  | INFO, INFO | WARNING, WARNING | ERROR, ERROR | CRITICAL, CRITICAL => true
  | _, _ => false
  end.

(** The text of an alert.  The three f-strings of [_analyze_system_health]
    keep their arguments instead of being rendered; any other caller's text
    is a string. *)
Inductive Message : Type :=
| Critical_health (component : SystemComponent) (health : Q)
| Low_health (component : SystemComponent) (health : Q)
| Stale_status (component : SystemComponent)
| Text (s : string).

Module SystemAlert.
Record t : Type := mk {
  component : SystemComponent;
  level : AlertLevel;
  message : Message;
  timestamp : Q;
  data : option (list (string * Q))
}.
End SystemAlert.

Module ComponentStatus.
Record t : Type := mk {
  component : SystemComponent;
  status : string;
  health : Q;                      (* 0-100% *)
  last_update : Q;
  metrics : list (string * Q);
  alerts : list SystemAlert.t
}.

Definition append_alert (self : t) (a : SystemAlert.t) : t :=
  mk (component self) (status self) (health self) (last_update self)
     (metrics self) (alerts self ++ [a]).
End ComponentStatus.

(** A registered callback is known by a number; what the monitor does with
    it is call it, which [callback_calls] records in order. *)
Definition Callback : Type := nat.

Record t : Type := mk {
  _component_status : list (SystemComponent * ComponentStatus.t);
  _alert_history : list SystemAlert.t;
  _alert_callbacks : list (AlertLevel * list Callback);
  _is_monitoring : bool;
  _status_update_interval : Q;     (* seconds *)
  _alert_retention_period : Q;     (* seconds *)
  callback_calls : list (Callback * SystemAlert.t)
}.

Definition __init__ : t :=
  mk [] [] [(INFO, []); (WARNING, []); (ERROR, []); (CRITICAL, [])]
     false 1.0 3600 [].

(** The part of [initialize] that fills [_component_status]. *)
Definition initialize (self : t) (now : Q) : t :=
  mk (fold_left
        (fun d c =>
           Dict.set SystemComponent_eqb d c
             (ComponentStatus.mk c "initializing" 100.0 now [] []))
        all_components (_component_status self))
     (_alert_history self) (_alert_callbacks self) true
     (_status_update_interval self) (_alert_retention_period self)
     (callback_calls self).

Definition register_alert_callback (self : t) (level : AlertLevel)
  (callback : Callback) : t :=
  match Dict.get AlertLevel_eqb (_alert_callbacks self) level with
  | Some cbs =>
      mk (_component_status self) (_alert_history self)
         (Dict.set AlertLevel_eqb (_alert_callbacks self) level
                   (cbs ++ [callback]))
         (_is_monitoring self) (_status_update_interval self)
         (_alert_retention_period self) (callback_calls self)
  | None => self
  end.

(** [_record_alert].  [self._component_status[component]] raises [KeyError]
    for an unknown component; the method's own [except] swallows it and
    nothing has been recorded by then. *)
Definition _record_alert (self : t) (component : SystemComponent)
  (level : AlertLevel) (message : Message) (now : Q)
  (data : option (list (string * Q))) : t :=
  let alert := SystemAlert.mk component level message now data in
  match Dict.get SystemComponent_eqb (_component_status self) component with
  | None => self
  | Some st =>
      let statuses :=
        Dict.set SystemComponent_eqb (_component_status self) component
                 (ComponentStatus.append_alert st alert) in
      let history := _alert_history self ++ [alert] in
      match Dict.get AlertLevel_eqb (_alert_callbacks self) level with
      | None =>
          mk statuses history (_alert_callbacks self) (_is_monitoring self)
             (_status_update_interval self) (_alert_retention_period self)
             (callback_calls self)
      | Some cbs =>
          mk statuses history (_alert_callbacks self) (_is_monitoring self)
             (_status_update_interval self) (_alert_retention_period self)
             (callback_calls self ++ map (fun cb => (cb, alert)) cbs)
      end
  end.

(** The body of the [for] loop of [_analyze_system_health] for one item of
    [self._component_status.items()]. *)
Definition analyze_component (now : Q) (self : t)
  (item : SystemComponent * ComponentStatus.t) : t :=
  let '(component, status) := item in
  let self1 :=
    if Qltb (ComponentStatus.health status) 20.0
    then _record_alert self component CRITICAL
           (Critical_health component (ComponentStatus.health status)) now None
    else if Qltb (ComponentStatus.health status) 50.0
    then _record_alert self component WARNING
           (Low_health component (ComponentStatus.health status)) now None
    else self in
  let time_since_update := now - ComponentStatus.last_update status in
  if Qltb (_status_update_interval self1 * 3) time_since_update
  then _record_alert self1 component ERROR (Stale_status component) now None
  else self1.

(** [_analyze_system_health]: one pass over the components, in the order of
    the dict.  The loop reads [health] and [last_update] of each status, which
    recording an alert does not change. *)
Definition _analyze_system_health (self : t) (now : Q) : t :=
  fold_left (analyze_component now) (_component_status self) self.

Definition get_component_status (self : t) (component : SystemComponent)
  : option ComponentStatus.t :=
  Dict.get SystemComponent_eqb (_component_status self) component.

(** *** Reading the result of a pass *)

(** The alerts that [after] has recorded beyond those of [before]. *)
Definition recorded_since (before after : t) : list SystemAlert.t :=
  skipn (List.length (_alert_history before)) (_alert_history after).

(** An alert about the health score: one of the two health templates. *)
Definition is_health_alert (a : SystemAlert.t) : bool :=
  match SystemAlert.message a with
  | Critical_health _ _ | Low_health _ _ => true
  | Stale_status _ | Text _ => false
  end.

Definition health_alerts (c : SystemComponent) (l : list SystemAlert.t)
  : list SystemAlert.t :=
  filter (fun a => SystemComponent_eqb (SystemAlert.component a) c
                   && is_health_alert a) l.

(** The alerts one item of the loop gives rise to. *)
Definition item_alerts (now interval : Q)
  (item : SystemComponent * ComponentStatus.t) : list SystemAlert.t :=
  let '(component, status) := item in
  (if Qltb (ComponentStatus.health status) 20.0
   then [SystemAlert.mk component CRITICAL
           (Critical_health component (ComponentStatus.health status))
           now None]
   else if Qltb (ComponentStatus.health status) 50.0
   then [SystemAlert.mk component WARNING
           (Low_health component (ComponentStatus.health status)) now None]
   else [])
  ++ (if Qltb (interval * 3) (now - ComponentStatus.last_update status)
      then [SystemAlert.mk component ERROR (Stale_status component) now None]
      else []).

(** What recording an alert leaves alone in the status dict: the keys and,
    for each, the health and the time of the last update. *)
Definition vitals (d : list (SystemComponent * ComponentStatus.t))
  : list (SystemComponent * (Q * Q)) :=
  map (fun kv => (fst kv, (ComponentStatus.health (snd kv),
                           ComponentStatus.last_update (snd kv)))) d.

(** A monitor with one component in each health band. *)
Definition three_bands : t :=
  mk [ (POWER,   ComponentStatus.mk POWER "degraded" 10 0 [] []);
       (THERMAL, ComponentStatus.mk THERMAL "degraded" 35 0 [] []);
       (MOTION,  ComponentStatus.mk MOTION "operational" 100.0 0 [] []) ]
     [] [(INFO, []); (WARNING, []); (ERROR, []); (CRITICAL, [])]
     true 1.0 3600 [].

(** *** The other methods of the monitor *)

(** [list.remove(x)]: the first occurrence goes. *)
Fixpoint remove_first (x : Callback) (l : list Callback) : list Callback :=
  match l with
  | [] => []
  | y :: l' => if Nat.eqb y x then l' else y :: remove_first x l'
  end.

(** [unregister_alert_callback].  Every level has its list from [__init__]
    on and no method removes one; for a level without a list, where Python
    raises [KeyError], the monitor is left as it is. *)
Definition unregister_alert_callback (self : t) (level : AlertLevel)
  (callback : Callback) : t :=
  match Dict.get AlertLevel_eqb (_alert_callbacks self) level with
  | Some cbs =>
      if existsb (Nat.eqb callback) cbs
      then mk (_component_status self) (_alert_history self)
              (Dict.set AlertLevel_eqb (_alert_callbacks self) level
                        (remove_first callback cbs))
              (_is_monitoring self) (_status_update_interval self)
              (_alert_retention_period self) (callback_calls self)
      else self
  | None => self
  end.

(** One iteration of [_alert_cleanup_loop]: alerts not newer than the
    retention period are dropped from every component and from the
    history. *)
Definition sweep_alerts (self : t) (now : Q) : t :=
  let cutoff_time := now - _alert_retention_period self in
  let keep := filter (fun a => Qltb cutoff_time (SystemAlert.timestamp a)) in
  mk (map (fun kv =>
             (fst kv,
              ComponentStatus.mk (ComponentStatus.component (snd kv))
                (ComponentStatus.status (snd kv))
                (ComponentStatus.health (snd kv))
                (ComponentStatus.last_update (snd kv))
                (ComponentStatus.metrics (snd kv))
                (keep (ComponentStatus.alerts (snd kv)))))
          (_component_status self))
     (keep (_alert_history self))
     (_alert_callbacks self) (_is_monitoring self)
     (_status_update_interval self) (_alert_retention_period self)
     (callback_calls self).

(** [sorted(alerts, key=lambda x: x.timestamp, reverse=True)]: newest first,
    alerts of equal timestamp in their original order. *)
Fixpoint insert_newest_first (a : SystemAlert.t) (l : list SystemAlert.t)
  : list SystemAlert.t :=
  match l with
  | [] => [a]
  | b :: l' =>
      if Qltb (SystemAlert.timestamp a) (SystemAlert.timestamp b)
      then b :: insert_newest_first a l'
      else a :: b :: l'
  end.

Fixpoint sort_newest_first (l : list SystemAlert.t) : list SystemAlert.t :=
  match l with
  | [] => []
  | a :: l' => insert_newest_first a (sort_newest_first l')
  end.

(** [l[:limit]], for a limit of either sign. *)
Definition slice_to {A : Type} (l : list A) (limit : Z) : list A :=
  if (0 <=? limit)%Z
  then firstn (Z.to_nat limit) l
  else firstn (List.length l - Z.to_nat (- limit)) l.

(** Newest first. *)
Definition newest_first (l : list SystemAlert.t) : Prop :=
  StronglySorted
    (fun a b => SystemAlert.timestamp b <= SystemAlert.timestamp a) l.

(** The alerts of the history that [get_alerts] selects. *)
Definition matching_alerts (self : t) (component : option SystemComponent)
  (level : option AlertLevel) : list SystemAlert.t :=
  let alerts := _alert_history self in
  let alerts :=
    match component with
    | Some c =>
        filter (fun a => SystemComponent_eqb (SystemAlert.component a) c)
               alerts
    | None => alerts
    end in
  match level with
  | Some l => filter (fun a => AlertLevel_eqb (SystemAlert.level a) l) alerts
  | None => alerts
  end.

(** [get_alerts]. *)
Definition get_alerts (self : t) (component : option SystemComponent)
  (level : option AlertLevel) (limit : Z) : list SystemAlert.t :=
  slice_to (sort_newest_first (matching_alerts self component level)) limit.

(** [get_system_health]. *)
Definition get_system_health (self : t) : list (SystemComponent * Q) :=
  map (fun kv => (fst kv, ComponentStatus.health (snd kv)))
      (_component_status self).

(** Why a metrics or health helper fails. *)
Inductive Failure : Type :=
| KeyError
| TypeError          (* awaiting something that is not awaitable *)
| AttributeError.    (* the method does not exist *)

(** [_get_battery_status] awaits [self._component_status[POWER]], a
    [ComponentStatus]. *)
Definition _get_battery_status (self : t) : Failure :=
  match Dict.get SystemComponent_eqb (_component_status self) POWER with
  | None => KeyError
  | Some _ => TypeError
  end.

(** [_collect_component_metrics].  For POWER the battery status cannot be
    obtained; [_get_projection_metrics], [_get_thermal_metrics] and
    [_get_motion_metrics] are not defined.  Each failure is logged and the
    method returns the empty dict, which is also what INTERFACE and SAFETY
    get. *)
Definition _collect_component_metrics (self : t)
  (component : SystemComponent) : list (string * Q) :=
  match component with
  | POWER => match _get_battery_status self with _ => [] end
  | PROJECTION | THERMAL | MOTION =>
      match AttributeError with _ => [] end
  | INTERFACE | SAFETY => []
  end.

(** [_calculate_component_health].  [_calculate_power_health] and
    [_calculate_thermal_health] are not defined: the [except] returns 0.0. *)
Definition _calculate_component_health (component : SystemComponent)
  (metrics : list (string * Q)) : Q :=
  match component with
  | POWER | THERMAL => match AttributeError with _ => 0.0 end
  | _ => 100.0
  end.

(** [_update_component_status].  For an unknown component the lookup of its
    alerts raises; the alert the [except] then tries to record is for the
    same unknown component and is not recorded. *)
Definition _update_component_status (now : Q) (self : t)
  (component : SystemComponent) : t :=
  let metrics := _collect_component_metrics self component in
  let health := _calculate_component_health component metrics in
  match Dict.get SystemComponent_eqb (_component_status self) component with
  | None =>
      _record_alert self component ERROR (Text "Status update failed")
                    now None
  | Some old =>
      mk (Dict.set SystemComponent_eqb (_component_status self) component
            (ComponentStatus.mk component
               (if Qltb 50 health then "operational" else "degraded")
               health now metrics (ComponentStatus.alerts old)))
         (_alert_history self) (_alert_callbacks self) (_is_monitoring self)
         (_status_update_interval self) (_alert_retention_period self)
         (callback_calls self)
  end.

(** [_update_all_components]: the coroutines gathered have no point at
    which they yield, so they run one after the other. *)
Definition _update_all_components (self : t) (now : Q) : t :=
  fold_left (_update_component_status now) all_components self.

(** One iteration of [_status_update_loop], with the clock readings of the
    update and of the analysis. *)
Definition poll (self : t) (updated analysed : Q) : t :=
  _analyze_system_health (_update_all_components self updated) analysed.

(** What happens to a monitor between its initialisation and its cleanup. *)
Inductive Step : Type :=
| Record_alert (component : SystemComponent) (level : AlertLevel)
    (message : Message) (now : Q) (data : option (list (string * Q)))
| Poll (updated analysed : Q)
| Sweep (now : Q)
| Register (level : AlertLevel) (callback : Callback)
| Unregister (level : AlertLevel) (callback : Callback).

Definition step (self : t) (s : Step) : t :=
  match s with
  | Record_alert c l m now d => _record_alert self c l m now d
  | Poll updated analysed => poll self updated analysed
  | Sweep now => sweep_alerts self now
  | Register l cb => register_alert_callback self l cb
  | Unregister l cb => unregister_alert_callback self l cb
  end.

Definition steps (self : t) (ss : list Step) : t := fold_left step ss self.

(** Every component is known, each once, and the alerts kept with a
    component are the alerts of the history that are about it. *)
Definition consistent (self : t) : Prop :=
  NoDup (Dict.keys (_component_status self))
  /\ (forall c, Dict.get SystemComponent_eqb (_component_status self) c
                <> None)
  /\ (forall c st,
        Dict.get SystemComponent_eqb (_component_status self) c = Some st ->
        ComponentStatus.alerts st
        = filter (fun a => SystemComponent_eqb (SystemAlert.component a) c)
                 (_alert_history self)).

End StatusMonitor.

(** ** [src/core/system_interface/safety_manager.py] *)

Module SafetyManager.

Inductive SafetyCondition : Type :=
| TEMPERATURE | POWER | PROJECTION | MECHANICAL | ENVIRONMENT.

Definition SafetyCondition_eqb (a b : SafetyCondition) : bool :=
  match a, b with
  | TEMPERATURE, TEMPERATURE | POWER, POWER | PROJECTION, PROJECTION
  | MECHANICAL, MECHANICAL | ENVIRONMENT, ENVIRONMENT => true
  | _, _ => false
  end.

(** [for condition in SafetyCondition]: the members in definition order. *)
Definition all_conditions : list SafetyCondition :=
  [TEMPERATURE; POWER; PROJECTION; MECHANICAL; ENVIRONMENT].

Definition SafetyCondition_value (c : SafetyCondition) : string :=
  match c with
  | TEMPERATURE => "temperature"
  | POWER => "power"
  | PROJECTION => "projection"
  | MECHANICAL => "mechanical"
  | ENVIRONMENT => "environment"
  end.

Inductive SafetyAction : Type :=
| NOTIFY | THROTTLE | SHUTDOWN | EMERGENCY_SHUTDOWN.

Definition SafetyAction_eqb (a b : SafetyAction) : bool :=
  match a, b with
  | NOTIFY, NOTIFY | THROTTLE, THROTTLE | SHUTDOWN, SHUTDOWN
  | EMERGENCY_SHUTDOWN, EMERGENCY_SHUTDOWN => true
  | _, _ => false
  end.

Definition all_actions : list SafetyAction :=
  [NOTIFY; THROTTLE; SHUTDOWN; EMERGENCY_SHUTDOWN].

(** The dataclass has no [__post_init__]: building a threshold is building
    the record, whatever the levels. *)
Module SafetyThreshold.
Record t : Type := mk {
  condition : SafetyCondition;
  warning_level : Q;
  critical_level : Q;
  action : SafetyAction;
  recovery_level : Q
}.
End SafetyThreshold.

(** The three description templates of a [SafetyEvent]. *)
Inductive Description : Type :=
| Critical_level (c : SafetyCondition) (value : Q)
| Warning_level (c : SafetyCondition) (value : Q)
| Recovered (c : SafetyCondition).

Module SafetyEvent.
Record t : Type := mk {
  condition : SafetyCondition;
  level : Q;
  action_taken : SafetyAction;
  timestamp : Q;
  description : Description
}.
End SafetyEvent.

(** A registered safety handler is known by a number. *)
Definition Handler : Type := nat.

(** One call of [_execute_safety_action]: its arguments and the handlers it
    awaited, in order. *)
Module Execution.
Record t : Type := mk {
  action : SafetyAction;
  condition : SafetyCondition;
  value : Q;
  handlers : list Handler
}.
End Execution.

Record t : Type := mk {
  _status_monitor : StatusMonitor.t;
  _is_monitoring : bool;
  _safety_check_interval : Q;
  _thresholds : list (SafetyCondition * SafetyThreshold.t);
  _current_conditions : list (SafetyCondition * Q);
  _active_warnings : list (SafetyCondition * Q);
  _safety_events : list SafetyEvent.t;
  _event_handlers : list (SafetyAction * list Handler);
  executions : list Execution.t
}.

Definition default_thresholds : list (SafetyCondition * SafetyThreshold.t) :=
  [ (TEMPERATURE, SafetyThreshold.mk TEMPERATURE 40.0 50.0 SHUTDOWN 35.0);
    (POWER,       SafetyThreshold.mk POWER 15.0 5.0 SHUTDOWN 20.0);
    (PROJECTION,  SafetyThreshold.mk PROJECTION 80.0 95.0 THROTTLE 70.0);
    (MECHANICAL,  SafetyThreshold.mk MECHANICAL 85.0 95.0
                                     EMERGENCY_SHUTDOWN 75.0);
    (ENVIRONMENT, SafetyThreshold.mk ENVIRONMENT 85.0 95.0 NOTIFY 75.0) ].

(** The two alert callbacks the manager registers.  Both are [async def] and
    the monitor calls them without awaiting, which only creates a coroutine
    object: their bodies never run. *)
Definition _handle_system_warning : StatusMonitor.Callback := 0%nat.
Definition _handle_system_critical : StatusMonitor.Callback := 1%nat.

Definition __init__ (status_monitor : StatusMonitor.t) : t :=
  mk (StatusMonitor.register_alert_callback
        (StatusMonitor.register_alert_callback status_monitor
           StatusMonitor.WARNING _handle_system_warning)
        StatusMonitor.CRITICAL _handle_system_critical)
     false 0.1 default_thresholds [] [] []
     (map (fun a => (a, [])) all_actions) [].

Definition set_status_monitor (self : t) (m : StatusMonitor.t) : t :=
  mk m (_is_monitoring self) (_safety_check_interval self) (_thresholds self)
     (_current_conditions self) (_active_warnings self) (_safety_events self)
     (_event_handlers self) (executions self).

Definition set_current_conditions (self : t)
  (d : list (SafetyCondition * Q)) : t :=
  mk (_status_monitor self) (_is_monitoring self)
     (_safety_check_interval self) (_thresholds self)
     d (_active_warnings self) (_safety_events self)
     (_event_handlers self) (executions self).

Definition set_active_warnings (self : t)
  (d : list (SafetyCondition * Q)) : t :=
  mk (_status_monitor self) (_is_monitoring self)
     (_safety_check_interval self) (_thresholds self)
     (_current_conditions self) d (_safety_events self)
     (_event_handlers self) (executions self).

Definition append_event (self : t) (e : SafetyEvent.t) : t :=
  mk (_status_monitor self) (_is_monitoring self)
     (_safety_check_interval self) (_thresholds self)
     (_current_conditions self) (_active_warnings self)
     (_safety_events self ++ [e])
     (_event_handlers self) (executions self).

Definition append_execution (self : t) (x : Execution.t) : t :=
  mk (_status_monitor self) (_is_monitoring self)
     (_safety_check_interval self) (_thresholds self)
     (_current_conditions self) (_active_warnings self) (_safety_events self)
     (_event_handlers self) (executions self ++ [x]).

(** [self._current_conditions[condition] = value]. *)
Definition set_condition (self : t) (condition : SafetyCondition) (value : Q)
  : t :=
  set_current_conditions self
    (Dict.set SafetyCondition_eqb (_current_conditions self) condition value).

(** The part of [initialize] that fills [_current_conditions]. *)
Definition initialize (self : t) : t :=
  let self1 :=
    fold_left (fun s c => set_condition s c 0.0) all_conditions self in
  mk (_status_monitor self1) true (_safety_check_interval self1)
     (_thresholds self1) (_current_conditions self1) (_active_warnings self1)
     (_safety_events self1) (_event_handlers self1) (executions self1).

Definition register_safety_handler (self : t) (action : SafetyAction)
  (handler : Handler) : t :=
  match Dict.get SafetyAction_eqb (_event_handlers self) action with
  | Some hs =>
      mk (_status_monitor self) (_is_monitoring self)
         (_safety_check_interval self) (_thresholds self)
         (_current_conditions self) (_active_warnings self)
         (_safety_events self)
         (Dict.set SafetyAction_eqb (_event_handlers self) action
                   (hs ++ [handler]))
         (executions self)
  | None => self
  end.

(** [_execute_safety_action].  Each handler runs in its own [try]; the three
    built-in [_perform_*] methods only log.  A missing key in
    [_event_handlers] ends the method in its [except] before any handler. *)
Definition _execute_safety_action (self : t) (action : SafetyAction)
  (condition : SafetyCondition) (value : Q) : t :=
  match Dict.get SafetyAction_eqb (_event_handlers self) action with
  | Some hs => append_execution self (Execution.mk action condition value hs)
  | None => append_execution self (Execution.mk action condition value [])
  end.

(** [await self._status_monitor._record_alert(...)]: the alert is recorded,
    then awaiting the [None] it returns raises [TypeError], which the
    caller's [except] swallows; in each caller it is the last statement. *)
Definition notify_status_monitor (self : t) (level : StatusMonitor.AlertLevel)
  (text : string) (now : Q) : t :=
  set_status_monitor self
    (StatusMonitor._record_alert (_status_monitor self) StatusMonitor.SAFETY
       level (StatusMonitor.Text text) now None).

Definition _handle_critical_condition (self : t)
  (condition : SafetyCondition) (value : Q) (now : Q) : t :=
  match Dict.get SafetyCondition_eqb (_thresholds self) condition with
  | None => self
  | Some threshold =>
      let event :=
        SafetyEvent.mk condition value (SafetyThreshold.action threshold) now
                       (Critical_level condition value) in
      let self1 := append_event self event in
      let self2 :=
        _execute_safety_action self1 (SafetyThreshold.action threshold)
                               condition value in
      notify_status_monitor self2 StatusMonitor.CRITICAL
        ("Critical safety condition: " ++ SafetyCondition_value condition) now
  end.

Definition _handle_warning_condition (self : t)
  (condition : SafetyCondition) (value : Q) (now : Q) : t :=
  if negb (Dict.mem SafetyCondition_eqb (_active_warnings self) condition)
  then
    let self1 :=
      set_active_warnings self
        (Dict.set SafetyCondition_eqb (_active_warnings self) condition now) in
    let event :=
      SafetyEvent.mk condition value NOTIFY now
                     (Warning_level condition value) in
    let self2 := append_event self1 event in
    notify_status_monitor self2 StatusMonitor.WARNING
      ("Safety warning condition: " ++ SafetyCondition_value condition) now
  else self.

(** [_handle_condition_recovery].  The warning is deleted before
    [self._current_conditions[condition]] is read for the event. *)
Definition _handle_condition_recovery (self : t)
  (condition : SafetyCondition) (now : Q) : t :=
  if Dict.mem SafetyCondition_eqb (_active_warnings self) condition
  then
    let self1 :=
      set_active_warnings self
        (Dict.del SafetyCondition_eqb (_active_warnings self) condition) in
    match Dict.get SafetyCondition_eqb (_current_conditions self1) condition
    with
    | None => self1
    | Some level =>
        let event :=
          SafetyEvent.mk condition level NOTIFY now (Recovered condition) in
        let self2 := append_event self1 event in
        notify_status_monitor self2 StatusMonitor.INFO
          ("Safety condition recovered: " ++ SafetyCondition_value condition)
          now
    end
  else self.

Definition _check_safety_threshold (self : t) (condition : SafetyCondition)
  (now : Q) : t :=
  match Dict.get SafetyCondition_eqb (_current_conditions self) condition with
  | None => self
  | Some current_value =>
      match Dict.get SafetyCondition_eqb (_thresholds self) condition with
      | None => self
      | Some threshold =>
          if Qle_bool (SafetyThreshold.critical_level threshold) current_value
          then _handle_critical_condition self condition current_value now
          else if Qle_bool (SafetyThreshold.warning_level threshold)
                           current_value
          then _handle_warning_condition self condition current_value now
          else if Dict.mem SafetyCondition_eqb (_active_warnings self)
                           condition
                  && Qle_bool current_value
                              (SafetyThreshold.recovery_level threshold)
          then _handle_condition_recovery self condition now
          else self
      end
  end.

(** The loop of [_process_safety_actions] over the items of
    [_current_conditions]; a condition without a threshold raises
    [KeyError], which ends the loop. *)
Fixpoint process_items (self : t) (items : list (SafetyCondition * Q)) : t :=
  match items with
  | [] => self
  | (condition, value) :: rest =>
      match Dict.get SafetyCondition_eqb (_thresholds self) condition with
      | None => self
      | Some threshold =>
          if Qle_bool (SafetyThreshold.critical_level threshold) value
          then process_items
                 (_execute_safety_action self
                    (SafetyThreshold.action threshold) condition value)
                 rest
          else process_items self rest
      end
  end.

Definition _process_safety_actions (self : t) : t :=
  process_items self (_current_conditions self).

(** One iteration of [_safety_monitor_loop] after the condition values have
    been updated: every threshold is checked, then pending actions are
    processed. *)
Definition check_all_thresholds (self : t) (now : Q) : t :=
  fold_left (fun s c => _check_safety_threshold s c now) all_conditions self.

Definition evaluate (self : t) (now : Q) : t :=
  _process_safety_actions (check_all_thresholds self now).

(** A polling tick in which [condition] reads [value] and every other
    condition keeps the value it had. *)
Definition tick (condition : SafetyCondition) (self : t)
  (reading : Q * Q) : t :=
  let '(value, now) := reading in
  evaluate (set_condition self condition value) now.

(** Successive ticks, each with its value and its clock reading. *)
Definition run (condition : SafetyCondition) (self : t)
  (readings : list (Q * Q)) : t :=
  fold_left (tick condition) readings self.

(** *** Reading the monitor for one condition *)

(** The events recorded for [c], oldest first. *)
Definition events_of (c : SafetyCondition) (self : t) : list SafetyEvent.t :=
  filter (fun e => SafetyCondition_eqb (SafetyEvent.condition e) c)
         (_safety_events self).

(** The calls of [_execute_safety_action] made for [c]: action and value,
    oldest first. *)
Definition executed_for (c : SafetyCondition) (self : t)
  : list (SafetyAction * Q) :=
  map (fun x => (Execution.action x, Execution.value x))
      (filter (fun x => SafetyCondition_eqb (Execution.condition x) c)
              (executions self)).

(** [c in self._active_warnings]. *)
Definition warned (c : SafetyCondition) (self : t) : bool :=
  Dict.mem SafetyCondition_eqb (_active_warnings self) c.

Definition observe (c : SafetyCondition) (self : t)
  : list SafetyEvent.t * list (SafetyAction * Q) * bool :=
  (events_of c self, executed_for c self, warned c self).

(** What no method modelled here assigns. *)
Definition configuration (self : t)
  : list (SafetyCondition * SafetyThreshold.t)
    * list (SafetyAction * list Handler) :=
  (_thresholds self, _event_handlers self).

(** Two monitors with the same thresholds, handlers and condition values. *)
Definition same_inputs (a b : t) : Prop :=
  configuration a = configuration b
  /\ _current_conditions a = _current_conditions b.

(** The effect of [_check_safety_threshold] for [c] on what is observed for
    [c], when [c] reads [value] against [threshold]. *)
Definition check_effect (c : SafetyCondition) (threshold : SafetyThreshold.t)
  (value now : Q)
  (o : list SafetyEvent.t * list (SafetyAction * Q) * bool)
  : list SafetyEvent.t * list (SafetyAction * Q) * bool :=
  let '(events, executed, is_warned) := o in
  if Qle_bool (SafetyThreshold.critical_level threshold) value
  then (events ++ [SafetyEvent.mk c value (SafetyThreshold.action threshold)
                     now (Critical_level c value)],
        executed ++ [(SafetyThreshold.action threshold, value)],
        is_warned)
  else if Qle_bool (SafetyThreshold.warning_level threshold) value
  then if is_warned then o
       else (events ++ [SafetyEvent.mk c value NOTIFY now
                          (Warning_level c value)],
             executed, true)
  else if is_warned
          && Qle_bool value (SafetyThreshold.recovery_level threshold)
  then (events ++ [SafetyEvent.mk c value NOTIFY now (Recovered c)],
        executed, false)
  else o.

(** The effect of [_process_safety_actions] on what is observed for [c]. *)
Definition process_effect (threshold : SafetyThreshold.t) (value : Q)
  (o : list SafetyEvent.t * list (SafetyAction * Q) * bool)
  : list SafetyEvent.t * list (SafetyAction * Q) * bool :=
  let '(events, executed, is_warned) := o in
  if Qle_bool (SafetyThreshold.critical_level threshold) value
  then (events, executed ++ [(SafetyThreshold.action threshold, value)],
        is_warned)
  else o.

(** The effect of one tick on what is observed for the condition fed. *)
Definition tick_effect (c : SafetyCondition) (threshold : SafetyThreshold.t)
  (o : list SafetyEvent.t * list (SafetyAction * Q) * bool)
  (reading : Q * Q)
  : list SafetyEvent.t * list (SafetyAction * Q) * bool :=
  let '(value, now) := reading in
  process_effect threshold value (check_effect c threshold value now o).

(** The value sequence of the hysteresis property for a threshold, with the
    clock readings of the five ticks. *)
Definition hysteresis_readings (threshold : SafetyThreshold.t)
  (t1 t2 t3 t4 t5 : Q) : list (Q * Q) :=
  [ (0, t1);
    (SafetyThreshold.warning_level threshold + 1, t2);
    (SafetyThreshold.critical_level threshold + 1, t3);
    (SafetyThreshold.warning_level threshold + 1, t4);
    (SafetyThreshold.recovery_level threshold - 1, t5) ].

(** The events of the three kinds. *)
Definition is_critical_event (e : SafetyEvent.t) : bool :=
  match SafetyEvent.description e with
  | Critical_level _ _ => true
  | _ => false
  end.

Definition is_recovery_event (e : SafetyEvent.t) : bool :=
  match SafetyEvent.description e with
  | Recovered _ => true
  | _ => false
  end.

(** A monitor built over an initialised status monitor and then initialised
    itself: default thresholds, every condition at 0.0, no warning, no event. *)
Definition fresh_monitor (now : Q) : t :=
  initialize (__init__ (StatusMonitor.initialize StatusMonitor.__init__ now)).

(** The condition values are those of a dict (no key twice) and every one of
    them has a threshold. *)
Definition well_formed (self : t) : Prop :=
  NoDup (Dict.keys (_current_conditions self))
  /\ forall k, In k (Dict.keys (_current_conditions self)) ->
               Dict.get SafetyCondition_eqb (_thresholds self) k <> None.

(** *** The monitoring loop *)

(** [status.metrics.get(name, 0.0)]. *)
Definition metric (status : StatusMonitor.ComponentStatus.t) (name : string)
  : Q :=
  match Dict.get String.eqb (StatusMonitor.ComponentStatus.metrics status) name
  with
  | Some v => v
  | None => 0.0
  end.

(** [_calculate_mechanical_stress]. *)
Definition _calculate_mechanical_stress (acceleration vibration : Q) : Q :=
  let max_acceleration := 10.0 in
  let max_vibration := 100.0 in
  let acceleration_factor := py_min (acceleration / max_acceleration) 1.0 in
  let vibration_factor := py_min (vibration / max_vibration) 1.0 in
  (acceleration_factor * 0.7 + vibration_factor * 0.3) * 100.0.

(** [_update_mechanical_conditions]: an unknown MOTION component is logged
    and nothing is assigned. *)
Definition _update_mechanical_conditions (self : t) : t :=
  match StatusMonitor.get_component_status (_status_monitor self)
          StatusMonitor.MOTION with
  | None => self
  | Some motion_status =>
      let acceleration := metric motion_status "acceleration" in
      let vibration := metric motion_status "vibration" in
      set_condition self MECHANICAL
        (_calculate_mechanical_stress acceleration vibration)
  end.

Definition _update_environmental_conditions (self : t) : t :=
  set_condition self ENVIRONMENT 50.0.

(** [_update_safety_conditions]; [None] stands for the [SafetyError] it
    raises when one of the three components is unknown, which happens before
    anything is assigned. *)
Definition _update_safety_conditions (self : t) : option t :=
  match StatusMonitor.get_component_status (_status_monitor self)
          StatusMonitor.POWER,
        StatusMonitor.get_component_status (_status_monitor self)
          StatusMonitor.THERMAL,
        StatusMonitor.get_component_status (_status_monitor self)
          StatusMonitor.PROJECTION
  with
  | Some power_status, Some thermal_status, Some projection_status =>
      let self1 :=
        set_condition self TEMPERATURE (metric thermal_status "temperature") in
      let self2 :=
        set_condition self1 POWER (metric power_status "battery_level") in
      let self3 :=
        set_condition self2 PROJECTION
                      (metric projection_status "power_level") in
      Some (_update_environmental_conditions
              (_update_mechanical_conditions self3))
  | _, _, _ => None
  end.

(** One iteration of [_safety_monitor_loop]: when the update raises, the
    loop's [except] skips the checks of that iteration. *)
Definition loop_iteration (self : t) (now : Q) : t :=
  match _update_safety_conditions self with
  | Some self1 => evaluate self1 now
  | None => self
  end.

(** What happens to a running safety manager and the status monitor it
    shares: an iteration of its loop, something happening to the status
    monitor, or the registration of a handler. *)
Inductive Occurrence : Type :=
| Loop (now : Q)
| Monitor (s : StatusMonitor.Step)
| Handler_registered (action : SafetyAction) (handler : Handler).

Definition occur (self : t) (o : Occurrence) : t :=
  match o with
  | Loop now => loop_iteration self now
  | Monitor s =>
      set_status_monitor self (StatusMonitor.step (_status_monitor self) s)
  | Handler_registered action handler =>
      register_safety_handler self action handler
  end.

Definition occurrences (self : t) (os : list Occurrence) : t :=
  fold_left occur os self.

(** No component of the status monitor has a metric. *)
Definition no_metrics (m : StatusMonitor.t) : Prop :=
  forall c st,
    StatusMonitor.get_component_status m c = Some st ->
    StatusMonitor.ComponentStatus.metrics st = [].

(** The condition values after an update that found no metric. *)
Definition idle_conditions : list (SafetyCondition * Q) :=
  [ (TEMPERATURE, 0.0); (POWER, 0.0); (PROJECTION, 0.0);
    (MECHANICAL, _calculate_mechanical_stress 0.0 0.0);
    (ENVIRONMENT, 50.0) ].

(** The event of a reading handled as critical. *)
Definition critical_event (c : SafetyCondition) (th : SafetyThreshold.t)
  (reading : Q * Q) : SafetyEvent.t :=
  SafetyEvent.mk c (fst reading) (SafetyThreshold.action th) (snd reading)
                 (Critical_level c (fst reading)).

(** The readings at or above the critical level of a threshold. *)
Definition critical_readings (th : SafetyThreshold.t)
  (readings : list (Q * Q)) : list (Q * Q) :=
  filter (fun r => Qle_bool (SafetyThreshold.critical_level th) (fst r))
         readings.

(** A manager that has had nothing to act on: its status monitor is
    consistent and holds no metric, the thresholds are the default ones, and
    there is no warning, no event and no execution. *)
Definition idle (self : t) : Prop :=
  StatusMonitor.consistent (_status_monitor self)
  /\ no_metrics (_status_monitor self)
  /\ _thresholds self = default_thresholds
  /\ _active_warnings self = []
  /\ _safety_events self = []
  /\ executions self = []
  /\ (_current_conditions self = map (fun c => (c, 0.0)) all_conditions
      \/ _current_conditions self = idle_conditions).

End SafetyManager.

(** ** [src/core/system_interface/main_controller.py] *)

Module MainController.

Inductive SystemState : Type :=
| INITIALIZING | READY | PROJECTING | INTERACTIVE | LOW_POWER | ERROR
| SHUTDOWN.

Definition SystemState_eqb (a b : SystemState) : bool :=
  match a, b with
  | INITIALIZING, INITIALIZING | READY, READY | PROJECTING, PROJECTING
  | INTERACTIVE, INTERACTIVE | LOW_POWER, LOW_POWER | ERROR, ERROR
  | SHUTDOWN, SHUTDOWN => true
  | _, _ => false
  end.

(** The exceptions that occur on the paths modelled here. *)
Inductive Exception : Type :=
| AttributeError (class_name attribute : string)
| TypeError (text : string)
| HardwareError (text device : string)
| InteractionError (text interaction_type : string)
| OtherError (text : string).

(** The drivers under [src/hardware] reach the register transport.  A call
    into a driver is represented by its outcome, which the environment
    decides: [true] when the call returns, [false] when it raises. *)
Record Environment : Type := mkEnv {
  motion_stop_monitoring_returns : bool;
  laser_disable_emission_returns : bool;
  laser_reset_returns : bool;
  mems_emergency_stop_returns : bool
}.

Inductive GestureType : Type :=
| SWIPE_LEFT | SWIPE_RIGHT | SWIPE_UP | SWIPE_DOWN | PINCH | SPREAD
| ROTATE_CW | ROTATE_CCW | TAP | DOUBLE_TAP | HOLD.

Module GestureRecognizer.
Record t : Type := mk {
  _initialized : bool;
  _current_gesture : option (GestureType * Q);
  _gesture_history : list (GestureType * Q);
  _motion_buffer : list (Q * Q * Q)
}.
Definition __init__ : t := mk false None [] [].
End GestureRecognizer.

Module LaserController.
Record t : Type := mk { _is_active : bool }.
Definition __init__ : t := mk false.
End LaserController.

Module MEMSController.
Record t : Type := mk { _is_scanning : bool }.
Definition __init__ : t := mk false.
End MEMSController.

(** The coordinator, with the components whose methods are modelled. *)
Record t : Type := mk {
  state : SystemState;
  status_monitor : StatusMonitor.t;
  gesture_recognizer : GestureRecognizer.t;
  laser_controller : LaserController.t;
  mems_controller : MEMSController.t
}.

(** The constructor.  Its status monitor is the one that
    [SafetyManager(self.status_monitor)] has registered its two alert
    callbacks with. *)
Definition __init__ : t :=
  mk INITIALIZING
     (SafetyManager._status_monitor
        (SafetyManager.__init__ StatusMonitor.__init__))
     GestureRecognizer.__init__
     LaserController.__init__ MEMSController.__init__.

(** *** Methods as computations that may raise

    A method runs on the coordinator and either returns a value or raises;
    what it changed before raising stays changed. *)

Inductive Outcome (A : Type) : Type :=
| Return (a : A)
| Raise (e : Exception).
Arguments Return {A} a.
Arguments Raise {A} e.

Definition M (A : Type) : Type := t -> Outcome A * t.

Definition ret {A : Type} (a : A) : M A := fun s => (Return a, s).

Definition raise {A : Type} (e : Exception) : M A := fun s => (Raise e, s).

Definition bind {A B : Type} (m : M A) (k : A -> M B) : M B :=
  fun s =>
    match m s with
    | (Return a, s') => k a s'
    | (Raise e, s') => (Raise e, s')
    end.

(** [try: body  except Exception as e: handler]. *)
Definition try_except {A : Type} (body : M A) (handler : Exception -> M A)
  : M A :=
  fun s =>
    match body s with
    | (Return a, s') => (Return a, s')
    | (Raise e, s') => handler e s'
    end.

Definition modify (f : t -> t) : M unit := fun s => (Return tt, f s).

Definition get_state : M SystemState := fun s => (Return (state s), s).

Notation "x <- m ;; k" := (bind m (fun x => k))
  (at level 61, m at next level, right associativity).
Notation "m ;;; k" := (bind m (fun _ => k))
  (at level 61, right associativity).

Definition set_state (v : SystemState) : M unit :=
  modify (fun s =>
    mk v (status_monitor s) (gesture_recognizer s) (laser_controller s)
       (mems_controller s)).

Definition set_gesture_recognizer (f : GestureRecognizer.t -> GestureRecognizer.t)
  : M unit :=
  modify (fun s =>
    mk (state s) (status_monitor s) (f (gesture_recognizer s))
       (laser_controller s) (mems_controller s)).

Definition set_laser_is_active (b : bool) : M unit :=
  modify (fun s =>
    mk (state s) (status_monitor s) (gesture_recognizer s)
       (LaserController.mk b) (mems_controller s)).

Definition set_mems_is_scanning (b : bool) : M unit :=
  modify (fun s =>
    mk (state s) (status_monitor s) (gesture_recognizer s)
       (laser_controller s) (MEMSController.mk b)).

(** A driver call: returns or raises as the environment says. *)
Definition driver_call (returns : bool) (e : Exception) : M unit :=
  if returns then ret tt else raise e.

(** [MotionDriver] defines [stop_monitoring] and [shutdown], and no
    [cleanup]: looking the attribute up raises [AttributeError]. *)
Definition MotionDriver_stop_monitoring (env : Environment) : M unit :=
  driver_call (motion_stop_monitoring_returns env)
              (HardwareError "Monitoring stop failed" "motion_sensor").

Definition MotionDriver_cleanup : M unit :=
  raise (AttributeError "MotionDriver" "cleanup").

(** [GestureRecognizer.cleanup]. *)
Definition GestureRecognizer_cleanup (env : Environment) : M unit :=
  try_except
    (set_gesture_recognizer (fun g =>
       GestureRecognizer.mk false (GestureRecognizer._current_gesture g)
         (GestureRecognizer._gesture_history g)
         (GestureRecognizer._motion_buffer g)) ;;;
     MotionDriver_stop_monitoring env ;;;
     MotionDriver_cleanup ;;;
     set_gesture_recognizer (fun g =>
       GestureRecognizer.mk (GestureRecognizer._initialized g) None [] []))
    (fun _ => raise (InteractionError "Cleanup failed" "gesture")).

(** [LaserController.emergency_shutdown]. *)
Definition LaserController_emergency_shutdown (env : Environment) : M unit :=
  try_except
    (driver_call (laser_disable_emission_returns env)
                 (OtherError "Emission disable failed") ;;;
     driver_call (laser_reset_returns env)
                 (OtherError "Hardware reset failed") ;;;
     set_laser_is_active false)
    (fun _ => ret tt).

(** [MEMSController.emergency_stop]. *)
Definition MEMSController_emergency_stop (env : Environment) : M unit :=
  try_except
    (driver_call (mems_emergency_stop_returns env)
                 (OtherError "Emergency stop failed") ;;;
     set_mems_is_scanning false)
    (fun _ => ret tt).

(** [BatteryController] defines [_emergency_power_shutdown] and
    [_emergency_thermal_shutdown], and no [emergency_shutdown];
    [SupercapacitorController] defines no [emergency_stop]. *)
Definition BatteryController_emergency_shutdown : M unit :=
  raise (AttributeError "BatteryController" "emergency_shutdown").

Definition SupercapacitorController_emergency_stop : M unit :=
  raise (AttributeError "SupercapacitorController" "emergency_stop").

(** [await self.status_monitor._record_alert(...)]: the alert is recorded and
    awaiting the returned [None] raises [TypeError]. *)
Definition await_record_alert (component : StatusMonitor.SystemComponent)
  (level : StatusMonitor.AlertLevel) (text : string) (now : Q) : M unit :=
  modify (fun s =>
    mk (state s)
       (StatusMonitor._record_alert (status_monitor s) component level
          (StatusMonitor.Text text) now None)
       (gesture_recognizer s) (laser_controller s) (mems_controller s)) ;;;
  raise (TypeError "object NoneType can't be used in 'await' expression").

(** [_handle_emergency_shutdown]. *)
Definition _handle_emergency_shutdown (env : Environment) (now : Q)
  (condition : SafetyManager.SafetyCondition) (value : Q) : M unit :=
  try_except
    (set_state SHUTDOWN ;;;
     LaserController_emergency_shutdown env ;;;
     MEMSController_emergency_stop env ;;;
     BatteryController_emergency_shutdown ;;;
     SupercapacitorController_emergency_stop ;;;
     await_record_alert StatusMonitor.INTERFACE StatusMonitor.CRITICAL
       ("Emergency shutdown: " ++ SafetyManager.SafetyCondition_value condition)
       now)
    (fun _ => ret tt).

(** Hardware on which every driver call returns. *)
Definition responsive_hardware : Environment := mkEnv true true true true.

Section Shutdown.

(** The calls of [shutdown] into components that are not modelled: each may
    do anything to the coordinator and return or raise. *)
Variable stop_hologram_projection : M bool.
Variable voice_processor_cleanup : M unit.
Variable interaction_handler_cleanup : M unit.
Variable laser_controller_cleanup : M unit.
Variable mems_controller_cleanup : M unit.
Variable meta_surface_controller_cleanup : M unit.
Variable _shutdown_power_systems : M unit.
Variable status_monitor_cleanup : M unit.
Variable safety_manager_cleanup : M unit.

(** [shutdown]. *)
Definition shutdown (env : Environment) (now : Q) : M bool :=
  try_except
    (set_state SHUTDOWN ;;;
     st <- get_state ;;
     (if SystemState_eqb st PROJECTING || SystemState_eqb st INTERACTIVE
      then stop_hologram_projection ;;; ret tt
      else ret tt) ;;;
     GestureRecognizer_cleanup env ;;;
     voice_processor_cleanup ;;;
     interaction_handler_cleanup ;;;
     laser_controller_cleanup ;;;
     mems_controller_cleanup ;;;
     meta_surface_controller_cleanup ;;;
     _shutdown_power_systems ;;;
     status_monitor_cleanup ;;;
     safety_manager_cleanup ;;;
     ret true)
    (fun _ =>
       try_except
         (_handle_emergency_shutdown env now SafetyManager.POWER 0.0)
         (fun _ => ret tt) ;;;
       ret false).

End Shutdown.

End MainController.

(** ** [src/core/system_interface.py] *)

Module HolographicSystemInterface.

(** [HolographicProjector], as far as the interface uses it.  The projection
    thread only runs methods whose bodies are [pass]. *)
Module Projector.
Record t : Type := mk {
  meta_surface_array : nat -> nat -> Z;
  is_projecting : bool
}.

Definition __init__ : t := mk (fun _ _ => 0%Z) false.

Definition start_projection (self : t)
  (hologram_data : option (nat -> nat -> Z)) : t :=
  if is_projecting self then self
  else match hologram_data with
       | Some data => mk data true
       | None => mk (meta_surface_array self) true
       end.

Definition stop_projection (self : t) : t :=
  mk (meta_surface_array self) false.
End Projector.

Record t : Type := mk {
  power_system : PowerManagement.PowerManagementSystem;
  projector : Projector.t;
  _is_monitoring : bool
}.

Definition __init__ : t :=
  mk PowerManagement.__init__ Projector.__init__ false.

(** [start_hologram].  A [KeyError] from the power controller is caught by
    the method's [except], which returns [False]. *)
Definition start_hologram (self : t)
  (hologram_data : option (nat -> nat -> Z)) : bool * t :=
  let '(r1, p1) :=
    PowerManagement.request_power_state (power_system self)
                                        PowerManagement.ACTIVE in
  let self1 := mk p1 (projector self) (_is_monitoring self) in
  match r1 with
  | None => (false, self1)
  | Some false => (false, self1)
  | Some true =>
      let '(r2, p2) :=
        PowerManagement.request_power_state p1 PowerManagement.BURST in
      let self2 := mk p2 (projector self) (_is_monitoring self) in
      match r2 with
      | None => (false, self2)
      | Some false =>
          (false,
           mk (snd (PowerManagement.request_power_state
                      p2 PowerManagement.STANDBY))
              (projector self) (_is_monitoring self))
      | Some true =>
          (true,
           mk (PowerManagement.charge_supercapacitor p2)
              (Projector.start_projection (projector self) hologram_data)
              (_is_monitoring self))
      end
  end.

Definition stop_hologram (self : t) : t :=
  mk (snd (PowerManagement.request_power_state (power_system self)
             PowerManagement.STANDBY))
     (Projector.stop_projection (projector self))
     (_is_monitoring self).

Definition _handle_high_temperature (self : t) : t :=
  let self1 :=
    if Projector.is_projecting (projector self)
    then stop_hologram self else self in
  mk (PowerManagement._activate_thermal_management (power_system self1))
     (projector self1) (_is_monitoring self1).

Definition _handle_low_battery (self : t) : t :=
  let self1 :=
    if Projector.is_projecting (projector self)
    then stop_hologram self else self in
  mk (snd (PowerManagement.request_power_state (power_system self1)
             PowerManagement.LOW_POWER))
     (projector self1) (_is_monitoring self1).

(** [shutdown], without the join of the monitoring thread. *)
Definition shutdown (self : t) : t :=
  let self0 := mk (power_system self) (projector self) false in
  let self1 :=
    if Projector.is_projecting (projector self0)
    then stop_hologram self0 else self0 in
  mk (snd (PowerManagement.request_power_state (power_system self1)
             PowerManagement.STANDBY))
     (projector self1) (_is_monitoring self1).

End HolographicSystemInterface.

(** ** [src/core/system_interface/main_controller.py]: starting a projection *)

Module ProjectionStart.

(** What [start_hologram_projection] reaches before its first [return]: the
    state of the coordinator and its safety manager, which holds the status
    monitor the two share. *)
Record t : Type := mk {
  state : MainController.SystemState;
  safety_manager : SafetyManager.t
}.

(** What a call hands back, as far as a truth test goes. *)
Inductive Value : Type :=
| PyNone
| PyBool (b : bool).

(** [bool(v)]. *)
Definition truth (v : Value) : bool :=
  match v with
  | PyNone => false
  | PyBool b => b
  end.

Section Start.

(** [await handler(condition, value)] inside [_execute_safety_action]; what
    the handler raises is logged there.  The handlers are methods of the
    coordinator ([_handle_controlled_shutdown], registered for SHUTDOWN, sets
    the state to SHUTDOWN) and whatever else was registered; what one does
    to the coordinator and to the safety manager is not modelled and may be
    anything. *)
Variable await_handler :
  SafetyManager.Handler -> SafetyManager.SafetyCondition -> Q -> t -> t.

(** What [start_hologram_projection] does once the verification has
    passed, with its own handling of errors: it is not modelled and may do
    anything. *)
Variable start_verified : t -> bool * t.

(** [SafetyManager._execute_safety_action], with what the handlers do: the
    handlers registered for the action are awaited in order. *)
Definition _execute_safety_action (action : SafetyManager.SafetyAction)
  (condition : SafetyManager.SafetyCondition) (value : Q) (self : t) : t :=
  match Dict.get SafetyManager.SafetyAction_eqb
          (SafetyManager._event_handlers (safety_manager self)) action with
  | Some hs =>
      let self1 :=
        fold_left (fun s handler => await_handler handler condition value s)
                  hs self in
      mk (state self1)
         (SafetyManager.append_execution (safety_manager self1)
            (SafetyManager.Execution.mk action condition value hs))
  | None =>
      mk (state self)
         (SafetyManager.append_execution (safety_manager self)
            (SafetyManager.Execution.mk action condition value []))
  end.

(** [SafetyManager._handle_critical_condition], with what the handlers
    do. *)
Definition _handle_critical_condition
  (condition : SafetyManager.SafetyCondition) (value now : Q) (self : t)
  : t :=
  match Dict.get SafetyManager.SafetyCondition_eqb
          (SafetyManager._thresholds (safety_manager self)) condition with
  | None => self
  | Some threshold =>
      let event :=
        SafetyManager.SafetyEvent.mk condition value
          (SafetyManager.SafetyThreshold.action threshold) now
          (SafetyManager.Critical_level condition value) in
      let self1 :=
        mk (state self)
           (SafetyManager.append_event (safety_manager self) event) in
      let self2 :=
        _execute_safety_action
          (SafetyManager.SafetyThreshold.action threshold) condition value
          self1 in
      mk (state self2)
         (SafetyManager.notify_status_monitor (safety_manager self2)
            StatusMonitor.CRITICAL
            ("Critical safety condition: "
             ++ SafetyManager.SafetyCondition_value condition) now)
  end.

(** [await self.safety_manager._check_safety_threshold(condition)].  Only
    the critical branch awaits handlers; the method has no [return]
    statement on any path. *)
Definition check_safety_threshold (condition : SafetyManager.SafetyCondition)
  (now : Q) (self : t) : Value * t :=
  (PyNone,
   match Dict.get SafetyManager.SafetyCondition_eqb
           (SafetyManager._current_conditions (safety_manager self))
           condition,
         Dict.get SafetyManager.SafetyCondition_eqb
           (SafetyManager._thresholds (safety_manager self)) condition
   with
   | Some current_value, Some threshold =>
       if Qle_bool (SafetyManager.SafetyThreshold.critical_level threshold)
                   current_value
       then _handle_critical_condition condition current_value now self
       else mk (state self)
               (SafetyManager._check_safety_threshold (safety_manager self)
                  condition now)
   | _, _ => self
   end).

(** [_verify_projection_safety], with the clock readings of its two
    checks. *)
Definition _verify_projection_safety (now1 now2 : Q) (self : t) : bool * t :=
  let '(v1, self1) :=
    check_safety_threshold SafetyManager.TEMPERATURE now1 self in
  if negb (truth v1) then (false, self1)
  else
    let '(v2, self2) :=
      check_safety_threshold SafetyManager.POWER now2 self1 in
    if negb (truth v2) then (false, self2) else (true, self2).

(** [start_hologram_projection]. *)
Definition start_hologram_projection (now1 now2 : Q) (self : t) : bool * t :=
  let '(ok, self1) := _verify_projection_safety now1 now2 self in
  if negb ok then (false, self1) else start_verified self1.

(** Successive calls of [start_hologram_projection], each with its clock
    readings: what they returned, oldest first, and the coordinator after
    the last. *)
Fixpoint attempts (readings : list (Q * Q)) (self : t) : list bool * t :=
  match readings with
  | [] => ([], self)
  | (now1, now2) :: rest =>
      let '(returned, self1) := start_hologram_projection now1 now2 self in
      let '(later, self2) := attempts rest self1 in
      (returned :: later, self2)
  end.

End Start.

(** The condition reads below the critical level of its threshold, or has
    no reading or no threshold. *)
Definition below_critical (condition : SafetyManager.SafetyCondition)
  (m : SafetyManager.t) : Prop :=
  forall value threshold,
    Dict.get SafetyManager.SafetyCondition_eqb
      (SafetyManager._current_conditions m) condition = Some value ->
    Dict.get SafetyManager.SafetyCondition_eqb
      (SafetyManager._thresholds m) condition = Some threshold ->
    value < SafetyManager.SafetyThreshold.critical_level threshold.

End ProjectionStart.

(** * Properties *)

(** ** Comparisons and dicts *)

Lemma Qltb_lt (a b : Q) : Qltb a b = true <-> a < b.
Proof.
  unfold Qltb. rewrite negb_true_iff. split.
  - intros H. apply Qnot_le_lt. intros Hle.
    apply Qle_bool_iff in Hle. congruence.
  - intros H. destruct (Qle_bool b a) eqn:E; [|reflexivity].
    apply Qle_bool_iff in E. exfalso. apply (Qlt_not_le _ _ H E).
Qed.

Lemma Qltb_ge (a b : Q) : Qltb a b = false <-> b <= a.
Proof.
  unfold Qltb. rewrite negb_false_iff. apply Qle_bool_iff.
Qed.

Lemma Qle_bool_false (a b : Q) : Qle_bool a b = false <-> b < a.
Proof.
  rewrite <- Qltb_lt. unfold Qltb. now rewrite negb_true_iff.
Qed.

(** ** The power controller *)

Section PowerController.
Import PowerManagement.

Lemma PowerState_eqb_eq (a b : PowerState) :
  PowerState_eqb a b = true <-> a = b.
Proof. destruct a, b; simpl; split; intros H; congruence. Qed.

Lemma state_in_In (x : PowerState) (xs : list PowerState) :
  state_in x xs = true <-> In x xs.
Proof.
  unfold state_in. rewrite existsb_exists. split.
  - intros [y [Hy E]]. apply PowerState_eqb_eq in E. now subst.
  - intros H. exists x. split; [assumption|]. now apply PowerState_eqb_eq.
Qed.

Lemma validate_spec (self : PowerManagementSystem) (t : PowerState)
  (targets : list PowerState) :
  dict_get valid_transitions (current_state self) = Some targets ->
  (_validate_state_transition self t = true <-> In t targets).
Proof.
  intros H. unfold _validate_state_transition. rewrite H. apply state_in_In.
Qed.

(** Every state has an entry in the adjacency table. *)
Lemma valid_transitions_total (s : PowerState) :
  exists targets, dict_get valid_transitions s = Some targets.
Proof. destruct s; eexists; reflexivity. Qed.

(** A request that does not return [True] leaves the whole controller as it
    was. *)
Lemma request_failure_unchanged (self : PowerManagementSystem)
  (t : PowerState) :
  fst (request_power_state self t) <> Some true ->
  snd (request_power_state self t) = self.
Proof.
  unfold request_power_state.
  destruct (negb (_validate_state_transition self t)); [reflexivity|].
  destruct (dict_get (power_profiles self) t) as [profile|]; [|reflexivity].
  destruct (negb (_check_power_availability self _)); [reflexivity|].
  simpl. intros H. now contradiction H.
Qed.

(** C1.  When the requested state is not in the adjacency-table entry of the
    current state, [request_power_state] returns [False] from its first
    guard (the specification's [InvalidTransition]) and the controller,
    [current_state] and power sources included, is exactly as before: no
    profile has been applied.  More generally the controller is unchanged
    whenever the request does not return [True]. *)
Theorem request_power_state_invalid_transition
  (self : PowerManagementSystem) (t : PowerState) :
  (forall targets,
      dict_get valid_transitions (current_state self) = Some targets ->
      ~ In t targets ->
      rejection self t = Some InvalidTransition
      /\ request_power_state self t = (Some false, self))
  /\ (fst (request_power_state self t) <> Some true ->
      snd (request_power_state self t) = self
      /\ current_state (snd (request_power_state self t))
         = current_state self).
Proof.
  split.
  - intros targets Htab Hnot.
    assert (Hv : _validate_state_transition self t = false).
    { destruct (_validate_state_transition self t) eqn:E; [|reflexivity].
      exfalso. apply Hnot. now apply (validate_spec self t targets Htab). }
    unfold rejection, request_power_state. rewrite Hv. simpl. now split.
  - intros H. rewrite (request_failure_unchanged self t H). now split.
Qed.

Lemma request_power_state_invalid_transition_witness :
  rejection __init__ BURST = Some InvalidTransition
  /\ request_power_state __init__ BURST = (Some false, __init__).
Proof.
  apply (proj1 (request_power_state_invalid_transition __init__ BURST)
               [ACTIVE; LOW_POWER]).
  - reflexivity.
  - simpl. intros [H|[H|H]]; [discriminate H | discriminate H | exact H].
Defined.

(** *** The supercapacitor *)

Lemma apply_profile_voltage (self : PowerManagementSystem) (t : PowerState)
  (profile : PowerProfile.t) :
  Supercapacitor.voltage (supercapacitor (_apply_power_profile self t profile))
  = Supercapacitor.voltage (supercapacitor self).
Proof.
  unfold _apply_power_profile. destruct (PowerState_eqb t BURST); reflexivity.
Qed.

Lemma request_voltage (self : PowerManagementSystem) (t : PowerState) :
  Supercapacitor.voltage (supercapacitor (snd (request_power_state self t)))
  = Supercapacitor.voltage (supercapacitor self).
Proof.
  unfold request_power_state.
  destruct (negb (_validate_state_transition self t)); [reflexivity|].
  destruct (dict_get (power_profiles self) t) as [profile|]; [|reflexivity].
  destruct (negb (_check_power_availability self _)); [reflexivity|].
  simpl. now rewrite apply_profile_voltage.
Qed.

Lemma charge_supercapacitor_id (self : PowerManagementSystem) :
  charge_supercapacitor self = self.
Proof.
  unfold charge_supercapacitor.
  destruct (Qltb 50.0 (battery_level self)); [|reflexivity].
  unfold Supercapacitor.charge, set_supercapacitor. now destruct self.
Qed.

Lemma call_voltage (self : PowerManagementSystem) (c : Call) :
  Supercapacitor.voltage (supercapacitor (call self c))
  = Supercapacitor.voltage (supercapacitor self).
Proof.
  destruct c; simpl; try reflexivity.
  - apply request_voltage.
  - unfold optimize_power_consumption, _activate_thermal_management.
    destruct (Qltb (battery_level self) 20.0);
      match goal with
      | |- context [if ?b then _ else _] => destruct b
      end; rewrite ?request_voltage; reflexivity.
  - now rewrite charge_supercapacitor_id.
Qed.

Lemma calls_voltage (cs : list Call) (self : PowerManagementSystem) :
  Supercapacitor.voltage (supercapacitor (calls self cs))
  = Supercapacitor.voltage (supercapacitor self).
Proof.
  revert self. induction cs as [|c cs IH]; intros self; [reflexivity|].
  unfold calls in *. simpl. rewrite IH. apply call_voltage.
Qed.

Lemma available_power_uncharged (sc : Supercapacitor.t) :
  ~ 0 < Supercapacitor.voltage sc ->
  Supercapacitor.get_available_power sc = 0.
Proof.
  intros H. unfold Supercapacitor.get_available_power.
  destruct (Qltb 0 (Supercapacitor.voltage sc)) eqn:E; [|reflexivity].
  apply Qltb_lt in E. now contradiction H.
Qed.

(** C6.  [Supercapacitor.get_available_power] is [0.5 * capacity * voltage^2]
    for a positive voltage and [0] otherwise; with burst mode off
    [get_current_power] is [0], also when the available power is not (as for
    100 F at 1 V); and from a controller whose supercapacitor is at 0 V the
    available power is [0] after any sequence of calls in which
    [charge_supercapacitor()] has not been invoked with the battery level
    above 50. *)
Theorem supercapacitor_available_and_delivered_power :
  (forall sc : Supercapacitor.t,
      0 < Supercapacitor.voltage sc ->
      Supercapacitor.get_available_power sc
      = 0.5 * Supercapacitor.capacity sc * Supercapacitor.voltage sc ^ 2)
  /\ (forall sc : Supercapacitor.t,
      ~ 0 < Supercapacitor.voltage sc ->
      Supercapacitor.get_available_power sc = 0)
  /\ (forall sc : Supercapacitor.t,
      Supercapacitor.in_burst_mode sc = false ->
      Supercapacitor.get_current_power sc = 0)
  /\ (~ Supercapacitor.get_available_power (Supercapacitor.mk 100 1 false) == 0
      /\ Supercapacitor.get_current_power (Supercapacitor.mk 100 1 false) = 0)
  /\ (forall (self : PowerManagementSystem) (cs : list Call),
      Supercapacitor.voltage (supercapacitor self) == 0 ->
      charge_invoked self cs = false ->
      Supercapacitor.get_available_power (supercapacitor (calls self cs)) = 0).
Proof.
  repeat split.
  - intros sc H. unfold Supercapacitor.get_available_power.
    apply Qltb_lt in H. now rewrite H.
  - apply available_power_uncharged.
  - intros sc H. unfold Supercapacitor.get_current_power. now rewrite H.
  - intros H. vm_compute in H. discriminate H.
  - intros self cs Hv _. apply available_power_uncharged.
    rewrite calls_voltage, Hv. apply Qlt_irrefl.
Qed.

Lemma supercapacitor_available_and_delivered_power_witness :
  Supercapacitor.get_available_power (Supercapacitor.mk 100 2 true)
  = 0.5 * 100 * 2 ^ 2
  /\ Supercapacitor.get_current_power (Supercapacitor.mk 100 2 false) = 0
  /\ Supercapacitor.get_available_power
       (supercapacitor
          (calls __init__
             [Request_power_state ACTIVE; Request_power_state BURST;
              Monitor_power_consumption 1; Assign_battery_level 40;
              Charge_supercapacitor])) = 0.
Proof.
  destruct supercapacitor_available_and_delivered_power
    as [Hpos [_ [Hoff [_ Hrun]]]].
  split; [|split].
  - apply (Hpos (Supercapacitor.mk 100 2 true)). reflexivity.
  - apply (Hoff (Supercapacitor.mk 100 2 false)). reflexivity.
  - apply (Hrun __init__); reflexivity.
Defined.

(** C10.  [charge_supercapacitor] leaves the controller exactly as it was,
    whatever the battery level: [Supercapacitor.charge] stores nothing, so
    the supercapacitor's voltage and its available power are the same after
    the call as before. *)
Theorem charge_supercapacitor_stores_nothing (self : PowerManagementSystem) :
  charge_supercapacitor self = self
  /\ Supercapacitor.voltage (supercapacitor (charge_supercapacitor self))
     = Supercapacitor.voltage (supercapacitor self)
  /\ Supercapacitor.get_available_power
       (supercapacitor (charge_supercapacitor self))
     = Supercapacitor.get_available_power (supercapacitor self).
Proof.
  rewrite charge_supercapacitor_id. repeat split.
Qed.

(** *** Monitoring *)

(** C9 as stated fails: the call is not free of side effects, it appends
    the snapshot to [power_history]. *)
Lemma monitor_power_consumption_changes_history :
  snd (monitor_power_consumption __init__ 0) <> __init__
  /\ List.length (power_history (snd (monitor_power_consumption __init__ 0)))
     = 1%nat
  /\ List.length (power_history __init__) = 0%nat.
Proof.
  repeat split. intros H. discriminate H.
Qed.

(** C9, amended.  [monitor_power_consumption] returns a snapshot stamped
    with the clock reading and holding the current power of the four
    sources (for the supercapacitor the burst-gated [get_current_power]);
    it leaves [current_state], [battery_level], [temperature], the profiles,
    the battery, the supercapacitor and both harvesters unchanged; its one
    effect on the controller is to append the snapshot to [power_history]. *)
Theorem monitor_power_consumption_frame
  (self : PowerManagementSystem) (now : Q) :
  let data := fst (monitor_power_consumption self now) in
  let self' := snd (monitor_power_consumption self now) in
  ConsumptionData.timestamp data = now
  /\ ConsumptionData.primary_power data
     = LithiumSulfurBattery.get_current_power (primary_battery self)
  /\ ConsumptionData.supercap_power data
     = Supercapacitor.get_current_power (supercapacitor self)
  /\ ConsumptionData.thermal_power data
     = ThermalGenerator.get_current_power (thermal_generator self)
  /\ ConsumptionData.motion_power data
     = MotionGenerator.get_current_power (motion_generator self)
  /\ current_state self' = current_state self
  /\ battery_level self' = battery_level self
  /\ temperature self' = temperature self
  /\ power_profiles self' = power_profiles self
  /\ primary_battery self' = primary_battery self
  /\ supercapacitor self' = supercapacitor self
  /\ thermal_generator self' = thermal_generator self
  /\ motion_generator self' = motion_generator self
  /\ power_history self' = power_history self ++ [data].
Proof.
  simpl. repeat split.
Qed.

(** The transitions exercised by the repository's tests and entry point:
    STANDBY to ACTIVE and on to LOW_POWER succeed, BURST from LOW_POWER is
    refused, and BURST from ACTIVE succeeds on the battery alone. *)
Example power_state_transitions :
  let active := snd (request_power_state __init__ ACTIVE) in
  let low := snd (request_power_state active LOW_POWER) in
  fst (request_power_state __init__ ACTIVE) = Some true
  /\ fst (request_power_state active LOW_POWER) = Some true
  /\ request_power_state low BURST = (Some false, low)
  /\ fst (request_power_state active BURST) = Some true
  /\ Supercapacitor.in_burst_mode
       (supercapacitor (snd (request_power_state active BURST))) = true.
Proof. vm_compute. repeat split. Qed.

End PowerController.

(** ** Comparisons of binary64 numbers *)

Section FloatFacts.
Import PrimFloat FloatOps FloatAxioms SpecFloat PyFloat.

Lemma SFcompare_antisym (x y : spec_float) :
  SFcompare y x = option_map CompOpp (SFcompare x y).
Proof.
  destruct x as [sx|sx| |sx mx ex], y as [sy|sy| |sy my ey]; simpl;
    try reflexivity;
    try (destruct sx; reflexivity); try (destruct sy; reflexivity);
    try (destruct sx, sy; reflexivity).
  destruct sx, sy; try reflexivity; simpl;
    rewrite (Z.compare_antisym ex ey);
    destruct (ex ?= ey)%Z; simpl; try reflexivity;
    rewrite ?CompOpp_involutive;
    first [ rewrite (Pos.compare_cont_antisym mx my Eq)
          | rewrite (Pos.compare_cont_antisym my mx Eq) ];
    reflexivity.
Qed.

Lemma Prim2SF_not_nan (x : float) :
  is_nan x = false -> Prim2SF x <> S754_nan.
Proof.
  intros H. unfold Prim2SF. rewrite H.
  destruct (is_zero x); [discriminate|].
  destruct (is_infinity x); [discriminate|].
  destruct (Z.frexp x) as [r e].
  destruct (shr_fexp _ _ _ _ _) as [shr e'].
  destruct (shr_m shr); discriminate.
Qed.

Lemma SFcompare_defined (x y : spec_float) :
  x <> S754_nan -> y <> S754_nan -> exists c, SFcompare x y = Some c.
Proof.
  intros Hx Hy.
  destruct x as [sx|sx| |sx mx ex], y as [sy|sy| |sy my ey];
    try (now contradiction Hx); try (now contradiction Hy);
    simpl; eexists; reflexivity.
Qed.

(** For numbers, [not (a >= b)] is [a < b]. *)
Lemma float_not_ge_lt (a b : float) :
  is_nan a = false -> is_nan b = false ->
  ((b <=? a)%float = false <-> (a <? b)%float = true).
Proof.
  intros Ha Hb. rewrite leb_spec, ltb_spec. unfold SFleb, SFltb.
  rewrite (SFcompare_antisym (Prim2SF a) (Prim2SF b)).
  destruct (SFcompare_defined _ _ (Prim2SF_not_nan a Ha)
              (Prim2SF_not_nan b Hb)) as [c Hc].
  rewrite Hc. destruct c; simpl; split; intros H; congruence.
Qed.

End FloatFacts.

(** ** The guards of a request in binary64 *)

Section PowerGuards.
Import PrimFloat PyFloat PowerManagementIEEE.
Local Open Scope float_scope.

(** C3.  For a target listed in the adjacency-table entry of the current
    state, [request_power_state] is rejected by its second guard (the
    specification's [InsufficientPower]), returning [False] with the object
    unchanged, exactly when the test [total >= min_power] fails, where
    [total] is the sum, formed from left to right in binary64, of what the
    four sources report: the battery's [voltage * current], the
    supercapacitor's [0.5 * capacity * voltage ** 2] (0 for a voltage not
    above 0), the thermal harvester's [0.1 * efficiency] and the motion
    harvester's [0.05 * efficiency].  When the sum and the requirement are
    numbers, the test fails exactly when the sum is strictly below the
    requirement; and when the test holds the request returns [True] and
    [current_state] is the target. *)
Theorem request_power_state_insufficient_power_iff
  (float_pow : float -> float -> Outcome float)
  (self : PowerManagementSystem) (t : PowerManagement.PowerState)
  (targets : list PowerManagement.PowerState) (profile : PowerProfile.t)
  (squared : float) :
  PowerManagement.dict_get PowerManagement.valid_transitions
    (current_state self) = Some targets ->
  In t targets ->
  PowerManagement.dict_get (power_profiles self) t = Some profile ->
  ((0 <? Supercapacitor.voltage (supercapacitor self)) = true ->
   float_pow (Supercapacitor.voltage (supercapacitor self)) 2
   = Return squared) ->
  let battery_power :=
    LithiumSulfurBattery.voltage (primary_battery self)
    * LithiumSulfurBattery.current (primary_battery self) in
  let supercap_power :=
    if 0 <? Supercapacitor.voltage (supercapacitor self)
    then 0.5 * Supercapacitor.capacity (supercapacitor self) * squared
    else 0 in
  let thermal_power :=
    0.1 * ThermalGenerator.efficiency (thermal_generator self) in
  let motion_power :=
    0.05 * MotionGenerator.efficiency (motion_generator self) in
  let total := battery_power + supercap_power + thermal_power + motion_power in
  let required := PowerProfile.min_power profile in
  (rejection float_pow self t = Some PowerManagement.InsufficientPower
   <-> (required <=? total) = false)
  /\ (request_power_state float_pow self t = (Return false, self)
      <-> (required <=? total) = false)
  /\ (is_nan total = false -> is_nan required = false ->
      ((required <=? total) = false <-> (total <? required) = true))
  /\ ((required <=? total) = true ->
      fst (request_power_state float_pow self t) = Return true
      /\ current_state (snd (request_power_state float_pow self t)) = t).
Proof.
  intros Htab Hin Hprof Hpow battery_power supercap_power thermal_power
    motion_power total required.
  assert (Hv : _validate_state_transition self t = true).
  { unfold _validate_state_transition. rewrite Htab.
    now apply state_in_In. }
  assert (Hcheck : _check_power_availability float_pow self required
                   = Return (required <=? total)).
  { unfold _check_power_availability, Supercapacitor.get_available_power,
      LithiumSulfurBattery.get_available_power,
      ThermalGenerator.get_current_power, MotionGenerator.get_current_power.
    unfold total, supercap_power, battery_power, thermal_power, motion_power.
    destruct (0 <? Supercapacitor.voltage (supercapacitor self)) eqn:E;
      [rewrite (Hpow eq_refl)|]; reflexivity. }
  unfold rejection, request_power_state. rewrite Hv, Hprof.
  cbn [negb]. fold required. rewrite Hcheck.
  split; [|split; [|split]].
  - destruct (required <=? total); split; intros H; congruence.
  - destruct (required <=? total); split; intros H;
      try reflexivity; try discriminate.
  - apply float_not_ge_lt.
  - intros E. rewrite E. split; reflexivity.
Qed.

Lemma request_power_state_insufficient_power_iff_witness :
  request_power_state rounded_square (with_battery_output 0.7 0.7)
    PowerManagement.ACTIVE
  = (Return false, with_battery_output 0.7 0.7)
  <-> (0.5 <=? 0.7 * 0.7 + 0 + 0.1 * 0.05 + 0.05 * 0.1) = false.
Proof.
  apply (proj1 (proj2 (request_power_state_insufficient_power_iff
           rounded_square (with_battery_output 0.7 0.7) PowerManagement.ACTIVE
           [PowerManagement.ACTIVE; PowerManagement.LOW_POWER]
           (PowerProfile.mk 3.3 0.5 1.65 0.5) 0
           eq_refl (or_introl eq_refl) eq_refl
           ltac:(intros H; vm_compute in H; discriminate H)))).
Defined.

(** The guard is decided on the rounded sum: with the battery at 0.7 V and
    0.7 A the four reports add up to 0.49999999999999994 and ACTIVE, which
    needs 0.5, is refused; from the constructor's 3.7 V and 0.3 A it is
    granted. *)
Example availability_is_decided_on_the_rounded_sum :
  request_power_state rounded_square (with_battery_output 0.7 0.7)
    PowerManagement.ACTIVE
  = (Return false, with_battery_output 0.7 0.7)
  /\ rejection rounded_square (with_battery_output 0.7 0.7)
       PowerManagement.ACTIVE
     = Some PowerManagement.InsufficientPower
  /\ fst (request_power_state rounded_square __init__ PowerManagement.ACTIVE)
     = Return true.
Proof. vm_compute. repeat split. Qed.

(** For the battery outputs the constructor and its five profiles can set,
    the guard decided on the rounded sum and the guard decided on the exact
    sum agree for every target: none of these sums is near a requirement. *)
Example guards_agree_for_the_constructor_profiles :
  (forall target,
      match PowerManagement.dict_get default_power_profiles target,
            PowerManagement.dict_get PowerManagement.default_power_profiles
              target with
      | Some wanted, Some wanted' =>
          _check_power_availability rounded_square __init__
            (PowerProfile.min_power wanted)
          = Return (PowerManagement._check_power_availability
                      PowerManagement.__init__
                      (PowerManagement.PowerProfile.min_power wanted'))
      | _, _ => False
      end)
  /\ (forall applied target,
        match PowerManagement.dict_get default_power_profiles applied,
              PowerManagement.dict_get PowerManagement.default_power_profiles
                applied,
              PowerManagement.dict_get default_power_profiles target,
              PowerManagement.dict_get PowerManagement.default_power_profiles
                target with
        | Some profile, Some profile', Some wanted, Some wanted' =>
            _check_power_availability rounded_square
              (_apply_power_profile __init__ applied profile)
              (PowerProfile.min_power wanted)
            = Return (PowerManagement._check_power_availability
                        (PowerManagement._apply_power_profile
                           PowerManagement.__init__ applied profile')
                        (PowerManagement.PowerProfile.min_power wanted'))
        | _, _, _, _ => False
        end).
Proof.
  split.
  - intros []; vm_compute; reflexivity.
  - intros [] []; vm_compute; reflexivity.
Qed.

End PowerGuards.

(** ** The battery level *)

Section BatteryLevel.
Import BatteryController.

Lemma raw_level_linear (v : Q) : raw_level v == (v - 3.2) * 100.
Proof. unfold raw_level. field. Qed.

Lemma raw_level_monotone (a b : Q) : a <= b -> raw_level a <= raw_level b.
Proof. intros H. rewrite !raw_level_linear. lra. Qed.

Lemma battery_level_monotone (a b : Q) :
  a <= b -> _calculate_battery_level a <= _calculate_battery_level b.
Proof.
  intros H. unfold _calculate_battery_level, py_max, py_min.
  apply Q.max_le_compat_r, Q.min_le_compat_r, (raw_level_monotone _ _ H).
Qed.

Lemma battery_level_range (v : Q) :
  0 <= _calculate_battery_level v <= 100.
Proof.
  unfold _calculate_battery_level, py_max, py_min. split.
  - apply Qle_trans with 0.0; [lra | apply Q.le_max_r].
  - apply Q.max_lub; [|lra].
    apply Qle_trans with 100.0; [apply Q.le_min_r | lra].
Qed.

Lemma battery_level_between (v : Q) :
  3.2 <= v <= 4.2 -> _calculate_battery_level v == raw_level v.
Proof.
  intros [H1 H2]. unfold _calculate_battery_level, py_max, py_min.
  fold (raw_level v).
  assert (0.0 <= raw_level v <= 100.0) as [A B]
    by (rewrite raw_level_linear; split; lra).
  rewrite Q.max_l.
  - now apply Q.min_l.
  - now rewrite Q.min_l.
Qed.

(** C5.  [_calculate_battery_level] is the linear interpolation between
    3.2 V and 4.2 V clamped to [0, 100]: it is 0 at 3.2 V, 100 at 4.2 V,
    equal to the interpolation in between, within [0, 100] everywhere, and
    monotonic in the voltage. *)
Theorem battery_level_interpolation :
  _calculate_battery_level 3.2 == 0
  /\ _calculate_battery_level 4.2 == 100
  /\ (forall v1 v2 : Q,
         v1 <= v2 ->
         _calculate_battery_level v1 <= _calculate_battery_level v2)
  /\ (forall v : Q, 0 <= _calculate_battery_level v <= 100)
  /\ (forall v : Q,
         3.2 <= v <= 4.2 ->
         _calculate_battery_level v == ((v - 3.2) / (4.2 - 3.2)) * 100).
Proof.
  split; [reflexivity|]. split; [reflexivity|].
  split; [exact battery_level_monotone|].
  split; [exact battery_level_range|].
  exact battery_level_between.
Qed.

Lemma battery_level_interpolation_witness :
  _calculate_battery_level 3.5 <= _calculate_battery_level 4.0
  /\ _calculate_battery_level 3.7 == ((3.7 - 3.2) / (4.2 - 3.2)) * 100.
Proof.
  destruct battery_level_interpolation as [_ [_ [Hmono [_ Hlin]]]].
  split.
  - apply (Hmono 3.5 4.0). unfold Qle. simpl. lia.
  - apply (Hlin 3.7). split; unfold Qle; simpl; lia.
Defined.

End BatteryLevel.

(** ** The status aggregator *)

Section StatusAggregator.
Import StatusMonitor.

Lemma SystemComponent_eqb_eq (a b : SystemComponent) :
  SystemComponent_eqb a b = true <-> a = b.
Proof. destruct a, b; simpl; split; intros H; congruence. Qed.

Lemma SystemComponent_eqb_refl (a : SystemComponent) :
  SystemComponent_eqb a a = true.
Proof. now apply SystemComponent_eqb_eq. Qed.

Lemma get_of_key (d : list (SystemComponent * ComponentStatus.t))
  (c : SystemComponent) :
  In c (map fst (vitals d)) ->
  exists st, Dict.get SystemComponent_eqb d c = Some st.
Proof.
  induction d as [|[k v] d IH]; simpl; [intros []|].
  intros [H|H].
  - subst k. rewrite SystemComponent_eqb_refl. now exists v.
  - destruct (SystemComponent_eqb k c); [now exists v | now apply IH].
Qed.

Lemma vitals_set_append (d : list (SystemComponent * ComponentStatus.t))
  (c : SystemComponent) (st : ComponentStatus.t) (a : SystemAlert.t) :
  Dict.get SystemComponent_eqb d c = Some st ->
  vitals (Dict.set SystemComponent_eqb d c (ComponentStatus.append_alert st a))
  = vitals d.
Proof.
  induction d as [|[k v] d IH]; simpl; [discriminate|].
  destruct (SystemComponent_eqb k c) eqn:E; intros H.
  - injection H as ->. reflexivity.
  - simpl. now rewrite IH.
Qed.

(** Recording an alert for a known component: one more alert in the history,
    same vitals, same interval. *)
Lemma record_alert_known (self : t) (c : SystemComponent) (lv : AlertLevel)
  (msg : Message) (now : Q) (data : option (list (string * Q))) :
  In c (map fst (vitals (_component_status self))) ->
  let self' := _record_alert self c lv msg now data in
  _alert_history self'
  = _alert_history self ++ [SystemAlert.mk c lv msg now data]
  /\ vitals (_component_status self') = vitals (_component_status self)
  /\ _status_update_interval self' = _status_update_interval self.
Proof.
  intros Hk. destruct (get_of_key _ _ Hk) as [st Hst].
  unfold _record_alert. simpl. rewrite Hst.
  destruct (Dict.get AlertLevel_eqb (_alert_callbacks self) lv); simpl;
    rewrite (vitals_set_append _ _ _ _ Hst); repeat split.
Qed.

Lemma analyze_component_known (now : Q) (self : t)
  (item : SystemComponent * ComponentStatus.t) :
  In (fst item) (map fst (vitals (_component_status self))) ->
  let self' := analyze_component now self item in
  _alert_history self'
  = _alert_history self
    ++ item_alerts now (_status_update_interval self) item
  /\ vitals (_component_status self') = vitals (_component_status self)
  /\ _status_update_interval self' = _status_update_interval self.
Proof.
  destruct item as [c st]. simpl fst. intros Hk.
  unfold analyze_component, item_alerts.
  destruct (Qltb (ComponentStatus.health st) 20.0) eqn:E20;
    [|destruct (Qltb (ComponentStatus.health st) 50.0) eqn:E50].
  - destruct (record_alert_known self c CRITICAL
                (Critical_health c (ComponentStatus.health st)) now None Hk)
      as [H1 [H2 H3]].
    set (self1 := _record_alert self c CRITICAL _ now None) in *.
    rewrite H3.
    destruct (Qltb (_status_update_interval self * 3) _) eqn:Es.
    + assert (Hk1 : In c (map fst (vitals (_component_status self1))))
        by now rewrite H2.
      destruct (record_alert_known self1 c ERROR (Stale_status c) now None Hk1)
        as [G1 [G2 G3]].
      rewrite G1, G2, G3, H1, H2, H3, <- app_assoc. repeat split.
    + rewrite H1, H2, H3. repeat split.
  - destruct (record_alert_known self c WARNING
                (Low_health c (ComponentStatus.health st)) now None Hk)
      as [H1 [H2 H3]].
    set (self1 := _record_alert self c WARNING _ now None) in *.
    rewrite H3.
    destruct (Qltb (_status_update_interval self * 3) _) eqn:Es.
    + assert (Hk1 : In c (map fst (vitals (_component_status self1))))
        by now rewrite H2.
      destruct (record_alert_known self1 c ERROR (Stale_status c) now None Hk1)
        as [G1 [G2 G3]].
      rewrite G1, G2, G3, H1, H2, H3, <- app_assoc. repeat split.
    + rewrite H1, H2, H3. repeat split.
  - destruct (Qltb (_status_update_interval self * 3) _) eqn:Es.
    + destruct (record_alert_known self c ERROR (Stale_status c) now None Hk)
        as [G1 [G2 G3]].
      rewrite G1, G2, G3. repeat split.
    + rewrite app_nil_r. repeat split.
Qed.

Lemma analyze_items (now : Q)
  (items : list (SystemComponent * ComponentStatus.t)) (self : t) :
  (forall item, In item items ->
                In (fst item) (map fst (vitals (_component_status self)))) ->
  let self' := fold_left (analyze_component now) items self in
  _alert_history self'
  = _alert_history self
    ++ flat_map (item_alerts now (_status_update_interval self)) items
  /\ vitals (_component_status self') = vitals (_component_status self)
  /\ _status_update_interval self' = _status_update_interval self.
Proof.
  revert self. induction items as [|item items IH]; intros self Hk; simpl.
  - rewrite app_nil_r. repeat split.
  - destruct (analyze_component_known now self item (Hk item (or_introl eq_refl)))
      as [H1 [H2 H3]].
    destruct (IH (analyze_component now self item)) as [G1 [G2 G3]].
    { intros it Hit. rewrite H2. apply Hk. now right. }
    rewrite G1, G2, G3, H1, H2, H3, <- app_assoc. repeat split.
Qed.

Lemma keys_of_items (d : list (SystemComponent * ComponentStatus.t))
  (item : SystemComponent * ComponentStatus.t) :
  In item d -> In (fst item) (map fst (vitals d)).
Proof.
  intros H. unfold vitals. rewrite map_map. simpl.
  now apply (in_map fst).
Qed.

(** One pass appends, for each component in the order of the dict, the
    alerts of that component. *)
Lemma analyze_system_health_history (self : t) (now : Q) :
  let self' := _analyze_system_health self now in
  recorded_since self self'
  = flat_map (item_alerts now (_status_update_interval self))
             (_component_status self)
  /\ vitals (_component_status self') = vitals (_component_status self)
  /\ _status_update_interval self' = _status_update_interval self.
Proof.
  destruct (analyze_items now (_component_status self) self
              (keys_of_items (_component_status self)))
    as [H1 [H2 H3]].
  unfold _analyze_system_health, recorded_since. simpl.
  rewrite H1. split; [|now split].
  rewrite skipn_app, skipn_all, Nat.sub_diag. reflexivity.
Qed.

Lemma health_alerts_other (now interval : Q) (c k : SystemComponent)
  (v : ComponentStatus.t) :
  k <> c -> health_alerts c (item_alerts now interval (k, v)) = [].
Proof.
  intros Hne.
  assert (E : SystemComponent_eqb k c = false).
  { destruct (SystemComponent_eqb k c) eqn:E; [|reflexivity].
    apply SystemComponent_eqb_eq in E. now contradiction Hne. }
  unfold health_alerts, item_alerts.
  destruct (Qltb (ComponentStatus.health v) 20.0);
    [|destruct (Qltb (ComponentStatus.health v) 50.0)];
    destruct (Qltb (interval * 3) _); simpl; rewrite ?E; reflexivity.
Qed.

Lemma health_alerts_own (now interval : Q) (c : SystemComponent)
  (st : ComponentStatus.t) :
  health_alerts c (item_alerts now interval (c, st))
  = if Qltb (ComponentStatus.health st) 20.0
    then [SystemAlert.mk c CRITICAL
            (Critical_health c (ComponentStatus.health st)) now None]
    else if Qltb (ComponentStatus.health st) 50.0
    then [SystemAlert.mk c WARNING
            (Low_health c (ComponentStatus.health st)) now None]
    else [].
Proof.
  unfold health_alerts, item_alerts.
  destruct (Qltb (ComponentStatus.health st) 20.0);
    [|destruct (Qltb (ComponentStatus.health st) 50.0)];
    destruct (Qltb (interval * 3) _); simpl;
    rewrite ?SystemComponent_eqb_refl; simpl; reflexivity.
Qed.

Lemma health_alerts_app (c : SystemComponent) (l1 l2 : list SystemAlert.t) :
  health_alerts c (l1 ++ l2) = health_alerts c l1 ++ health_alerts c l2.
Proof. apply filter_app. Qed.

Lemma health_alerts_absent (now interval : Q) (c : SystemComponent)
  (items : list (SystemComponent * ComponentStatus.t)) :
  ~ In c (map fst items) ->
  health_alerts c (flat_map (item_alerts now interval) items) = [].
Proof.
  induction items as [|[k v] items IH]; cbn [flat_map map fst In];
    [reflexivity|].
  intros Hk. rewrite health_alerts_app, health_alerts_other, IH.
  - reflexivity.
  - intros H. apply Hk. now right.
  - intros ->. apply Hk. now left.
Qed.

Lemma health_alerts_flat_map (now interval : Q) (c : SystemComponent)
  (st : ComponentStatus.t)
  (items : list (SystemComponent * ComponentStatus.t)) :
  NoDup (map fst items) ->
  In (c, st) items ->
  health_alerts c (flat_map (item_alerts now interval) items)
  = health_alerts c (item_alerts now interval (c, st)).
Proof.
  induction items as [|[k v] items IH]; cbn [flat_map map fst In];
    [intros _ []|].
  intros Hnd Hin. inversion Hnd as [|? ? Hk Hnd']; subst.
  rewrite health_alerts_app.
  destruct Hin as [Heq|Hin].
  - injection Heq as -> ->.
    rewrite (health_alerts_absent now interval c items Hk).
    apply app_nil_r.
  - rewrite (health_alerts_other now interval c k v).
    + now apply IH.
    + intros ->. apply Hk. now apply (in_map fst _ _ Hin).
Qed.

Lemma pass_health_alerts (self : t) (now : Q) (c : SystemComponent)
  (st : ComponentStatus.t) :
  NoDup (Dict.keys (_component_status self)) ->
  In (c, st) (_component_status self) ->
  health_alerts c (recorded_since self (_analyze_system_health self now))
  = if Qltb (ComponentStatus.health st) 20.0
    then [SystemAlert.mk c CRITICAL
            (Critical_health c (ComponentStatus.health st)) now None]
    else if Qltb (ComponentStatus.health st) 50.0
    then [SystemAlert.mk c WARNING
            (Low_health c (ComponentStatus.health st)) now None]
    else [].
Proof.
  intros Hnd Hin.
  destruct (analyze_system_health_history self now) as [H _].
  rewrite H, (health_alerts_flat_map _ _ c st _ Hnd Hin).
  apply health_alerts_own.
Qed.

(** A pass keeps the keys of the status dict and the health of every
    component. *)
Lemma pass_keeps_health (self : t) (now : Q) (c : SystemComponent)
  (st : ComponentStatus.t) :
  NoDup (Dict.keys (_component_status self)) ->
  In (c, st) (_component_status self) ->
  NoDup (Dict.keys (_component_status (_analyze_system_health self now)))
  /\ exists st',
      In (c, st') (_component_status (_analyze_system_health self now))
      /\ ComponentStatus.health st' = ComponentStatus.health st.
Proof.
  intros Hnd Hin.
  destruct (analyze_system_health_history self now) as [_ [Hv _]].
  assert (Hkeys : forall d : list (SystemComponent * ComponentStatus.t),
             Dict.keys d = map fst (vitals d)).
  { intros d. unfold Dict.keys, vitals. now rewrite map_map. }
  split.
  - now rewrite Hkeys, Hv, <- Hkeys.
  - assert (Hin' : In (c, (ComponentStatus.health st,
                           ComponentStatus.last_update st))
                      (vitals (_component_status
                                 (_analyze_system_health self now)))).
    { rewrite Hv. unfold vitals.
      apply (in_map (fun kv => (fst kv, (ComponentStatus.health (snd kv),
                                  ComponentStatus.last_update (snd kv))))
                    _ _ Hin). }
    unfold vitals in Hin'. apply in_map_iff in Hin'.
    destruct Hin' as [[k v] [Heq Hkv]]. simpl in Heq.
    injection Heq as -> Hh _. now exists v.
Qed.

(** C7.  In a pass of [_analyze_system_health], a component whose health is
    below 20 gets one CRITICAL alert, one whose health is at least 20 and
    below 50 gets one WARNING alert, and one whose health is at least 50 gets
    no health alert; the next pass does the same again, so the alert of a
    persisting condition is recorded once more on every pass. *)
Theorem health_alert_mapping (self : t) (now now' : Q)
  (c : SystemComponent) (st : ComponentStatus.t) :
  NoDup (Dict.keys (_component_status self)) ->
  In (c, st) (_component_status self) ->
  let h := ComponentStatus.health st in
  let self1 := _analyze_system_health self now in
  let self2 := _analyze_system_health self1 now' in
  (h < 20 ->
   health_alerts c (recorded_since self self1)
   = [SystemAlert.mk c CRITICAL (Critical_health c h) now None]
   /\ health_alerts c (recorded_since self1 self2)
      = [SystemAlert.mk c CRITICAL (Critical_health c h) now' None])
  /\ (20 <= h -> h < 50 ->
      health_alerts c (recorded_since self self1)
      = [SystemAlert.mk c WARNING (Low_health c h) now None]
      /\ health_alerts c (recorded_since self1 self2)
         = [SystemAlert.mk c WARNING (Low_health c h) now' None])
  /\ (50 <= h ->
      health_alerts c (recorded_since self self1) = []
      /\ health_alerts c (recorded_since self1 self2) = []).
Proof.
  intros Hnd Hin h self1 self2.
  destruct (pass_keeps_health self now c st Hnd Hin)
    as [Hnd1 [st1 [Hin1 Hh1]]].
  pose proof (pass_health_alerts self now c st Hnd Hin) as P1.
  pose proof (pass_health_alerts self1 now' c st1 Hnd1 Hin1) as P2.
  rewrite Hh1 in P2. fold h in P1, P2. fold self1 in P1. fold self2 in P2.
  split; [|split].
  - intros H20.
    assert (E : Qltb h 20.0 = true) by (apply Qltb_lt; lra).
    rewrite E in P1, P2. now split.
  - intros H20 H50.
    assert (E : Qltb h 20.0 = false) by (apply Qltb_ge; lra).
    assert (E' : Qltb h 50.0 = true) by (apply Qltb_lt; lra).
    rewrite E, E' in P1, P2. now split.
  - intros H50.
    assert (E : Qltb h 20.0 = false) by (apply Qltb_ge; lra).
    assert (E' : Qltb h 50.0 = false) by (apply Qltb_ge; lra).
    rewrite E, E' in P1, P2. now split.
Qed.

Lemma health_alert_mapping_witness :
  health_alerts POWER
    (recorded_since three_bands (_analyze_system_health three_bands 1))
  = [SystemAlert.mk POWER CRITICAL (Critical_health POWER 10) 1 None]
  /\ health_alerts POWER
       (recorded_since (_analyze_system_health three_bands 1)
          (_analyze_system_health (_analyze_system_health three_bands 1) 2))
     = [SystemAlert.mk POWER CRITICAL (Critical_health POWER 10) 2 None].
Proof.
  apply (proj1 (health_alert_mapping three_bands 1 2 POWER
                  (ComponentStatus.mk POWER "degraded" 10 0 [] [])
                  ltac:(repeat (constructor; [simpl; intuition discriminate|]);
                        constructor)
                  ltac:(simpl; now left))).
  reflexivity.
Defined.

End StatusAggregator.

(** ** Dicts *)

Section DictFacts.
Context {K V : Type} (eqb : K -> K -> bool).
Hypothesis eqb_eq : forall a b, eqb a b = true <-> a = b.

Lemma eqb_refl (k : K) : eqb k k = true.
Proof. now apply eqb_eq. Qed.

Lemma eqb_neq (a b : K) : a <> b -> eqb a b = false.
Proof.
  intros H. destruct (eqb a b) eqn:E; [|reflexivity].
  apply eqb_eq in E. now contradiction H.
Qed.

Lemma get_set_same (d : list (K * V)) (k : K) (v : V) :
  Dict.get eqb (Dict.set eqb d k v) k = Some v.
Proof.
  induction d as [|[k' v'] d IH]; simpl.
  - now rewrite eqb_refl.
  - destruct (eqb k' k) eqn:E; simpl; rewrite E; [reflexivity | exact IH].
Qed.

Lemma get_set_other (d : list (K * V)) (k k' : K) (v : V) :
  k <> k' ->
  Dict.get eqb (Dict.set eqb d k v) k' = Dict.get eqb d k'.
Proof.
  intros Hne. induction d as [|[k0 v0] d IH]; simpl.
  - now rewrite (eqb_neq _ _ Hne).
  - destruct (eqb k0 k) eqn:E; simpl.
    + apply eqb_eq in E. subst k0. now rewrite (eqb_neq _ _ Hne).
    + now rewrite IH.
Qed.

Lemma get_del_same (d : list (K * V)) (k : K) :
  Dict.get eqb (Dict.del eqb d k) k = None.
Proof.
  induction d as [|[k0 v0] d IH]; simpl; [reflexivity|].
  destruct (eqb k0 k) eqn:E; simpl; [exact IH | now rewrite E].
Qed.

Lemma get_del_other (d : list (K * V)) (k k' : K) :
  k <> k' ->
  Dict.get eqb (Dict.del eqb d k) k' = Dict.get eqb d k'.
Proof.
  intros Hne. induction d as [|[k0 v0] d IH]; simpl; [reflexivity|].
  destruct (eqb k0 k) eqn:E; simpl.
  - apply eqb_eq in E. subst k0. now rewrite (eqb_neq _ _ Hne).
  - now rewrite IH.
Qed.

Lemma get_in_keys (d : list (K * V)) (k : K) :
  Dict.get eqb d k <> None <-> In k (Dict.keys d).
Proof.
  induction d as [|[k0 v0] d IH]; simpl.
  - split; [intros H; now contradiction H | intros []].
  - destruct (eqb k0 k) eqn:E.
    + apply eqb_eq in E. subst k0. split; [now left | discriminate].
    + rewrite IH. split; [now right | intros [H|H]; [|exact H]].
      subst k0. now rewrite eqb_refl in E.
Qed.

Lemma keys_set (d : list (K * V)) (k : K) (v : V) :
  Dict.keys (Dict.set eqb d k v)
  = if Dict.mem eqb d k then Dict.keys d else Dict.keys d ++ [k].
Proof.
  unfold Dict.mem. induction d as [|[k0 v0] d IH]; simpl; [reflexivity|].
  destruct (eqb k0 k) eqn:E; simpl; [reflexivity|].
  rewrite IH. now destruct (Dict.get eqb d k).
Qed.

Lemma NoDup_keys_set (d : list (K * V)) (k : K) (v : V) :
  NoDup (Dict.keys d) -> NoDup (Dict.keys (Dict.set eqb d k v)).
Proof.
  intros H. rewrite keys_set. unfold Dict.mem.
  destruct (Dict.get eqb d k) eqn:E; [exact H|].
  assert (Hk : ~ In k (Dict.keys d)).
  { intros Hin. apply get_in_keys in Hin. now contradiction Hin. }
  clear E. induction (Dict.keys d) as [|a l IH]; simpl.
  - constructor; [intros [] | constructor].
  - inversion H as [|? ? Ha Hl]; subst. constructor.
    + rewrite in_app_iff. intros [Hin|[Heq|[]]]; [now apply Ha|].
      subst a. apply Hk. now left.
    + apply IH; [exact Hl|]. intros Hin. apply Hk. now right.
Qed.

End DictFacts.

(** ** The safety monitor *)

Section SafetyMonitor.
Import SafetyManager.

Lemma SafetyCondition_eqb_eq (a b : SafetyCondition) :
  SafetyCondition_eqb a b = true <-> a = b.
Proof. destruct a, b; simpl; split; intros H; congruence. Qed.

Lemma SafetyAction_eqb_eq (a b : SafetyAction) :
  SafetyAction_eqb a b = true <-> a = b.
Proof. destruct a, b; simpl; split; intros H; congruence. Qed.

Lemma cond_refl (c : SafetyCondition) : SafetyCondition_eqb c c = true.
Proof. now apply SafetyCondition_eqb_eq. Qed.

Lemma cond_neq (a b : SafetyCondition) :
  a <> b -> SafetyCondition_eqb a b = false.
Proof. apply (eqb_neq SafetyCondition_eqb SafetyCondition_eqb_eq). Qed.

Lemma same_inputs_refl (a : t) : same_inputs a a.
Proof. now split. Qed.

Lemma same_inputs_trans (a b c : t) :
  same_inputs a b -> same_inputs b c -> same_inputs a c.
Proof. intros [H1 H2] [G1 G2]. split; congruence. Qed.

Lemma execute_observe (c c' : SafetyCondition) (self : t)
  (a : SafetyAction) (v : Q) :
  observe c (_execute_safety_action self a c' v)
  = (events_of c self,
     executed_for c self
       ++ (if SafetyCondition_eqb c' c then [(a, v)] else []),
     warned c self)
  /\ same_inputs (_execute_safety_action self a c' v) self.
Proof.
  unfold _execute_safety_action, observe, executed_for, events_of, warned.
  destruct (Dict.get SafetyAction_eqb (_event_handlers self) a);
    simpl; rewrite filter_app, map_app; simpl;
    destruct (SafetyCondition_eqb c' c); simpl; repeat split.
Qed.

Lemma append_event_observe (c : SafetyCondition) (self : t)
  (e : SafetyEvent.t) :
  observe c (append_event self e)
  = (events_of c self
       ++ (if SafetyCondition_eqb (SafetyEvent.condition e) c
           then [e] else []),
     executed_for c self, warned c self)
  /\ same_inputs (append_event self e) self.
Proof.
  unfold observe, executed_for, events_of, warned. simpl.
  rewrite filter_app. simpl.
  destruct (SafetyCondition_eqb (SafetyEvent.condition e) c); repeat split.
Qed.

Lemma notify_observe (c : SafetyCondition) (self : t)
  (lv : StatusMonitor.AlertLevel) (text : string) (now : Q) :
  observe c (notify_status_monitor self lv text now) = observe c self
  /\ same_inputs (notify_status_monitor self lv text now) self.
Proof. repeat split. Qed.

Lemma set_active_warnings_observe (c : SafetyCondition) (self : t)
  (d : list (SafetyCondition * Q)) :
  observe c (set_active_warnings self d)
  = (events_of c self, executed_for c self,
     Dict.mem SafetyCondition_eqb d c)
  /\ same_inputs (set_active_warnings self d) self.
Proof. repeat split. Qed.

Ltac unfold_monitor :=
  unfold _handle_critical_condition, _handle_warning_condition,
    _handle_condition_recovery, _execute_safety_action,
    notify_status_monitor, append_event, append_execution,
    set_active_warnings, set_status_monitor, observe, events_of,
    executed_for, warned, same_inputs, configuration, Dict.mem.

Lemma handle_critical_observe (c c' : SafetyCondition) (self : t)
  (th : SafetyThreshold.t) (v now : Q) :
  Dict.get SafetyCondition_eqb (_thresholds self) c' = Some th ->
  observe c (_handle_critical_condition self c' v now)
  = (events_of c self
       ++ (if SafetyCondition_eqb c' c
           then [SafetyEvent.mk c' v (SafetyThreshold.action th) now
                   (Critical_level c' v)]
           else []),
     executed_for c self
       ++ (if SafetyCondition_eqb c' c
           then [(SafetyThreshold.action th, v)] else []),
     warned c self)
  /\ same_inputs (_handle_critical_condition self c' v now) self.
Proof.
  intros Hth. unfold_monitor. rewrite Hth. simpl.
  destruct (Dict.get SafetyAction_eqb (_event_handlers self)
              (SafetyThreshold.action th));
    destruct (SafetyCondition_eqb c' c) eqn:E;
    simpl; rewrite ?filter_app, ?map_app; simpl; rewrite ?E; simpl;
    rewrite ?app_nil_r; repeat split.
Qed.

Lemma handle_warning_observe (c c' : SafetyCondition) (self : t)
  (v now : Q) :
  observe c (_handle_warning_condition self c' v now)
  = (if SafetyCondition_eqb c' c
     then if warned c self then observe c self
          else (events_of c self
                  ++ [SafetyEvent.mk c' v NOTIFY now (Warning_level c' v)],
                executed_for c self, true)
     else observe c self)
  /\ same_inputs (_handle_warning_condition self c' v now) self.
Proof.
  destruct (SafetyCondition_eqb c' c) eqn:E.
  - apply SafetyCondition_eqb_eq in E. subst c'.
    unfold_monitor. simpl.
    destruct (Dict.get SafetyCondition_eqb (_active_warnings self) c) eqn:W;
      simpl; rewrite ?W; [repeat split|].
    rewrite (get_set_same SafetyCondition_eqb SafetyCondition_eqb_eq).
    rewrite filter_app. simpl. rewrite cond_refl. repeat split.
  - assert (Hne : c' <> c).
    { intros ->. now rewrite cond_refl in E. }
    unfold_monitor. simpl.
    destruct (Dict.get SafetyCondition_eqb (_active_warnings self) c') eqn:W;
      simpl; [repeat split|].
    rewrite (get_set_other SafetyCondition_eqb SafetyCondition_eqb_eq _ _ _ _ Hne).
    rewrite filter_app. simpl. rewrite E, app_nil_r. repeat split.
Qed.

Lemma handle_recovery_observe (c c' : SafetyCondition) (self : t)
  (v now : Q) :
  Dict.get SafetyCondition_eqb (_current_conditions self) c' = Some v ->
  observe c (_handle_condition_recovery self c' now)
  = (if SafetyCondition_eqb c' c
     then if warned c self
          then (events_of c self
                  ++ [SafetyEvent.mk c' v NOTIFY now (Recovered c')],
                executed_for c self, false)
          else observe c self
     else observe c self)
  /\ same_inputs (_handle_condition_recovery self c' now) self.
Proof.
  intros Hv.
  destruct (SafetyCondition_eqb c' c) eqn:E.
  - apply SafetyCondition_eqb_eq in E. subst c'.
    unfold_monitor. simpl.
    destruct (Dict.get SafetyCondition_eqb (_active_warnings self) c) eqn:W;
      simpl; rewrite ?W; [|repeat split].
    rewrite Hv. simpl.
    rewrite (get_del_same SafetyCondition_eqb).
    rewrite filter_app. simpl. rewrite cond_refl. repeat split.
  - assert (Hne : c' <> c).
    { intros ->. now rewrite cond_refl in E. }
    unfold_monitor. simpl.
    destruct (Dict.get SafetyCondition_eqb (_active_warnings self) c') eqn:W;
      simpl; [|repeat split].
    rewrite Hv. simpl.
    rewrite (get_del_other SafetyCondition_eqb SafetyCondition_eqb_eq _ _ _ Hne).
    rewrite filter_app. simpl. rewrite E, app_nil_r. repeat split.
Qed.

Lemma check_other (c c' : SafetyCondition) (self : t) (now : Q) :
  c' <> c ->
  observe c (_check_safety_threshold self c' now) = observe c self
  /\ same_inputs (_check_safety_threshold self c' now) self.
Proof.
  intros Hne. pose proof (cond_neq _ _ Hne) as E.
  unfold _check_safety_threshold.
  destruct (Dict.get SafetyCondition_eqb (_current_conditions self) c')
    as [v|] eqn:Hv; [|split; [reflexivity | apply same_inputs_refl]].
  destruct (Dict.get SafetyCondition_eqb (_thresholds self) c')
    as [th|] eqn:Hth; [|split; [reflexivity | apply same_inputs_refl]].
  destruct (Qle_bool (SafetyThreshold.critical_level th) v).
  { destruct (handle_critical_observe c c' self th v now Hth) as [H1 H2].
    rewrite H1, E, !app_nil_r. now split. }
  destruct (Qle_bool (SafetyThreshold.warning_level th) v).
  { destruct (handle_warning_observe c c' self v now) as [H1 H2].
    rewrite H1, E. now split. }
  destruct (Dict.mem SafetyCondition_eqb (_active_warnings self) c'
            && Qle_bool v (SafetyThreshold.recovery_level th)).
  { destruct (handle_recovery_observe c c' self v now Hv) as [H1 H2].
    rewrite H1, E. now split. }
  split; [reflexivity | apply same_inputs_refl].
Qed.

Lemma check_self (c : SafetyCondition) (self : t) (th : SafetyThreshold.t)
  (v now : Q) :
  Dict.get SafetyCondition_eqb (_current_conditions self) c = Some v ->
  Dict.get SafetyCondition_eqb (_thresholds self) c = Some th ->
  observe c (_check_safety_threshold self c now)
  = check_effect c th v now (observe c self)
  /\ same_inputs (_check_safety_threshold self c now) self.
Proof.
  intros Hv Hth. unfold _check_safety_threshold, check_effect.
  rewrite Hv, Hth. unfold observe at 2.
  destruct (Qle_bool (SafetyThreshold.critical_level th) v).
  { destruct (handle_critical_observe c c self th v now Hth) as [H1 H2].
    rewrite H1, cond_refl. now split. }
  destruct (Qle_bool (SafetyThreshold.warning_level th) v).
  { destruct (handle_warning_observe c c self v now) as [H1 H2].
    rewrite H1, cond_refl. split; [|exact H2].
    now destruct (warned c self). }
  fold (warned c self).
  destruct (warned c self) eqn:W; simpl;
    [|split; [unfold observe; now rewrite W | apply same_inputs_refl]].
  destruct (Qle_bool v (SafetyThreshold.recovery_level th)).
  { destruct (handle_recovery_observe c c self v now Hv) as [H1 H2].
    rewrite H1, cond_refl, W. now split. }
  split; [unfold observe; now rewrite W | apply same_inputs_refl].
Qed.

Lemma check_list_absent (c : SafetyCondition) (now : Q)
  (l : list SafetyCondition) (self : t) :
  ~ In c l ->
  observe c (fold_left (fun s k => _check_safety_threshold s k now) l self)
  = observe c self
  /\ same_inputs
       (fold_left (fun s k => _check_safety_threshold s k now) l self) self.
Proof.
  revert self. induction l as [|k l IH]; intros self Hc; simpl.
  - split; [reflexivity | apply same_inputs_refl].
  - destruct (check_other c k self now) as [H1 H2].
    { intros ->. apply Hc. now left. }
    destruct (IH (_check_safety_threshold self k now)) as [G1 G2].
    { intros H. apply Hc. now right. }
    rewrite G1, H1. split; [reflexivity|].
    exact (same_inputs_trans _ _ _ G2 H2).
Qed.

Lemma check_list_present (c : SafetyCondition) (th : SafetyThreshold.t)
  (v now : Q) (l : list SafetyCondition) (self : t) :
  Dict.get SafetyCondition_eqb (_current_conditions self) c = Some v ->
  Dict.get SafetyCondition_eqb (_thresholds self) c = Some th ->
  NoDup l -> In c l ->
  observe c (fold_left (fun s k => _check_safety_threshold s k now) l self)
  = check_effect c th v now (observe c self)
  /\ same_inputs
       (fold_left (fun s k => _check_safety_threshold s k now) l self) self.
Proof.
  revert self. induction l as [|k l IH]; intros self Hv Hth Hnd Hin;
    [destruct Hin|]. simpl.
  inversion Hnd as [|? ? Hk Hnd']; subst.
  destruct (SafetyCondition_eqb k c) eqn:E.
  - apply SafetyCondition_eqb_eq in E. subst k.
    destruct (check_self c self th v now Hv Hth) as [H1 H2].
    destruct (check_list_absent c now l (_check_safety_threshold self c now) Hk)
      as [G1 G2].
    rewrite G1, H1. split; [reflexivity|].
    exact (same_inputs_trans _ _ _ G2 H2).
  - assert (Hne : k <> c) by (intros ->; now rewrite cond_refl in E).
    destruct Hin as [Heq|Hin]; [now contradiction Hne|].
    destruct (check_other c k self now Hne) as [H1 [H2 H3]].
    destruct (IH (_check_safety_threshold self k now)) as [G1 G2];
      try assumption.
    + now rewrite H3.
    + unfold configuration in H2. injection H2 as H2 _. now rewrite H2.
    + rewrite G1, H1. split; [reflexivity|].
      exact (same_inputs_trans _ _ _ G2 (conj H2 H3)).
Qed.

Lemma all_conditions_complete (c : SafetyCondition) :
  NoDup all_conditions /\ In c all_conditions.
Proof.
  split.
  - unfold all_conditions.
    repeat (constructor; [simpl; intuition discriminate|]). constructor.
  - destruct c; simpl; intuition.
Qed.

Lemma check_all_observe (c : SafetyCondition) (th : SafetyThreshold.t)
  (v now : Q) (self : t) :
  Dict.get SafetyCondition_eqb (_current_conditions self) c = Some v ->
  Dict.get SafetyCondition_eqb (_thresholds self) c = Some th ->
  observe c (check_all_thresholds self now)
  = check_effect c th v now (observe c self)
  /\ same_inputs (check_all_thresholds self now) self.
Proof.
  intros Hv Hth. destruct (all_conditions_complete c) as [Hnd Hin].
  exact (check_list_present c th v now all_conditions self Hv Hth Hnd Hin).
Qed.

Lemma process_items_observe (c : SafetyCondition) (th : SafetyThreshold.t)
  (items : list (SafetyCondition * Q)) (self : t) :
  Dict.get SafetyCondition_eqb (_thresholds self) c = Some th ->
  NoDup (Dict.keys items) ->
  (forall k, In k (Dict.keys items) ->
             Dict.get SafetyCondition_eqb (_thresholds self) k <> None) ->
  observe c (process_items self items)
  = (events_of c self,
     executed_for c self
       ++ match Dict.get SafetyCondition_eqb items c with
          | Some v =>
              if Qle_bool (SafetyThreshold.critical_level th) v
              then [(SafetyThreshold.action th, v)] else []
          | None => []
          end,
     warned c self)
  /\ same_inputs (process_items self items) self.
Proof.
  revert self. induction items as [|[k v] items IH]; intros self Hth Hnd Hall.
  - simpl. rewrite app_nil_r. split; [reflexivity | apply same_inputs_refl].
  - simpl in Hnd. inversion Hnd as [|? ? Hk Hnd']; subst.
    cbn [process_items Dict.get].
    destruct (Dict.get SafetyCondition_eqb (_thresholds self) k)
      as [thk|] eqn:Hthk.
    2:{ exfalso. apply (Hall k); [now left | exact Hthk]. }
    assert (Hrest : forall s', same_inputs s' self ->
              observe c (process_items s' items)
              = (events_of c s',
                 executed_for c s'
                   ++ match Dict.get SafetyCondition_eqb items c with
                      | Some v =>
                          if Qle_bool (SafetyThreshold.critical_level th) v
                          then [(SafetyThreshold.action th, v)] else []
                      | None => []
                      end,
                 warned c s')
              /\ same_inputs (process_items s' items) self).
    { intros s' [Hcfg Hv]. pose proof Hcfg as Hc.
      unfold configuration in Hc. injection Hc as Hc _.
      destruct (IH s') as [G1 G2].
      - now rewrite Hc.
      - exact Hnd'.
      - intros k' Hk'. rewrite Hc. apply Hall. now right.
      - split; [exact G1|].
        apply (same_inputs_trans _ _ _ G2). now split. }
    destruct (SafetyCondition_eqb k c) eqn:E.
    + apply SafetyCondition_eqb_eq in E. subst k.
      assert (Hthk' : thk = th) by congruence. subst thk.
      assert (Hnone : Dict.get SafetyCondition_eqb items c = None).
      { destruct (Dict.get SafetyCondition_eqb items c) eqn:G; [|reflexivity].
        exfalso. apply Hk.
        apply (get_in_keys SafetyCondition_eqb SafetyCondition_eqb_eq).
        now rewrite G. }
      rewrite Hnone in Hrest.
      destruct (Qle_bool (SafetyThreshold.critical_level th) v).
      * destruct (execute_observe c c self (SafetyThreshold.action th) v)
          as [X1 X2].
        destruct (Hrest _ X2) as [G1 G2]. rewrite G1. split; [|exact G2].
        injection X1 as Xe Xx Xw. rewrite Xe, Xx, Xw, cond_refl, app_nil_r.
        reflexivity.
      * destruct (Hrest self (same_inputs_refl self)) as [G1 G2].
        rewrite G1. now split.
    + destruct (Qle_bool (SafetyThreshold.critical_level thk) v).
      * destruct (execute_observe c k self (SafetyThreshold.action thk) v)
          as [X1 X2].
        destruct (Hrest _ X2) as [G1 G2]. rewrite G1. split; [|exact G2].
        injection X1 as Xe Xx Xw. rewrite Xe, Xx, Xw, E, app_nil_r.
        reflexivity.
      * destruct (Hrest self (same_inputs_refl self)) as [G1 G2].
        rewrite G1. now split.
Qed.

Lemma process_observe (c : SafetyCondition) (th : SafetyThreshold.t)
  (v : Q) (self : t) :
  well_formed self ->
  Dict.get SafetyCondition_eqb (_current_conditions self) c = Some v ->
  Dict.get SafetyCondition_eqb (_thresholds self) c = Some th ->
  observe c (_process_safety_actions self)
  = process_effect th v (observe c self)
  /\ same_inputs (_process_safety_actions self) self.
Proof.
  intros [Hnd Hall] Hv Hth. unfold _process_safety_actions.
  destruct (process_items_observe c th (_current_conditions self) self
              Hth Hnd Hall) as [H1 H2].
  rewrite H1, Hv. split; [|exact H2].
  unfold process_effect, observe.
  destruct (Qle_bool (SafetyThreshold.critical_level th) v);
    [reflexivity | now rewrite app_nil_r].
Qed.

Lemma well_formed_same_inputs (a b : t) :
  same_inputs a b -> well_formed b -> well_formed a.
Proof.
  intros [Hc Hv] [Hnd Hall]. unfold configuration in Hc.
  injection Hc as Hc _. unfold well_formed. rewrite Hc, Hv. now split.
Qed.

Lemma set_condition_well_formed (c : SafetyCondition) (v : Q) (self : t) :
  well_formed self ->
  Dict.get SafetyCondition_eqb (_thresholds self) c <> None ->
  well_formed (set_condition self c v).
Proof.
  intros [Hnd Hall] Hth. unfold well_formed, set_condition. simpl. split.
  - now apply (NoDup_keys_set SafetyCondition_eqb SafetyCondition_eqb_eq).
  - intros k Hk.
    rewrite (keys_set SafetyCondition_eqb) in Hk.
    destruct (Dict.mem SafetyCondition_eqb (_current_conditions self) c).
    + now apply Hall.
    + apply in_app_iff in Hk. destruct Hk as [Hk|[<-|[]]];
        [now apply Hall | exact Hth].
Qed.

(** One tick, as seen for the condition that is fed. *)
Lemma tick_observe (c : SafetyCondition) (th : SafetyThreshold.t)
  (v now : Q) (self : t) :
  well_formed self ->
  Dict.get SafetyCondition_eqb (_thresholds self) c = Some th ->
  let self' := tick c self (v, now) in
  observe c self'
  = process_effect th v (check_effect c th v now (observe c self))
  /\ configuration self' = configuration self
  /\ well_formed self'.
Proof.
  intros Hwf Hth. unfold tick, evaluate.
  set (s0 := set_condition self c v).
  assert (Hwf0 : well_formed s0).
  { apply set_condition_well_formed; [exact Hwf | now rewrite Hth]. }
  assert (Hv0 : Dict.get SafetyCondition_eqb (_current_conditions s0) c
                = Some v).
  { unfold s0, set_condition. simpl.
    apply (get_set_same SafetyCondition_eqb SafetyCondition_eqb_eq). }
  assert (Hth0 : Dict.get SafetyCondition_eqb (_thresholds s0) c = Some th)
    by exact Hth.
  destruct (check_all_observe c th v now s0 Hv0 Hth0) as [H1 H2].
  set (s1 := check_all_thresholds s0 now) in *.
  assert (Hwf1 : well_formed s1)
    by exact (well_formed_same_inputs _ _ H2 Hwf0).
  destruct H2 as [Hc1 Hv1].
  assert (Hth1 : Dict.get SafetyCondition_eqb (_thresholds s1) c = Some th).
  { unfold configuration in Hc1. injection Hc1 as Hc1 _. now rewrite Hc1. }
  assert (Hv1' : Dict.get SafetyCondition_eqb (_current_conditions s1) c
                 = Some v) by now rewrite Hv1.
  destruct (process_observe c th v s1 Hwf1 Hv1' Hth1) as [G1 G2].
  rewrite G1, H1. split; [reflexivity|]. split.
  - destruct G2 as [Gc _]. rewrite Gc, Hc1. reflexivity.
  - exact (well_formed_same_inputs _ _ G2 Hwf1).
Qed.

Lemma run_observe (c : SafetyCondition) (th : SafetyThreshold.t)
  (readings : list (Q * Q)) (self : t) :
  well_formed self ->
  Dict.get SafetyCondition_eqb (_thresholds self) c = Some th ->
  observe c (run c self readings)
  = fold_left (tick_effect c th) readings (observe c self)
  /\ configuration (run c self readings) = configuration self
  /\ well_formed (run c self readings).
Proof.
  revert self. induction readings as [|[v now] readings IH];
    intros self Hwf Hth;
    [split; [reflexivity | split; [reflexivity | exact Hwf]]|].
  unfold run in *. cbn [fold_left].
  destruct (tick_observe c th v now self Hwf Hth) as [H1 [H2 H3]].
  destruct (IH (tick c self (v, now)) H3) as [G1 [G2 G3]].
  { pose proof H2 as Hc. unfold configuration in Hc.
    injection Hc as Hc _. rewrite <- Hth. f_equal. exact Hc. }
  rewrite G1, G2, H1, H2.
  split; [reflexivity | split; [reflexivity | exact G3]].
Qed.

(** C2 as stated fails: in the default configuration, feeding the
    TEMPERATURE condition 0, 41, 51, 41, 34 records one Critical event and
    one recovery event, and executes the SHUTDOWN action twice, both times
    in the tick that reads 51. *)
Lemma hysteresis_action_fires_twice :
  let th := SafetyThreshold.mk TEMPERATURE 40.0 50.0 SHUTDOWN 35.0 in
  let self' :=
    run TEMPERATURE (fresh_monitor 0) (hysteresis_readings th 1 2 3 4 5) in
  Dict.get SafetyCondition_eqb (_thresholds (fresh_monitor 0)) TEMPERATURE
  = Some th
  /\ List.length (filter is_critical_event (events_of TEMPERATURE self'))
     = 1%nat
  /\ List.length (filter is_recovery_event (events_of TEMPERATURE self'))
     = 1%nat
  /\ executed_for TEMPERATURE self'
     = [(SHUTDOWN, 50.0 + 1); (SHUTDOWN, 50.0 + 1)]
  /\ List.length (executed_for TEMPERATURE self') <> 1%nat.
Proof.
  vm_compute. repeat split. intros H. discriminate H.
Qed.

(** C2, amended.  For a condition that is not under warning and whose
    threshold has [0 < warning], [warning + 1 < critical] and
    [recovery < warning], feeding 0, warning+1, critical+1, warning+1,
    recovery-1 records for it exactly a Warning event, one Critical event and
    one recovery event, and executes the threshold's action exactly twice,
    both in the tick that reads critical+1: once when the threshold is
    checked and once when the pending actions are processed. *)
Theorem hysteresis_sequence (c : SafetyCondition) (th : SafetyThreshold.t)
  (self : t) (t1 t2 t3 t4 t5 : Q) :
  well_formed self ->
  Dict.get SafetyCondition_eqb (_thresholds self) c = Some th ->
  warned c self = false ->
  0 < SafetyThreshold.warning_level th ->
  SafetyThreshold.warning_level th + 1 < SafetyThreshold.critical_level th ->
  SafetyThreshold.recovery_level th < SafetyThreshold.warning_level th ->
  let w := SafetyThreshold.warning_level th in
  let k := SafetyThreshold.critical_level th in
  let r := SafetyThreshold.recovery_level th in
  let a := SafetyThreshold.action th in
  let self' := run c self (hysteresis_readings th t1 t2 t3 t4 t5) in
  events_of c self'
  = events_of c self
    ++ [ SafetyEvent.mk c (w + 1) NOTIFY t2 (Warning_level c (w + 1));
         SafetyEvent.mk c (k + 1) a t3 (Critical_level c (k + 1));
         SafetyEvent.mk c (r - 1) NOTIFY t5 (Recovered c) ]
  /\ executed_for c self'
     = executed_for c self ++ [(a, k + 1); (a, k + 1)].
Proof.
  intros Hwf Hth Hw H0 Hwk Hrw w k r a self'.
  destruct (run_observe c th (hysteresis_readings th t1 t2 t3 t4 t5) self
              Hwf Hth) as [Hobs _].
  fold self' in Hobs. fold w k r a in H0, Hwk, Hrw.
  assert (E1 : Qle_bool k 0 = false) by (apply Qle_bool_false; lra).
  assert (E2 : Qle_bool w 0 = false) by (apply Qle_bool_false; lra).
  assert (E3 : Qle_bool k (w + 1) = false) by (apply Qle_bool_false; lra).
  assert (E4 : Qle_bool w (w + 1) = true) by (apply Qle_bool_iff; lra).
  assert (E5 : Qle_bool k (k + 1) = true) by (apply Qle_bool_iff; lra).
  assert (E6 : Qle_bool k (r - 1) = false) by (apply Qle_bool_false; lra).
  assert (E7 : Qle_bool w (r - 1) = false) by (apply Qle_bool_false; lra).
  assert (E8 : Qle_bool (r - 1) r = true) by (apply Qle_bool_iff; lra).
  unfold hysteresis_readings in Hobs. cbn [fold_left] in Hobs.
  unfold tick_effect, check_effect, process_effect, observe in Hobs.
  fold w k r a in Hobs.
  repeat first
    [ rewrite Hw in Hobs | rewrite E1 in Hobs | rewrite E2 in Hobs
    | rewrite E3 in Hobs | rewrite E4 in Hobs | rewrite E5 in Hobs
    | rewrite E6 in Hobs | rewrite E7 in Hobs | rewrite E8 in Hobs
    | progress cbn [andb] in Hobs ].
  injection Hobs as He Hx _.
  rewrite He, Hx, <- !app_assoc. split; reflexivity.
Qed.

Lemma hysteresis_sequence_witness :
  let th := SafetyThreshold.mk PROJECTION 80.0 95.0 THROTTLE 70.0 in
  let self' :=
    run PROJECTION (fresh_monitor 0) (hysteresis_readings th 1 2 3 4 5) in
  events_of PROJECTION self'
  = events_of PROJECTION (fresh_monitor 0)
    ++ [ SafetyEvent.mk PROJECTION (80.0 + 1) NOTIFY 2
           (Warning_level PROJECTION (80.0 + 1));
         SafetyEvent.mk PROJECTION (95.0 + 1) THROTTLE 3
           (Critical_level PROJECTION (95.0 + 1));
         SafetyEvent.mk PROJECTION (70.0 - 1) NOTIFY 5
           (Recovered PROJECTION) ]
  /\ executed_for PROJECTION self'
     = executed_for PROJECTION (fresh_monitor 0)
       ++ [(THROTTLE, 95.0 + 1); (THROTTLE, 95.0 + 1)].
Proof.
  apply (hysteresis_sequence PROJECTION
           (SafetyThreshold.mk PROJECTION 80.0 95.0 THROTTLE 70.0)
           (fresh_monitor 0) 1 2 3 4 5).
  - split.
    + vm_compute. repeat (constructor; [simpl; intuition discriminate|]).
      constructor.
    + intros k _. destruct k; vm_compute; discriminate.
  - reflexivity.
  - reflexivity.
  - reflexivity.
  - reflexivity.
  - reflexivity.
Defined.

(** *** Thresholds *)

(** C4 as stated fails: the monitor's default POWER threshold has
    [critical < warning < recovery], and it was constructed and is held. *)
Lemma default_power_threshold_unordered :
  ~ (forall (c : SafetyCondition) (th : SafetyThreshold.t),
        Dict.get SafetyCondition_eqb
                 (_thresholds (__init__ StatusMonitor.__init__)) c = Some th ->
        SafetyThreshold.recovery_level th < SafetyThreshold.warning_level th
        /\ SafetyThreshold.warning_level th
           < SafetyThreshold.critical_level th).
Proof.
  intros H.
  destruct (H POWER (SafetyThreshold.mk POWER 15.0 5.0 SHUTDOWN 20.0)
              eq_refl) as [H1 _].
  vm_compute in H1. discriminate H1.
Qed.

Lemma check_same_inputs (k : SafetyCondition) (self : t) (now : Q) :
  same_inputs (_check_safety_threshold self k now) self.
Proof.
  destruct (SafetyCondition_eqb k TEMPERATURE) eqn:E.
  - apply (check_other POWER k self now).
    intros ->. discriminate E.
  - apply (check_other TEMPERATURE k self now).
    intros ->. discriminate E.
Qed.

Lemma process_items_thresholds (items : list (SafetyCondition * Q))
  (self : t) :
  _thresholds (process_items self items) = _thresholds self.
Proof.
  revert self. induction items as [|[k x] items IH]; intros self;
    [reflexivity|]. simpl.
  destruct (Dict.get SafetyCondition_eqb (_thresholds self) k);
    [|reflexivity].
  destruct (Qle_bool _ x); rewrite IH; [|reflexivity].
  unfold _execute_safety_action.
  now destruct (Dict.get SafetyAction_eqb (_event_handlers self) _).
Qed.

Lemma check_list_thresholds (now : Q) (l : list SafetyCondition)
  (self : t) :
  _thresholds (fold_left (fun s k => _check_safety_threshold s k now) l self)
  = _thresholds self.
Proof.
  revert self. induction l as [|k l IH]; intros self; [reflexivity|].
  simpl. rewrite IH.
  destruct (check_same_inputs k self now) as [Hc _].
  unfold configuration in Hc. now injection Hc.
Qed.

Lemma tick_thresholds (c : SafetyCondition) (self : t) (reading : Q * Q) :
  _thresholds (tick c self reading) = _thresholds self.
Proof.
  destruct reading as [v now].
  unfold tick, evaluate, _process_safety_actions, check_all_thresholds.
  rewrite process_items_thresholds, check_list_thresholds. reflexivity.
Qed.

(** C4, amended.  A [SafetyThreshold] is built from any five fields with no
    check of the order of its levels.  The thresholds the monitor holds are
    those its constructor builds, unchanged by [initialize] and by every
    tick.  Among the five, TEMPERATURE, PROJECTION, MECHANICAL and
    ENVIRONMENT have [recovery < warning < critical]; POWER has
    [critical < warning < recovery]. *)
Theorem default_thresholds_ordering (status_monitor : StatusMonitor.t) :
  (forall (c : SafetyCondition) (w k r : Q) (a : SafetyAction),
      SafetyThreshold.warning_level (SafetyThreshold.mk c w k a r) = w
      /\ SafetyThreshold.critical_level (SafetyThreshold.mk c w k a r) = k
      /\ SafetyThreshold.recovery_level (SafetyThreshold.mk c w k a r) = r)
  /\ _thresholds (__init__ status_monitor) = default_thresholds
  /\ _thresholds (initialize (__init__ status_monitor)) = default_thresholds
  /\ (forall (c : SafetyCondition) (self : t) (readings : list (Q * Q)),
         _thresholds (run c self readings) = _thresholds self)
  /\ (forall (c : SafetyCondition) (th : SafetyThreshold.t),
         Dict.get SafetyCondition_eqb default_thresholds c = Some th ->
         c <> POWER ->
         SafetyThreshold.recovery_level th < SafetyThreshold.warning_level th
         /\ SafetyThreshold.warning_level th
            < SafetyThreshold.critical_level th)
  /\ (exists th : SafetyThreshold.t,
         Dict.get SafetyCondition_eqb default_thresholds POWER = Some th
         /\ SafetyThreshold.critical_level th
            < SafetyThreshold.warning_level th
         /\ SafetyThreshold.warning_level th
            < SafetyThreshold.recovery_level th).
Proof.
  split; [now repeat split|].
  split; [reflexivity|]. split; [reflexivity|]. split; [|split].
  - intros c self readings. revert self.
    induction readings as [|rd readings IH]; intros self; [reflexivity|].
    unfold run in *. cbn [fold_left]. rewrite IH. apply tick_thresholds.
  - intros c th Hget Hne.
    destruct c; try (now contradiction Hne);
      injection Hget as <-; split; reflexivity.
  - eexists. split; [reflexivity|]. split; reflexivity.
Qed.

Lemma default_thresholds_ordering_witness :
  SafetyThreshold.recovery_level
    (SafetyThreshold.mk TEMPERATURE 40.0 50.0 SHUTDOWN 35.0)
  < SafetyThreshold.warning_level
      (SafetyThreshold.mk TEMPERATURE 40.0 50.0 SHUTDOWN 35.0)
  /\ SafetyThreshold.warning_level
       (SafetyThreshold.mk TEMPERATURE 40.0 50.0 SHUTDOWN 35.0)
     < SafetyThreshold.critical_level
         (SafetyThreshold.mk TEMPERATURE 40.0 50.0 SHUTDOWN 35.0).
Proof.
  destruct (default_thresholds_ordering StatusMonitor.__init__)
    as [_ [_ [_ [_ [H _]]]]].
  apply (H TEMPERATURE).
  - reflexivity.
  - intros E. discriminate E.
Defined.

End SafetyMonitor.

(** ** The coordinator's shutdown *)

Section CoordinatorShutdown.
Import MainController.

Variable stop_hologram_projection : M bool.
Variable voice_processor_cleanup : M unit.
Variable interaction_handler_cleanup : M unit.
Variable laser_controller_cleanup : M unit.
Variable mems_controller_cleanup : M unit.
Variable meta_surface_controller_cleanup : M unit.
Variable _shutdown_power_systems : M unit.
Variable status_monitor_cleanup : M unit.
Variable safety_manager_cleanup : M unit.

(** [GestureRecognizer.cleanup] raises whatever the hardware does: it calls
    [MotionDriver.cleanup], which does not exist. *)
Lemma gesture_cleanup_raises (env : Environment) (self : t) :
  fst (GestureRecognizer_cleanup env self)
  = Raise (InteractionError "Cleanup failed" "gesture")
  /\ state (snd (GestureRecognizer_cleanup env self)) = state self.
Proof.
  unfold GestureRecognizer_cleanup, MotionDriver_stop_monitoring,
    MotionDriver_cleanup, driver_call, try_except, bind, raise, ret,
    set_gesture_recognizer, modify.
  destruct (motion_stop_monitoring_returns env); simpl; now split.
Qed.

(** [_handle_emergency_shutdown] returns with the state SHUTDOWN. *)
Lemma emergency_shutdown_returns (env : Environment) (now : Q)
  (condition : SafetyManager.SafetyCondition) (value : Q) (self : t) :
  fst (_handle_emergency_shutdown env now condition value self) = Return tt
  /\ state (snd (_handle_emergency_shutdown env now condition value self))
     = SHUTDOWN.
Proof.
  unfold _handle_emergency_shutdown, LaserController_emergency_shutdown,
    MEMSController_emergency_stop, BatteryController_emergency_shutdown,
    SupercapacitorController_emergency_stop, await_record_alert,
    driver_call, try_except, bind, raise, ret, set_state,
    set_laser_is_active, set_mems_is_scanning, modify.
  destruct (laser_disable_emission_returns env),
    (laser_reset_returns env), (mems_emergency_stop_returns env);
    simpl; now split.
Qed.

(** One call of [shutdown]: the state is set, the gesture cleanup raises,
    the emergency handler runs, and [False] is returned. *)
Lemma shutdown_unfolds (env : Environment) (now : Q) (self : t) :
  shutdown stop_hologram_projection voice_processor_cleanup
    interaction_handler_cleanup laser_controller_cleanup
    mems_controller_cleanup meta_surface_controller_cleanup
    _shutdown_power_systems status_monitor_cleanup safety_manager_cleanup
    env now self
  = (Return false,
     snd (_handle_emergency_shutdown env now SafetyManager.POWER 0.0
            (snd (GestureRecognizer_cleanup env
                    (mk SHUTDOWN (status_monitor self)
                        (gesture_recognizer self) (laser_controller self)
                        (mems_controller self)))))).
Proof.
  unfold shutdown, _handle_emergency_shutdown,
    LaserController_emergency_shutdown, MEMSController_emergency_stop,
    BatteryController_emergency_shutdown,
    SupercapacitorController_emergency_stop, await_record_alert,
    GestureRecognizer_cleanup, MotionDriver_stop_monitoring,
    MotionDriver_cleanup, driver_call, try_except, bind, raise, ret,
    set_state, get_state, set_gesture_recognizer, set_laser_is_active,
    set_mems_is_scanning, modify.
  cbn [state SystemState_eqb orb].
  destruct (motion_stop_monitoring_returns env),
    (laser_disable_emission_returns env), (laser_reset_returns env),
    (mems_emergency_stop_returns env); reflexivity.
Qed.

(** One call of [shutdown] returns [False] and leaves the state SHUTDOWN. *)
Lemma shutdown_returns_false (env : Environment) (now : Q) (self : t) :
  let result :=
    shutdown stop_hologram_projection voice_processor_cleanup
      interaction_handler_cleanup laser_controller_cleanup
      mems_controller_cleanup meta_surface_controller_cleanup
      _shutdown_power_systems status_monitor_cleanup safety_manager_cleanup
      env now self in
  fst result = Return false /\ state (snd result) = SHUTDOWN.
Proof.
  intros result. unfold result. rewrite shutdown_unfolds.
  split; [reflexivity|]. cbn [snd].
  apply emergency_shutdown_returns.
Qed.

(** C8, as the code behaves.  Two calls of [shutdown] in sequence both
    return [False], never [True]; the state is SHUTDOWN after each.  This
    holds for every behaviour of the hardware and of the components that are
    not modelled. *)
Theorem shutdown_twice_returns_false (env1 env2 : Environment)
  (now1 now2 : Q) (self : t) :
  let first :=
    shutdown stop_hologram_projection voice_processor_cleanup
      interaction_handler_cleanup laser_controller_cleanup
      mems_controller_cleanup meta_surface_controller_cleanup
      _shutdown_power_systems status_monitor_cleanup safety_manager_cleanup
      env1 now1 self in
  let second :=
    shutdown stop_hologram_projection voice_processor_cleanup
      interaction_handler_cleanup laser_controller_cleanup
      mems_controller_cleanup meta_surface_controller_cleanup
      _shutdown_power_systems status_monitor_cleanup safety_manager_cleanup
      env2 now2 (snd first) in
  fst first = Return false /\ fst first <> Return true
  /\ state (snd first) = SHUTDOWN
  /\ fst second = Return false /\ fst second <> Return true
  /\ state (snd second) = SHUTDOWN.
Proof.
  intros first second.
  destruct (shutdown_returns_false env1 now1 self) as [H1 H2].
  destruct (shutdown_returns_false env2 now2 (snd first)) as [G1 G2].
  fold first in H1, H2. fold second in G1, G2.
  rewrite H1, G1. repeat split; try assumption; intros H; discriminate H.
Qed.

End CoordinatorShutdown.

(** [shutdown] twice on a coordinator just constructed, with responsive
    hardware and with every other component's cleanup returning normally:
    [False] both times. *)
Example shutdown_fresh_coordinator :
  let shutdown_once :=
    MainController.shutdown
      (MainController.ret true) (MainController.ret tt)
      (MainController.ret tt) (MainController.ret tt)
      (MainController.ret tt) (MainController.ret tt)
      (MainController.ret tt) (MainController.ret tt)
      (MainController.ret tt) MainController.responsive_hardware 0 in
  fst (shutdown_once MainController.__init__) = MainController.Return false
  /\ fst (shutdown_once (snd (shutdown_once MainController.__init__)))
     = MainController.Return false
  /\ MainController.state (snd (shutdown_once MainController.__init__))
     = MainController.SHUTDOWN.
Proof. vm_compute. repeat split. Qed.

(** * Further properties of the code *)

(** ** Runs of the power controller *)

Section PowerControllerRuns.
Import PowerManagement.

(** The three ways a request can end. *)
Lemma request_cases (self : PowerManagementSystem) (t : PowerState) :
  request_power_state self t = (Some false, self)
  \/ request_power_state self t = (None, self)
  \/ exists profile,
       dict_get (power_profiles self) t = Some profile
       /\ _validate_state_transition self t = true
       /\ PowerProfile.min_power profile <= total_available_power self
       /\ request_power_state self t
          = (Some true,
             _apply_power_profile (set_current_state self t) t profile).
Proof.
  unfold request_power_state.
  destruct (_validate_state_transition self t) eqn:Hv; simpl; [|now left].
  destruct (dict_get (power_profiles self) t) as [profile|] eqn:Hp;
    [|now right; left].
  unfold _check_power_availability.
  destruct (Qle_bool (PowerProfile.min_power profile)
                     (total_available_power self)) eqn:E; simpl;
    [|now left].
  right; right. exists profile. apply Qle_bool_iff in E. now repeat split.
Qed.

(** The controller after a profile has been applied. *)
Lemma applied_profile (self : PowerManagementSystem) (t : PowerState)
  (profile : PowerProfile.t) :
  _apply_power_profile (set_current_state self t) t profile
  = mkPMS t (battery_level self) (temperature self) (power_profiles self)
      (LithiumSulfurBattery.set_output (primary_battery self)
         (PowerProfile.voltage profile) (PowerProfile.current profile))
      (Supercapacitor.mk (Supercapacitor.capacity (supercapacitor self))
         (Supercapacitor.voltage (supercapacitor self))
         (PowerState_eqb t BURST))
      (thermal_generator self) (motion_generator self) (power_history self).
Proof.
  unfold _apply_power_profile. destruct (PowerState_eqb t BURST); reflexivity.
Qed.

(** An invariant of the state that requests and the outside assignments
    keep is kept by every run of calls. *)
Lemma calls_invariant (P : PowerManagementSystem -> Prop) :
  (forall self t, P self -> P (snd (request_power_state self t))) ->
  (forall self now, P self -> P (snd (monitor_power_consumption self now))) ->
  (forall self v, P self ->
     P (call self (Assign_battery_level v))
     /\ P (call self (Assign_temperature v))) ->
  forall cs self, P self -> P (calls self cs).
Proof.
  intros Hreq Hmon Hassign cs.
  induction cs as [|c cs IH]; intros self HP; [exact HP|].
  unfold calls in *. cbn [fold_left]. apply IH.
  destruct c as [t|now| | |v|v].
  - now apply Hreq.
  - now apply Hmon.
  - cbn [call]. unfold optimize_power_consumption,
      _activate_thermal_management.
    destruct (Qltb (battery_level self) 20.0);
      match goal with
      | |- context [if ?b then _ else _] => destruct b
      end; repeat apply Hreq; exact HP.
  - cbn [call]. now rewrite charge_supercapacitor_id.
  - now apply Hassign.
  - now apply Hassign.
Qed.

(** X1.  No adjacency list names CHARGING, so a request for CHARGING never
    returns [True], and a controller that is not in CHARGING is not brought
    there by any run of calls. *)
Theorem charging_is_never_entered :
  (forall self, fst (request_power_state self CHARGING) <> Some true)
  /\ (forall self cs,
         current_state self <> CHARGING ->
         current_state (calls self cs) <> CHARGING).
Proof.
  assert (Hreq : forall self t,
             current_state self <> CHARGING ->
             current_state (snd (request_power_state self t)) <> CHARGING).
  { intros self t H.
    destruct (request_cases self t) as [E|[E|[p [_ [Hv [_ E]]]]]];
      rewrite E; cbn [snd]; try exact H.
    rewrite applied_profile. cbn [current_state].
    intros ->. unfold _validate_state_transition in Hv.
    destruct (current_state self); discriminate Hv. }
  split.
  - intros self H.
    destruct (request_cases self CHARGING) as [E|[E|[p [_ [Hv _]]]]];
      try (rewrite E in H; discriminate H).
    unfold _validate_state_transition in Hv.
    destruct (current_state self); discriminate Hv.
  - intros self cs H. revert self H.
    apply (calls_invariant (fun s => current_state s <> CHARGING)).
    + exact Hreq.
    + intros self now H. exact H.
    + intros self v H. split; exact H.
Qed.

Lemma charging_is_never_entered_witness :
  current_state
    (calls __init__
       [Request_power_state CHARGING; Request_power_state ACTIVE;
        Request_power_state CHARGING]) <> CHARGING.
Proof.
  apply (proj2 charging_is_never_entered __init__).
  intros H. discriminate H.
Defined.

(** X2.  A request for the state the controller is already in is refused and
    changes nothing; so asking twice for the same state leaves the
    controller as asking once does. *)
Theorem request_current_state_is_refused
  (self : PowerManagementSystem) (t : PowerState) :
  request_power_state self (current_state self) = (Some false, self)
  /\ snd (request_power_state (snd (request_power_state self t)) t)
     = snd (request_power_state self t).
Proof.
  assert (Hself : forall s,
             request_power_state s (current_state s) = (Some false, s)).
  { intros s. unfold request_power_state, _validate_state_transition.
    destruct (current_state s); reflexivity. }
  split; [apply Hself|].
  destruct (request_cases self t) as [E|[E|[p [_ [_ [_ E]]]]]];
    rewrite E; cbn [snd].
  - now rewrite E.
  - now rewrite E.
  - rewrite applied_profile.
    match goal with
    | |- snd (request_power_state ?s t) = ?s =>
        change t with (current_state s) at 1; now rewrite Hself
    end.
Qed.

(** X3.  Along every run of calls the supercapacitor's burst flag says
    whether the state is BURST, and the battery output stays within 3.7 V
    and 1.0 A, once both hold. *)
Theorem burst_flag_and_output_limits
  (self : PowerManagementSystem) (cs : list Call) :
  burst_flag_consistent self ->
  output_within_limits self ->
  burst_flag_consistent (calls self cs)
  /\ output_within_limits (calls self cs).
Proof.
  intros Hb Ho.
  apply (calls_invariant
           (fun s => burst_flag_consistent s /\ output_within_limits s));
    [| | |now split].
  - intros s t H.
    destruct (request_cases s t) as [E|[E|[p [_ [_ [_ E]]]]]];
      rewrite E; cbn [snd]; try exact H.
    rewrite applied_profile. split.
    + reflexivity.
    + unfold output_within_limits, LithiumSulfurBattery.set_output, py_min.
      cbn. split; apply Q.le_min_r.
  - intros s now H. exact H.
  - intros s v H. split; exact H.
Qed.

Lemma burst_flag_and_output_limits_witness :
  burst_flag_consistent
    (calls __init__ [Request_power_state ACTIVE; Request_power_state BURST])
  /\ output_within_limits
       (calls __init__ [Request_power_state ACTIVE; Request_power_state BURST]).
Proof.
  apply (burst_flag_and_output_limits __init__).
  - reflexivity.
  - split; unfold Qle; simpl; lia.
Defined.

Lemma request_keeps_configuration (self : PowerManagementSystem)
  (t : PowerState) :
  factory_configuration self ->
  factory_configuration (snd (request_power_state self t)).
Proof.
  intros H.
  destruct (request_cases self t) as [E|[E|[p [_ [_ [_ E]]]]]];
    rewrite E; cbn [snd]; try exact H.
  rewrite applied_profile. exact H.
Qed.

Lemma factory_total (self : PowerManagementSystem) :
  factory_configuration self ->
  total_available_power self
  == LithiumSulfurBattery.get_available_power (primary_battery self) + 0.01.
Proof.
  intros [_ [Ht [Hm Hv]]]. unfold total_available_power.
  rewrite (available_power_uncharged _ Hv), Ht, Hm.
  unfold ThermalGenerator.get_current_power, MotionGenerator.get_current_power,
    ThermalGenerator.__init__, MotionGenerator.__init__.
  cbn [ThermalGenerator.efficiency MotionGenerator.efficiency]. lra.
Qed.

Lemma throttled_request (self : PowerManagementSystem) (t : PowerState) :
  throttled self -> throttled (snd (request_power_state self t)).
Proof.
  intros [Hf [Hs Hp]].
  destruct (request_cases self t) as [E|[E|[p [Hprof [Hv [Hmin E]]]]]];
    rewrite E; cbn [snd]; try exact (conj Hf (conj Hs Hp)).
  rewrite applied_profile.
  rewrite (factory_total self Hf) in Hmin.
  destruct Hf as [Hpp Hrest]. rewrite Hpp in Hprof.
  unfold _validate_state_transition in Hv.
  split; [now split|].
  destruct t; cbn in Hprof; injection Hprof as <-;
    cbn [PowerProfile.min_power PowerProfile.voltage PowerProfile.current]
      in *.
  - split; [now left | reflexivity].
  - split; [now right | reflexivity].
  - exfalso. lra.
  - exfalso. destruct Hs as [Hs|Hs]; rewrite Hs in Hv; discriminate Hv.
  - exfalso. destruct Hs as [Hs|Hs]; rewrite Hs in Hv; discriminate Hv.
Qed.

Lemma throttled_calls (cs : list Call) (self : PowerManagementSystem) :
  throttled self -> throttled (calls self cs).
Proof.
  apply (calls_invariant throttled).
  - intros s t. apply throttled_request.
  - intros s now H. exact H.
  - intros s v H. split; exact H.
Qed.

Lemma throttled_refuses (self : PowerManagementSystem) (t : PowerState) :
  throttled self -> t = ACTIVE \/ t = BURST ->
  request_power_state self t = (Some false, self).
Proof.
  intros H Ht. pose proof (throttled_request self t H) as [_ [Hs' _]].
  destruct H as [[Hpp _] [Hs _]].
  destruct (request_cases self t) as [E|[E|[p [_ [_ [_ E]]]]]].
  - exact E.
  - exfalso. unfold request_power_state in E. rewrite Hpp in E.
    destruct (negb (_validate_state_transition self t)); [discriminate E|].
    destruct Ht as [-> | ->]; cbn in E;
      match type of E with
      | context [if ?b then _ else _] => destruct b; discriminate E
      end.
  - exfalso. rewrite E, applied_profile in Hs'. cbn in Hs'.
    destruct Ht as [-> | ->], Hs' as [Hs'|Hs']; discriminate Hs'.
Qed.

(** X4.  With the profiles and harvesters of the constructor and an
    uncharged supercapacitor, a successful request for STANDBY or LOW_POWER
    is final for projection: after it, whatever calls follow, the state is
    never ACTIVE or BURST again and every request for ACTIVE or BURST
    returns [False].  The battery output set for STANDBY (3.3 V, 0.01 A) or
    LOW_POWER (3.3 V, 0.1 A) plus the harvesters' 0.01 W is below the 0.5 W
    that ACTIVE requires. *)
Theorem no_return_to_active (self : PowerManagementSystem) (t : PowerState)
  (cs : list Call) :
  factory_configuration self ->
  t = STANDBY \/ t = LOW_POWER ->
  fst (request_power_state self t) = Some true ->
  let later := calls (snd (request_power_state self t)) cs in
  current_state later <> ACTIVE
  /\ current_state later <> BURST
  /\ request_power_state later ACTIVE = (Some false, later)
  /\ request_power_state later BURST = (Some false, later).
Proof.
  intros Hf Ht Hok later.
  assert (Hth : throttled (snd (request_power_state self t))).
  { destruct (request_cases self t) as [E|[E|[p [Hprof [_ [_ E]]]]]];
      try (rewrite E in Hok; discriminate Hok).
    rewrite E. cbn [snd]. rewrite applied_profile.
    destruct Hf as [Hpp Hrest]. rewrite Hpp in Hprof.
    split; [now split|].
    destruct Ht as [-> | ->]; cbn in Hprof; injection Hprof as <-.
    - split; [now left | reflexivity].
    - split; [now right | reflexivity]. }
  pose proof (throttled_calls cs _ Hth) as Hl. fold later in Hl.
  pose proof Hl as [_ [Hs _]].
  repeat split.
  - intros E. destruct Hs as [Hs|Hs]; rewrite Hs in E; discriminate E.
  - intros E. destruct Hs as [Hs|Hs]; rewrite Hs in E; discriminate E.
  - apply throttled_refuses; [exact Hl | now left].
  - apply throttled_refuses; [exact Hl | now right].
Qed.

Lemma no_return_to_active_witness :
  let later :=
    calls (snd (request_power_state
                  (snd (request_power_state __init__ ACTIVE)) STANDBY))
          [Request_power_state LOW_POWER; Request_power_state ACTIVE] in
  current_state later <> ACTIVE
  /\ current_state later <> BURST
  /\ request_power_state later ACTIVE = (Some false, later)
  /\ request_power_state later BURST = (Some false, later).
Proof.
  apply (no_return_to_active (snd (request_power_state __init__ ACTIVE))
           STANDBY).
  - repeat split. intros H. discriminate H.
  - now left.
  - reflexivity.
Defined.

(** X5.  [optimize_power_consumption] either leaves the state or makes it
    LOW_POWER; from BURST and from LOW_POWER, where LOW_POWER is not an
    adjacent target, it changes nothing however low the battery or high the
    temperature; and with the battery level at least 20 and the temperature
    at most 40 it changes nothing in any state. *)
Theorem optimize_power_consumption_effect (self : PowerManagementSystem) :
  (current_state (optimize_power_consumption self) = current_state self
   \/ current_state (optimize_power_consumption self) = LOW_POWER)
  /\ (current_state self = BURST \/ current_state self = LOW_POWER ->
      optimize_power_consumption self = self)
  /\ (20 <= battery_level self -> temperature self <= 40 ->
      optimize_power_consumption self = self).
Proof.
  assert (Hstate : forall s,
             current_state (snd (request_power_state s LOW_POWER))
             = current_state s
             \/ current_state (snd (request_power_state s LOW_POWER))
                = LOW_POWER).
  { intros s.
    destruct (request_cases s LOW_POWER) as [E|[E|[p [_ [_ [_ E]]]]]];
      rewrite E; cbn [snd]; [now left | now left |].
    rewrite applied_profile. now right. }
  assert (Hkeep : forall s,
             battery_level (snd (request_power_state s LOW_POWER))
             = battery_level s
             /\ temperature (snd (request_power_state s LOW_POWER))
                = temperature s).
  { intros s.
    destruct (request_cases s LOW_POWER) as [E|[E|[p [_ [_ [_ E]]]]]];
      rewrite E; cbn [snd]; [now split | now split |].
    rewrite applied_profile. now split. }
  assert (Hrefused : forall s,
             current_state s = BURST \/ current_state s = LOW_POWER ->
             snd (request_power_state s LOW_POWER) = s).
  { intros s Hs. unfold request_power_state, _validate_state_transition.
    destruct Hs as [-> | ->]; reflexivity. }
  unfold optimize_power_consumption, _activate_thermal_management.
  split; [|split].
  - destruct (Qltb (battery_level self) 20.0).
    + destruct (Qltb 40.0 _); [|apply Hstate].
      destruct (Hstate self) as [H1|H1],
        (Hstate (snd (request_power_state self LOW_POWER))) as [H2|H2];
        rewrite ?H2, ?H1; auto.
    + destruct (Qltb 40.0 _); [apply Hstate | now left].
  - intros Hs. rewrite (Hrefused self Hs).
    destruct (Qltb (battery_level self) 20.0), (Qltb 40.0 (temperature self));
      rewrite ?(Hrefused self Hs); reflexivity.
  - intros Hb Ht.
    assert (E1 : Qltb (battery_level self) 20.0 = false)
      by (apply Qltb_ge; lra).
    assert (E2 : Qltb 40.0 (temperature self) = false)
      by (apply Qltb_ge; lra).
    now rewrite E1, E2.
Qed.

Lemma optimize_power_consumption_effect_witness :
  optimize_power_consumption
    (call (calls __init__ [Request_power_state ACTIVE;
                           Request_power_state BURST])
          (Assign_battery_level 5))
  = call (calls __init__ [Request_power_state ACTIVE;
                          Request_power_state BURST])
         (Assign_battery_level 5).
Proof.
  apply (proj1 (proj2 (optimize_power_consumption_effect _))).
  left. reflexivity.
Defined.

(** X6.  The history only grows, and only by monitoring: after a run of
    calls it is the earlier history followed by one snapshot for each
    [monitor_power_consumption()] of the run. *)
Theorem power_history_grows_by_monitoring
  (self : PowerManagementSystem) (cs : list Call) :
  exists snapshots,
    power_history (calls self cs) = power_history self ++ snapshots
    /\ List.length snapshots = monitor_calls cs.
Proof.
  revert self. induction cs as [|c cs IH]; intros self.
  - exists []. now rewrite app_nil_r.
  - unfold calls in *. cbn [fold_left].
    assert (Hother : forall s,
               power_history (snd (request_power_state s LOW_POWER))
               = power_history s).
    { intros s.
      destruct (request_cases s LOW_POWER) as [E|[E|[p [_ [_ [_ E]]]]]];
        rewrite E; cbn [snd]; reflexivity. }
    destruct (IH (call self c)) as [snaps [H1 H2]].
    destruct c as [t|now| | |v|v]; cbn [monitor_calls].
    + exists snaps. split; [|exact H2]. rewrite H1. f_equal.
      cbn [call].
      destruct (request_cases self t) as [E|[E|[p [_ [_ [_ E]]]]]];
        rewrite E; cbn [snd]; rewrite ?applied_profile; reflexivity.
    + eexists (_ :: snaps). split.
      * rewrite H1. cbn [call monitor_power_consumption snd power_history].
        rewrite <- app_assoc. reflexivity.
      * cbn [List.length]. now rewrite H2.
    + exists snaps. split; [|exact H2]. rewrite H1. f_equal.
      cbn [call]. unfold optimize_power_consumption,
        _activate_thermal_management.
      destruct (Qltb (battery_level self) 20.0);
        match goal with
        | |- context [if ?b then _ else _] => destruct b
        end; rewrite ?Hother; reflexivity.
    + exists snaps. split; [|exact H2]. rewrite H1. f_equal.
      cbn [call]. now rewrite charge_supercapacitor_id.
    + exists snaps. split; [|exact H2]. now rewrite H1.
    + exists snaps. split; [|exact H2]. now rewrite H1.
Qed.

(** X7.  While the supercapacitor is uncharged, and no call charges it,
    every snapshot that monitoring records shows a supercapacitor power of
    0, in BURST as in every other state. *)
Theorem monitored_supercapacitor_power_is_zero
  (self : PowerManagementSystem) (cs : list Call) :
  ~ 0 < Supercapacitor.voltage (supercapacitor self) ->
  Forall (fun d => ConsumptionData.supercap_power d = 0)
         (power_history self) ->
  Forall (fun d => ConsumptionData.supercap_power d = 0)
         (power_history (calls self cs)).
Proof.
  intros Hv Hh.
  apply (calls_invariant
           (fun s => ~ 0 < Supercapacitor.voltage (supercapacitor s)
                     /\ Forall (fun d => ConsumptionData.supercap_power d = 0)
                               (power_history s)));
    [| | |now split].
  - intros s t H.
    destruct (request_cases s t) as [E|[E|[p [_ [_ [_ E]]]]]];
      rewrite E; cbn [snd]; try exact H.
    rewrite applied_profile. exact H.
  - intros s now [H1 H2]. split; [exact H1|].
    cbn [monitor_power_consumption snd power_history].
    apply Forall_app. split; [exact H2|]. constructor; [|constructor].
    cbn [ConsumptionData.supercap_power].
    unfold Supercapacitor.get_current_power.
    rewrite (available_power_uncharged _ H1).
    now destruct (Supercapacitor.in_burst_mode (supercapacitor s)).
  - intros s v H. split; exact H.
Qed.

Lemma monitored_supercapacitor_power_is_zero_witness :
  Forall (fun d => ConsumptionData.supercap_power d = 0)
         (power_history
            (calls __init__
               [Request_power_state ACTIVE; Request_power_state BURST;
                Charge_supercapacitor; Monitor_power_consumption 1])).
Proof.
  apply (monitored_supercapacitor_power_is_zero __init__).
  - intros H. discriminate H.
  - constructor.
Defined.

End PowerControllerRuns.

(** ** The threaded system interface *)

Section SystemInterface.
Import PowerManagement.
Import HolographicSystemInterface.

(** A successful [start_hologram] leaves the power controller in BURST with
    the constructor's configuration. *)
Lemma start_hologram_success (self : t)
  (data : option (nat -> nat -> Z)) :
  factory_configuration (power_system self) ->
  fst (start_hologram self data) = true ->
  let p := power_system (snd (start_hologram self data)) in
  current_state p = BURST
  /\ factory_configuration p
  /\ 0 <= LithiumSulfurBattery.get_available_power (primary_battery p)
  /\ Projector.is_projecting (projector (snd (start_hologram self data)))
     = true.
Proof.
  intros Hf Hok. unfold start_hologram in *.
  destruct (request_cases (power_system self) ACTIVE)
    as [E|[E|[p1 [Hp1 [_ [_ E]]]]]]; rewrite E in *;
    try discriminate Hok.
  set (s1 := _apply_power_profile _ ACTIVE p1) in *.
  assert (Hf1 : factory_configuration s1).
  { pose proof (request_keeps_configuration _ ACTIVE Hf) as H.
    now rewrite E in H. }
  destruct (request_cases s1 BURST) as [E2|[E2|[p2 [Hp2 [_ [_ E2]]]]]];
    rewrite E2 in *; try discriminate Hok.
  cbn [snd power_system projector].
  rewrite charge_supercapacitor_id, applied_profile.
  destruct Hf1 as [Hpp Hrest]. rewrite Hpp in Hp2. cbn in Hp2.
  injection Hp2 as <-.
  repeat split; try apply Hrest; try exact Hpp.
  - cbn. unfold Qle. simpl. lia.
  - unfold Projector.start_projection.
    destruct (Projector.is_projecting (projector self)) eqn:P;
      [exact P | now destruct data].
Qed.

(** Stopping a hologram in BURST brings the power controller to STANDBY,
    throttled. *)
Lemma stop_from_burst (p : PowerManagementSystem) :
  factory_configuration p ->
  current_state p = BURST ->
  0 <= LithiumSulfurBattery.get_available_power (primary_battery p) ->
  current_state (snd (request_power_state p STANDBY)) = STANDBY
  /\ throttled (snd (request_power_state p STANDBY)).
Proof.
  intros Hf Hs Hb.
  pose proof (factory_total p Hf) as Htot.
  destruct Hf as [Hpp Hrest].
  unfold request_power_state, _validate_state_transition,
    _check_power_availability.
  rewrite Hs, Hpp. cbn [dict_get Dict.get valid_transitions PowerState_eqb
                        state_in existsb orb negb default_power_profiles
                        PowerProfile.min_power].
  assert (E : Qle_bool 0.01 (total_available_power p) = true)
    by (apply Qle_bool_iff; lra).
  rewrite E. cbn [negb snd]. rewrite applied_profile.
  split; [reflexivity|]. split; [now split|].
  split; [now left | reflexivity].
Qed.

Lemma start_hologram_refused (self : t) (data : option (nat -> nat -> Z)) :
  request_power_state (power_system self) ACTIVE
  = (Some false, power_system self) ->
  start_hologram self data = (false, self).
Proof.
  intros H. unfold start_hologram. rewrite H. now destruct self.
Qed.

(** X8.  With the constructor's configuration, after one hologram has been
    started and stopped no other can be started: the power controller rests
    in STANDBY, [start_hologram] returns [False], and the controller stays
    in STANDBY. *)
Theorem second_hologram_cannot_start (self : t)
  (data data' : option (nat -> nat -> Z)) :
  factory_configuration (power_system self) ->
  fst (start_hologram self data) = true ->
  let stopped := stop_hologram (snd (start_hologram self data)) in
  current_state (power_system stopped) = STANDBY
  /\ Projector.is_projecting (projector stopped) = false
  /\ fst (start_hologram stopped data') = false
  /\ current_state (power_system (snd (start_hologram stopped data')))
     = STANDBY.
Proof.
  intros Hf Hok stopped.
  destruct (start_hologram_success self data Hf Hok) as [Hs [Hf1 [Hb _]]].
  destruct (stop_from_burst _ Hf1 Hs Hb) as [Hst Hth].
  assert (Hst' : current_state (power_system stopped) = STANDBY)
    by exact Hst.
  assert (Hth' : throttled (power_system stopped)) by exact Hth.
  rewrite (start_hologram_refused stopped data'
             (throttled_refuses _ ACTIVE Hth' (or_introl eq_refl))).
  now repeat split.
Qed.

Lemma second_hologram_cannot_start_witness :
  let stopped := stop_hologram (snd (start_hologram __init__ None)) in
  current_state (power_system stopped) = STANDBY
  /\ Projector.is_projecting (projector stopped) = false
  /\ fst (start_hologram stopped None) = false
  /\ current_state (power_system (snd (start_hologram stopped None)))
     = STANDBY.
Proof.
  apply (second_hologram_cannot_start __init__ None None).
  - repeat split. intros H. discriminate H.
  - reflexivity.
Defined.

(** X9.  [shutdown] is idempotent: a second call changes nothing, in every
    state; and after it monitoring is off and nothing is projecting. *)
Theorem interface_shutdown_idempotent (self : t) :
  shutdown (shutdown self) = shutdown self
  /\ _is_monitoring (shutdown self) = false
  /\ Projector.is_projecting (projector (shutdown self)) = false.
Proof.
  assert (Htwice : forall p,
             snd (request_power_state (snd (request_power_state p STANDBY))
                                      STANDBY)
             = snd (request_power_state p STANDBY))
    by (intros p; apply (request_current_state_is_refused p STANDBY)).
  unfold shutdown, stop_hologram.
  cbn [power_system projector _is_monitoring].
  destruct (Projector.is_projecting (projector self)) eqn:P;
    cbn [power_system projector _is_monitoring Projector.stop_projection
         Projector.is_projecting]; rewrite ?P;
    cbn [power_system projector _is_monitoring]; rewrite !Htwice;
    repeat split.
Qed.

(** X10.  With the constructor's configuration, when a hologram is being
    projected in BURST both [_handle_low_battery] and
    [_handle_high_temperature] stop it and leave the power controller in
    STANDBY: the request for LOW_POWER that follows the stop is refused for
    lack of power. *)
Theorem condition_handlers_end_in_standby (self : t) :
  factory_configuration (power_system self) ->
  current_state (power_system self) = BURST ->
  0 <= LithiumSulfurBattery.get_available_power
         (primary_battery (power_system self)) ->
  Projector.is_projecting (projector self) = true ->
  current_state (power_system (_handle_low_battery self)) = STANDBY
  /\ current_state (power_system (_handle_high_temperature self)) = STANDBY
  /\ Projector.is_projecting (projector (_handle_low_battery self)) = false
  /\ Projector.is_projecting (projector (_handle_high_temperature self))
     = false.
Proof.
  intros Hf Hs Hb Hp.
  destruct (stop_from_burst _ Hf Hs Hb) as [Hst Hth].
  pose proof (throttled_request _ LOW_POWER Hth) as [Hf' [Hs' Hp']].
  assert (Hlow : current_state
                   (snd (request_power_state
                           (snd (request_power_state (power_system self)
                                                     STANDBY)) LOW_POWER))
                 = STANDBY).
  { set (p := snd (request_power_state (power_system self) STANDBY)) in *.
    destruct (request_cases p LOW_POWER)
      as [E|[E|[q [Hq [_ [Hmin E]]]]]]; rewrite E; cbn [snd];
      try exact Hst.
    exfalso. rewrite (factory_total p (proj1 Hth)) in Hmin.
    destruct Hth as [[Hpp _] [_ Hlt]]. rewrite Hpp in Hq. cbn in Hq.
    injection Hq as <-. cbn [PowerProfile.min_power] in Hmin.
    unfold p in Hlt, Hmin. clear Hs' Hp' Hf' E.
    unfold request_power_state, _validate_state_transition,
      _check_power_availability in Hmin.
    rewrite Hs in Hmin. destruct Hf as [Hpp0 Hrest0]. rewrite Hpp0 in Hmin.
    cbn [dict_get Dict.get valid_transitions PowerState_eqb state_in existsb
         orb negb default_power_profiles PowerProfile.min_power] in Hmin.
    assert (E0 : Qle_bool 0.01 (total_available_power (power_system self))
                 = true).
    { apply Qle_bool_iff.
      rewrite (factory_total _ (conj Hpp0 Hrest0)). lra. }
    rewrite E0 in Hmin. cbn [negb snd] in Hmin.
    rewrite applied_profile in Hmin. cbn in Hmin.
    unfold Qle in Hmin. simpl in Hmin. lia. }
  unfold _handle_low_battery, _handle_high_temperature,
    _activate_thermal_management, stop_hologram.
  rewrite Hp. cbn [power_system projector _is_monitoring
                   Projector.stop_projection Projector.is_projecting].
  now repeat split.
Qed.

Lemma condition_handlers_end_in_standby_witness :
  let projecting := snd (start_hologram __init__ None) in
  current_state (power_system (_handle_low_battery projecting)) = STANDBY
  /\ current_state (power_system (_handle_high_temperature projecting))
     = STANDBY
  /\ Projector.is_projecting (projector (_handle_low_battery projecting))
     = false
  /\ Projector.is_projecting (projector (_handle_high_temperature projecting))
     = false.
Proof.
  apply (condition_handlers_end_in_standby (snd (start_hologram __init__ None))).
  - repeat split. intros H. discriminate H.
  - reflexivity.
  - unfold Qle. simpl. lia.
  - reflexivity.
Defined.

End SystemInterface.

(** ** The battery controller *)

Section BatteryMonitoring.
Import BatteryController.

Lemma py_div_returns (a b : Q) :
  ~ b == 0 -> py_div a b = Return (a / b).
Proof.
  intros H. unfold py_div. destruct (Qeq_bool b 0) eqn:E; [|reflexivity].
  apply Qeq_bool_iff in E. now contradiction H.
Qed.

Lemma py_div_raises (a b : Q) :
  b == 0 -> py_div a b = Raise "ZeroDivisionError".
Proof.
  intros H. unfold py_div. apply Qeq_bool_iff in H. now rewrite H.
Qed.

Lemma clamp_range (x : Q) : 0 <= py_max (py_min x 100.0) 0.0 <= 100.
Proof.
  unfold py_max, py_min. split.
  - apply Qle_trans with 0.0; [lra | apply Q.le_max_r].
  - apply Q.max_lub; [|lra].
    apply Qle_trans with 100.0; [apply Q.le_min_r | lra].
Qed.

Lemma clamp_inside (x : Q) :
  0 <= x <= 100 -> py_max (py_min x 100.0) 0.0 == x.
Proof.
  intros [H0 H1]. unfold py_max, py_min.
  assert (E : Qmin x 100.0 == x) by (apply Q.min_l; lra).
  rewrite Q.max_l; [exact E | rewrite E; lra].
Qed.

Lemma clamp_below (x : Q) : x <= 0 -> py_max (py_min x 100.0) 0.0 == 0.
Proof.
  intros H. unfold py_max, py_min.
  assert (E : Qmin x 100.0 == x) by (apply Q.min_l; lra).
  rewrite Q.max_r; [reflexivity | rewrite E; lra].
Qed.

(** The load factor [min(abs(current) / rate, 1.0)] for a positive rate. *)
Lemma load_factor_range (current rate : Q) :
  0 < rate -> 0 <= py_min (Qabs current / rate) 1.0 <= 1.
Proof.
  intros Hr. unfold py_min.
  assert (H0 : 0 <= Qabs current / rate).
  { apply Qle_shift_div_l; [exact Hr|]. pose proof (Qabs_nonneg current).
    lra. }
  destruct (Q.min_spec (Qabs current / rate) 1.0) as [[H E]|[H E]];
    rewrite E; split; lra.
Qed.

(** X11.  [_calculate_battery_health] raises exactly when the nominal
    voltage or the maximum discharge rate of the profile is zero; a health
    it returns is within [0, 100]; with a positive nominal voltage and a
    positive rate, a voltage at or above nominal gives a health between 90
    and 100 (the current takes away at most a tenth), and a voltage at or
    below zero gives health 0. *)
Theorem battery_health_range (self : t) (voltage current : Q) :
  let nominal := PowerProfile.nominal_voltage (_power_profile self) in
  let rate := PowerProfile.max_discharge_rate (_power_profile self) in
  (_calculate_battery_health self voltage current
   = Raise "PowerManagementError"
   <-> nominal == 0 \/ rate == 0)
  /\ (forall h, _calculate_battery_health self voltage current = Return h ->
                0 <= h <= 100)
  /\ (0 < nominal -> 0 < rate -> nominal <= voltage ->
      exists h, _calculate_battery_health self voltage current = Return h
                /\ 90 <= h <= 100)
  /\ (0 < nominal -> 0 < rate -> voltage <= 0 ->
      exists h, _calculate_battery_health self voltage current = Return h
                /\ h == 0).
Proof.
  intros nominal rate. unfold _calculate_battery_health.
  fold nominal rate. split; [|split; [|split]].
  - unfold py_div.
    destruct (Qeq_bool nominal 0) eqn:En.
    + apply Qeq_bool_iff in En. split; [now left | reflexivity].
    + apply Qeq_bool_neq in En.
      destruct (Qeq_bool rate 0) eqn:Er.
      * apply Qeq_bool_iff in Er. split; [now right | reflexivity].
      * apply Qeq_bool_neq in Er. split; [discriminate|].
        intros [H|H]; contradiction.
  - intros h.
    destruct (py_div voltage nominal); [|discriminate].
    destruct (py_div (Qabs current) rate); [|discriminate].
    intros H. injection H as <-. apply clamp_range.
  - intros Hn Hr Hv.
    rewrite (py_div_returns voltage nominal) by lra.
    rewrite (py_div_returns (Qabs current) rate) by lra.
    eexists. split; [reflexivity|].
    pose proof (load_factor_range current rate Hr) as [L0 L1].
    set (load := py_min (Qabs current / rate) 1.0) in *.
    assert (Hvf : py_min (voltage / nominal) 1.0 == 1.0).
    { unfold py_min. apply Q.min_r.
      apply Qle_shift_div_l; [exact Hn | lra]. }
    assert (Hh : 100.0 * py_min (voltage / nominal) 1.0
                 * (1.0 - load * 0.1) == 100 - 10 * load).
    { rewrite Hvf. ring. }
    rewrite clamp_inside; rewrite Hh; split; lra.
  - intros Hn Hr Hv.
    rewrite (py_div_returns voltage nominal) by lra.
    rewrite (py_div_returns (Qabs current) rate) by lra.
    eexists. split; [reflexivity|].
    pose proof (load_factor_range current rate Hr) as [L0 L1].
    set (load := py_min (Qabs current / rate) 1.0) in *.
    assert (Hratio : voltage / nominal <= 0).
    { apply Qle_shift_div_r; [exact Hn | lra]. }
    assert (Hvf : py_min (voltage / nominal) 1.0 == voltage / nominal).
    { unfold py_min. apply Q.min_l. lra. }
    apply clamp_below. rewrite Hvf.
    assert (Hpos : 0 <= (- (voltage / nominal)) * (1.0 - load * 0.1)).
    { apply Qmult_le_0_compat; lra. }
    lra.
Qed.

Lemma battery_health_range_witness :
  exists h,
    _calculate_battery_health (__init__ 0) 4.0 0.3 = Return h
    /\ 90 <= h <= 100.
Proof.
  apply (proj1 (proj2 (proj2 (battery_health_range (__init__ 0) 4.0 0.3))));
    reflexivity || (unfold Qle; simpl; lia).
Defined.

Lemma check_critical_conditions_unchanged (self : t) (driver_returns : bool) :
  _check_critical_conditions self driver_returns = self.
Proof.
  unfold _check_critical_conditions.
  destruct (_current_status self) as [status|]; [|reflexivity].
  destruct (Qle_bool _ _); [reflexivity|].
  destruct (Qle_bool _ _); reflexivity.
Qed.

(** X13.  The battery monitor never performs the emergency power shutdown:
    whatever the driver reports, however low the level it computes, and
    whether or not the driver's [emergency_shutdown] would return, an
    iteration of [_monitor_battery_status] leaves [_is_initialized] and the
    power profile as they were.  The critical and low-power handlers stop at
    [notify_power_warning], which the status monitor does not have.  When
    the iteration stores a status, its level and health are within
    [0, 100]. *)
Theorem battery_monitor_never_shuts_down (self : t) (r : Readings.t)
  (now : Q) :
  _is_initialized (monitor_battery_step self r now) = _is_initialized self
  /\ _power_profile (monitor_battery_step self r now) = _power_profile self
  /\ (_current_status (monitor_battery_step self r now)
      = _current_status self
      \/ exists status,
           _current_status (monitor_battery_step self r now) = Some status
           /\ Some (BatteryStatus.voltage status) = Readings.voltage r
           /\ BatteryStatus.level status
              = _calculate_battery_level (BatteryStatus.voltage status)
           /\ 0 <= BatteryStatus.level status <= 100
           /\ 0 <= BatteryStatus.health status <= 100).
Proof.
  unfold monitor_battery_step.
  destruct (Readings.voltage r) as [v|]; [|now repeat split; left].
  destruct (Readings.current r) as [c|]; [|now repeat split; left].
  destruct (Readings.temperature r) as [temp|]; [|now repeat split; left].
  destruct (Readings.charging r) as [ch|]; [|now repeat split; left].
  destruct (_calculate_battery_health self v c) as [h|e] eqn:Eh;
    [|now repeat split; left].
  rewrite check_critical_conditions_unchanged.
  split; [reflexivity|]. split; [reflexivity|].
  right. eexists. split; [reflexivity|]. cbn.
  split; [reflexivity|]. split; [reflexivity|]. split.
  - apply battery_level_range.
  - apply (proj1 (proj2 (battery_health_range self v c)) h Eh).
Qed.

(** X14.  One iteration of [_monitor_temperature]: a reading of at most 45
    (or a driver failure) changes nothing; a reading above 45 and at most 50
    multiplies the maximum discharge rate by 0.7 and changes nothing else;
    a reading above 50 clears [_is_initialized] if the driver's emergency
    shutdown returns and otherwise changes nothing.  Nothing raises the
    rate again: after any readings a rate that was at least 0 is at least 0
    and at most what it was, and after [n] readings in the band it is the
    old rate times [0.7 ^ n]. *)
Theorem thermal_protection_steps (self : t) (driver_returns : bool) :
  let rate s := PowerProfile.max_discharge_rate (_power_profile s) in
  (forall temp, temp <= 45 ->
     monitor_temperature_step driver_returns self (Some temp) = self)
  /\ monitor_temperature_step driver_returns self None = self
  /\ (forall temp, 45 < temp -> temp <= 50 ->
        monitor_temperature_step driver_returns self (Some temp)
        = set_power_profile self
            (PowerProfile.set_max_discharge_rate (_power_profile self)
               (rate self * 0.7)))
  /\ (forall temp, 50 < temp ->
        monitor_temperature_step driver_returns self (Some temp)
        = if driver_returns then set_is_initialized self false else self)
  /\ (forall temps,
        0 <= rate self ->
        let self' :=
          fold_left (monitor_temperature_step driver_returns) temps self in
        0 <= rate self' /\ rate self' <= rate self)
  /\ (forall temps,
        Forall (fun temp => 45 < temp /\ temp <= 50) temps ->
        let self' :=
          fold_left (monitor_temperature_step driver_returns)
                    (map Some temps) self in
        rate self' == rate self * 0.7 ^ Z.of_nat (List.length temps)
        /\ _is_initialized self' = _is_initialized self).
Proof.
  intros rate.
  assert (Hlow : forall s temp, temp <= 45 ->
            monitor_temperature_step driver_returns s (Some temp) = s).
  { intros s temp H. unfold monitor_temperature_step.
    assert (E : Qltb 45.0 temp = false) by (apply Qltb_ge; lra).
    now rewrite E. }
  assert (Hband : forall s temp, 45 < temp -> temp <= 50 ->
            monitor_temperature_step driver_returns s (Some temp)
            = set_power_profile s
                (PowerProfile.set_max_discharge_rate (_power_profile s)
                   (rate s * 0.7))).
  { intros s temp H1 H2.
    unfold monitor_temperature_step, _handle_thermal_event.
    assert (E1 : Qltb 45.0 temp = true) by (apply Qltb_lt; lra).
    assert (E2 : Qltb 50.0 temp = false) by (apply Qltb_ge; lra).
    now rewrite E1, E2. }
  assert (Hhigh : forall s temp, 50 < temp ->
            monitor_temperature_step driver_returns s (Some temp)
            = if driver_returns then set_is_initialized s false else s).
  { intros s temp H.
    unfold monitor_temperature_step, _handle_thermal_event,
      _emergency_thermal_shutdown.
    assert (E1 : Qltb 45.0 temp = true) by (apply Qltb_lt; lra).
    assert (E2 : Qltb 50.0 temp = true) by (apply Qltb_lt; lra).
    now rewrite E1, E2. }
  split; [apply Hlow|]. split; [reflexivity|].
  split; [apply Hband|]. split; [apply Hhigh|]. split.
  - intros temps. revert self.
    induction temps as [|o temps IH]; intros self H0; cbn [fold_left].
    + split; [exact H0 | lra].
    + assert (Hstep : 0 <= rate (monitor_temperature_step driver_returns
                                   self o)
                      /\ rate (monitor_temperature_step driver_returns self o)
                         <= rate self).
      { destruct o as [temp|];
          [|cbn [monitor_temperature_step]; split; [exact H0 | lra]].
        destruct (Qlt_le_dec 45 temp) as [H45|H45];
          [|rewrite (Hlow self temp H45); split; [exact H0 | lra]].
        destruct (Qlt_le_dec 50 temp) as [H50|H50].
        - rewrite (Hhigh self temp H50).
          destruct driver_returns; split; try exact H0; unfold rate; cbn;
            lra.
        - rewrite (Hband self temp H45 H50). unfold rate in *. cbn.
          split; lra. }
      destruct Hstep as [S0 S1].
      destruct (IH _ S0) as [I0 I1]. split; [exact I0 | lra].
  - intros temps. revert self.
    induction temps as [|temp temps IH]; intros self Hall;
      cbn [fold_left map List.length].
    + split; [|reflexivity]. cbn. ring.
    + inversion Hall as [|? ? [H45 H50] Hall']; subst.
      rewrite (Hband self temp H45 H50).
      destruct (IH (set_power_profile self
                      (PowerProfile.set_max_discharge_rate
                         (_power_profile self) (rate self * 0.7))) Hall')
        as [I1 I2].
      split; [|exact I2].
      rewrite I1. unfold rate. cbn [_power_profile set_power_profile
        PowerProfile.max_discharge_rate PowerProfile.set_max_discharge_rate].
      rewrite Nat2Z.inj_succ, <- Z.add_1_r.
      rewrite Qpower_plus by (intros H; discriminate H).
      rewrite Qpower_1_r. ring.
Qed.

Lemma thermal_protection_steps_witness :
  let rate s := PowerProfile.max_discharge_rate (_power_profile s) in
  let self' :=
    fold_left (monitor_temperature_step true) (map Some [46; 48; 50])
              (__init__ 0) in
  rate self' == rate (__init__ 0) * 0.7 ^ Z.of_nat 3
  /\ _is_initialized self' = _is_initialized (__init__ 0).
Proof.
  apply (proj2 (proj2 (proj2 (proj2 (proj2
           (thermal_protection_steps (__init__ 0) true))))) [46; 48; 50]).
  repeat (constructor; [split; [reflexivity | unfold Qle; simpl; lia]|]).
  constructor.
Defined.

(** X15.  Calibrating on a voltage reading of zero or less sets the maximum
    discharge rate to zero, for good: from then on
    [_calculate_battery_health] raises, so no iteration of the battery
    monitor stores a status, and [get_status] keeps raising if no status
    had been stored. *)
Theorem zero_voltage_calibration_disables_monitoring (self : t)
  (voltage current : Q) :
  0 < PowerProfile.nominal_voltage (_power_profile self) ->
  0 < PowerProfile.max_discharge_rate (_power_profile self) ->
  voltage <= 0 ->
  let result := _calibrate_battery self (Some voltage) (Some current) in
  fst result = Return tt
  /\ PowerProfile.max_discharge_rate (_power_profile (snd result)) == 0
  /\ (forall v c, _calculate_battery_health (snd result) v c
                  = Raise "PowerManagementError")
  /\ (forall r now, monitor_battery_step (snd result) r now = snd result)
  /\ (_current_status self = None ->
      forall r now,
        get_status (monitor_battery_step (snd result) r now)
        = Raise "PowerManagementError").
Proof.
  intros Hn Hr Hv result.
  destruct (proj2 (proj2 (proj2 (battery_health_range self voltage current)))
              Hn Hr Hv) as [h [Eh Hh]].
  unfold result, _calibrate_battery. rewrite Eh. cbn [fst snd].
  set (self' := _update_power_profile self h).
  assert (Hrate : PowerProfile.max_discharge_rate (_power_profile self') == 0).
  { unfold self', _update_power_profile. cbn. rewrite Hh.
    unfold Qdiv. ring. }
  assert (Hraise : forall v c, _calculate_battery_health self' v c
                               = Raise "PowerManagementError").
  { intros v c. apply (proj1 (battery_health_range self' v c)). now right. }
  assert (Hstep : forall r now, monitor_battery_step self' r now = self').
  { intros r now. unfold monitor_battery_step.
    destruct (Readings.voltage r) as [v|]; [|reflexivity].
    destruct (Readings.current r) as [c|]; [|reflexivity].
    destruct (Readings.temperature r); [|reflexivity].
    destruct (Readings.charging r); [|reflexivity].
    now rewrite Hraise. }
  split; [reflexivity|]. split; [exact Hrate|]. split; [exact Hraise|].
  split; [exact Hstep|].
  intros Hnone r now. rewrite Hstep. unfold get_status, self'.
  cbn. now rewrite Hnone.
Qed.

Lemma zero_voltage_calibration_disables_monitoring_witness :
  let result := _calibrate_battery (__init__ 0) (Some 0) (Some 0.3) in
  fst result = Return tt
  /\ PowerProfile.max_discharge_rate (_power_profile (snd result)) == 0.
Proof.
  destruct (zero_voltage_calibration_disables_monitoring (__init__ 0) 0 0.3)
    as [H1 [H2 _]];
    try reflexivity; try (unfold Qle; simpl; lia).
  split; [exact H1 | exact H2].
Defined.

End BatteryMonitoring.

(** ** The remaining time in binary64 *)

Section RemainingTime.
Import PrimFloat FloatOps FloatAxioms SpecFloat PyFloat BatteryControllerIEEE.
Local Open Scope float_scope.











(** What is returned is the integer part of the float computed: level 5.125
    at 0.0625 A gives 122 (the quotient is 122.99999999999999), the smallest
    positive current overflows, and a current that is not a number ends in
    the error as well. *)
Example remaining_time_is_the_integer_part_of_the_float :
  _estimate_remaining_time 2500.0 5.125 0.0625 = Return 122%Z
  /\ _estimate_remaining_time 2500.0 100.0 0x1p-1074
     = Raise PowerManagementError
  /\ _estimate_remaining_time 2500.0 100.0 nan = Raise PowerManagementError.
Proof. vm_compute. repeat split. Qed.

End RemainingTime.

(** ** Alerts of the status aggregator *)

Section AlertQueries.
Import StatusMonitor.

Lemma insert_newest_first_perm (a : SystemAlert.t) (l : list SystemAlert.t) :
  Permutation (insert_newest_first a l) (a :: l).
Proof.
  induction l as [|b l IH]; simpl; [reflexivity|].
  destruct (Qltb (SystemAlert.timestamp a) (SystemAlert.timestamp b));
    [|reflexivity].
  rewrite IH. apply perm_swap.
Qed.

Lemma sort_newest_first_perm (l : list SystemAlert.t) :
  Permutation (sort_newest_first l) l.
Proof.
  induction l as [|a l IH]; simpl; [reflexivity|].
  rewrite insert_newest_first_perm. now constructor.
Qed.

Lemma insert_newest_first_sorted (a : SystemAlert.t)
  (l : list SystemAlert.t) :
  newest_first l -> newest_first (insert_newest_first a l).
Proof.
  unfold newest_first. induction l as [|b l IH]; intros Hs; simpl.
  - constructor; constructor.
  - inversion Hs as [|? ? Hl Hb]; subst.
    destruct (Qltb (SystemAlert.timestamp a) (SystemAlert.timestamp b)) eqn:E.
    + apply Qltb_lt in E. constructor; [now apply IH|].
      apply Forall_forall. intros x Hx.
      apply (Permutation_in _ (insert_newest_first_perm a l)) in Hx.
      destruct Hx as [<-|Hx]; [lra|].
      rewrite Forall_forall in Hb. now apply Hb.
    + apply Qltb_ge in E. constructor; [exact Hs|].
      constructor; [exact E|].
      rewrite Forall_forall in *. intros x Hx. specialize (Hb x Hx). lra.
Qed.

Lemma sort_newest_first_sorted (l : list SystemAlert.t) :
  newest_first (sort_newest_first l).
Proof.
  induction l as [|a l IH]; simpl; [constructor|].
  now apply insert_newest_first_sorted.
Qed.

Lemma slice_to_prefix {A : Type} (l : list A) (limit : Z) :
  exists rest, l = slice_to l limit ++ rest.
Proof.
  unfold slice_to. destruct (0 <=? limit)%Z; eexists;
    symmetry; apply firstn_skipn.
Qed.

Lemma sorted_prefix (l1 l2 : list SystemAlert.t) :
  newest_first (l1 ++ l2) ->
  newest_first l1
  /\ forall a b, In a l1 -> In b l2 ->
                 SystemAlert.timestamp b <= SystemAlert.timestamp a.
Proof.
  unfold newest_first. induction l1 as [|x l1 IH]; simpl; intros H.
  - split; [constructor | intros a b []].
  - inversion H as [|? ? Hl Hx]; subst. destruct (IH Hl) as [I1 I2].
    split.
    + constructor; [exact I1|].
      rewrite Forall_forall in *. intros y Hy. apply Hx.
      apply in_or_app. now left.
    + intros a b [<-|Ha] Hb; [|now apply I2].
      rewrite Forall_forall in Hx. apply Hx. apply in_or_app. now right.
Qed.

Lemma matching_alerts_spec (self : t) (component : option SystemComponent)
  (level : option AlertLevel) (a : SystemAlert.t) :
  In a (matching_alerts self component level)
  <-> In a (_alert_history self)
      /\ (forall c, component = Some c -> SystemAlert.component a = c)
      /\ (forall l, level = Some l -> SystemAlert.level a = l).
Proof.
  assert (Hl : forall x y, AlertLevel_eqb x y = true <-> x = y)
    by (intros x y; destruct x, y; simpl; split; congruence).
  unfold matching_alerts.
  destruct component as [c|], level as [l|]; rewrite ?filter_In.
  - rewrite SystemComponent_eqb_eq, Hl. split.
    + intros [[H1 H2] H3]. repeat split; [exact H1| |]; congruence.
    + intros [H1 [H2 H3]]. repeat split; auto.
  - rewrite SystemComponent_eqb_eq. split.
    + intros [H1 H2]. repeat split; [exact H1| |]; congruence.
    + intros [H1 [H2 H3]]. split; auto.
  - rewrite Hl. split.
    + intros [H1 H2]. repeat split; [exact H1| |]; congruence.
    + intros [H1 [H2 H3]]. split; auto.
  - split; [intros H; repeat split; [exact H| |]; discriminate | tauto].
Qed.

(** X16.  [get_alerts] returns alerts of the history that match the
    component and the level asked for, newest first; they are the newest of
    the matching alerts, a prefix of all of them in that order; for a limit
    of at least 0 there are at most [limit] of them, and when the limit is
    not below the number of matching alerts they are all returned. *)
Theorem get_alerts_newest_matching (self : t)
  (component : option SystemComponent) (level : option AlertLevel)
  (limit : Z) :
  let result := get_alerts self component level limit in
  let matching := matching_alerts self component level in
  (forall a, In a result ->
     In a (_alert_history self)
     /\ (forall c, component = Some c -> SystemAlert.component a = c)
     /\ (forall l, level = Some l -> SystemAlert.level a = l))
  /\ newest_first result
  /\ (exists rest,
        Permutation (result ++ rest) matching
        /\ forall a b, In a result -> In b rest ->
             SystemAlert.timestamp b <= SystemAlert.timestamp a)
  /\ ((0 <= limit)%Z -> (List.length result <= Z.to_nat limit)%nat)
  /\ ((Z.of_nat (List.length matching) <= limit)%Z ->
      Permutation result matching).
Proof.
  intros result matching. unfold result, get_alerts. fold matching.
  destruct (slice_to_prefix (sort_newest_first matching) limit)
    as [rest Hrest].
  pose proof (sort_newest_first_sorted matching) as Hs.
  pose proof (sort_newest_first_perm matching) as Hp.
  rewrite Hrest in Hs, Hp.
  destruct (sorted_prefix _ _ Hs) as [S1 S2].
  split; [|split; [exact S1|split; [|split]]].
  - intros a Ha. apply (matching_alerts_spec self component level a).
    apply (Permutation_in _ Hp). apply in_or_app. now left.
  - exists rest. split; [exact Hp | exact S2].
  - intros H0. unfold slice_to.
    destruct (0 <=? limit)%Z eqn:E; [|lia]. apply firstn_le_length.
  - intros Hlen. unfold slice_to.
    assert (E : (0 <=? limit)%Z = true) by lia. rewrite E.
    rewrite firstn_all2; [apply sort_newest_first_perm|].
    rewrite (Permutation_length (sort_newest_first_perm matching)). lia.
Qed.

Lemma get_alerts_newest_matching_witness :
  (List.length (get_alerts (_analyze_system_health three_bands 1)
                           (Some POWER) None 5) <= Z.to_nat 5)%nat.
Proof.
  apply (proj1 (proj2 (proj2 (proj2
           (get_alerts_newest_matching (_analyze_system_health three_bands 1)
              (Some POWER) None 5))))).
  lia.
Defined.

End AlertQueries.

(** ** The life of a status monitor *)

Section MonitorLife.
Import StatusMonitor.

Lemma get_In (d : list (SystemComponent * ComponentStatus.t))
  (c : SystemComponent) (st : ComponentStatus.t) :
  Dict.get SystemComponent_eqb d c = Some st -> In (c, st) d.
Proof.
  induction d as [|[k v] d IH]; simpl; [discriminate|].
  destruct (SystemComponent_eqb k c) eqn:E.
  - apply SystemComponent_eqb_eq in E. subst k.
    intros H. injection H as ->. now left.
  - intros H. right. now apply IH.
Qed.

Lemma get_map_values (f : ComponentStatus.t -> ComponentStatus.t)
  (d : list (SystemComponent * ComponentStatus.t)) (c : SystemComponent) :
  Dict.get SystemComponent_eqb (map (fun kv => (fst kv, f (snd kv))) d) c
  = option_map f (Dict.get SystemComponent_eqb d c).
Proof.
  induction d as [|[k v] d IH]; simpl; [reflexivity|].
  destruct (SystemComponent_eqb k c); [reflexivity | exact IH].
Qed.

Lemma keys_set_known (d : list (SystemComponent * ComponentStatus.t))
  (c : SystemComponent) (old new : ComponentStatus.t) :
  Dict.get SystemComponent_eqb d c = Some old ->
  Dict.keys (Dict.set SystemComponent_eqb d c new) = Dict.keys d.
Proof.
  intros H. rewrite (keys_set SystemComponent_eqb). unfold Dict.mem.
  now rewrite H.
Qed.

Lemma get_set_cases (d : list (SystemComponent * ComponentStatus.t))
  (c c' : SystemComponent) (new : ComponentStatus.t) :
  Dict.get SystemComponent_eqb (Dict.set SystemComponent_eqb d c new) c'
  = if SystemComponent_eqb c c' then Some new
    else Dict.get SystemComponent_eqb d c'.
Proof.
  destruct (SystemComponent_eqb c c') eqn:E.
  - apply SystemComponent_eqb_eq in E. subst c'.
    apply (get_set_same SystemComponent_eqb SystemComponent_eqb_eq).
  - apply (get_set_other SystemComponent_eqb SystemComponent_eqb_eq).
    intros ->. now rewrite SystemComponent_eqb_refl in E.
Qed.

Lemma filter_commute {A : Type} (f g : A -> bool) (l : list A) :
  filter f (filter g l) = filter g (filter f l).
Proof.
  induction l as [|a l IH]; simpl; [reflexivity|].
  destruct (f a) eqn:F, (g a) eqn:G; simpl; rewrite ?F, ?G, IH; reflexivity.
Qed.

Lemma record_alert_consistent (self : t) (c : SystemComponent)
  (lv : AlertLevel) (msg : Message) (now : Q)
  (data : option (list (string * Q))) :
  consistent self -> consistent (_record_alert self c lv msg now data).
Proof.
  intros [Hnd [Hknown Halerts]].
  destruct (Dict.get SystemComponent_eqb (_component_status self) c)
    as [st|] eqn:Hst; [|now contradiction (Hknown c)].
  assert (Hcore :
    forall cbs',
      consistent
        (mk (Dict.set SystemComponent_eqb (_component_status self) c
               (ComponentStatus.append_alert st
                  (SystemAlert.mk c lv msg now data)))
            (_alert_history self ++ [SystemAlert.mk c lv msg now data])
            (_alert_callbacks self) (_is_monitoring self)
            (_status_update_interval self) (_alert_retention_period self)
            cbs')).
  { intros cbs'. unfold consistent. cbn [_component_status _alert_history].
    split; [|split].
    - now rewrite (keys_set_known _ _ _ _ Hst).
    - intros c'. rewrite get_set_cases.
      destruct (SystemComponent_eqb c c'); [discriminate | apply Hknown].
    - intros c' st'. rewrite get_set_cases, filter_app. cbn [filter].
      cbn [SystemAlert.component].
      destruct (SystemComponent_eqb c c') eqn:E.
      + apply SystemComponent_eqb_eq in E. subst c'.
        intros H. injection H as <-. cbn [ComponentStatus.append_alert
          ComponentStatus.alerts]. now rewrite (Halerts c st Hst).
      + intros H. rewrite app_nil_r. now apply Halerts. }
  unfold _record_alert. rewrite Hst.
  destruct (Dict.get AlertLevel_eqb (_alert_callbacks self) lv); apply Hcore.
Qed.

Lemma analyze_consistent (self : t) (now : Q) :
  consistent self -> consistent (_analyze_system_health self now).
Proof.
  unfold _analyze_system_health.
  generalize (_component_status self) as items. intros items. revert self.
  induction items as [|[c st] items IH]; intros self H; [exact H|].
  cbn [fold_left]. apply IH. unfold analyze_component.
  assert (H1 : consistent
                 (if Qltb (ComponentStatus.health st) 20.0
                  then _record_alert self c CRITICAL
                         (Critical_health c (ComponentStatus.health st))
                         now None
                  else if Qltb (ComponentStatus.health st) 50.0
                  then _record_alert self c WARNING
                         (Low_health c (ComponentStatus.health st)) now None
                  else self)).
  { destruct (Qltb _ 20.0); [now apply record_alert_consistent|].
    destruct (Qltb _ 50.0); [now apply record_alert_consistent | exact H]. }
  destruct (Qltb _ (now - _)); [now apply record_alert_consistent | exact H1].
Qed.

(** A component's status after [_update_component_status]. *)
Lemma update_component_known (now : Q) (self : t) (c : SystemComponent)
  (old : ComponentStatus.t) :
  Dict.get SystemComponent_eqb (_component_status self) c = Some old ->
  _update_component_status now self c
  = mk (Dict.set SystemComponent_eqb (_component_status self) c
          (ComponentStatus.mk c
             (match c with
              | POWER | THERMAL => "degraded"
              | _ => "operational"
              end)
             (match c with POWER | THERMAL => 0.0 | _ => 100.0 end)
             now [] (ComponentStatus.alerts old)))
       (_alert_history self) (_alert_callbacks self) (_is_monitoring self)
       (_status_update_interval self) (_alert_retention_period self)
       (callback_calls self).
Proof.
  intros H. unfold _update_component_status. rewrite H.
  destruct c; cbn; try reflexivity;
    destruct (_get_battery_status self); reflexivity.
Qed.

Lemma update_component_consistent (now : Q) (self : t)
  (c : SystemComponent) :
  consistent self -> consistent (_update_component_status now self c).
Proof.
  intros H. pose proof H as [Hnd [Hknown Halerts]].
  destruct (Dict.get SystemComponent_eqb (_component_status self) c)
    as [old|] eqn:Hold; [|now contradiction (Hknown c)].
  rewrite (update_component_known now self c old Hold).
  unfold consistent. cbn [_component_status _alert_history].
  split; [|split].
  - now rewrite (keys_set_known _ _ _ _ Hold).
  - intros c'. rewrite get_set_cases.
    destruct (SystemComponent_eqb c c'); [discriminate | apply Hknown].
  - intros c' st'. rewrite get_set_cases.
    destruct (SystemComponent_eqb c c') eqn:E.
    + apply SystemComponent_eqb_eq in E. subst c'.
      intros H'. injection H' as <-. cbn. now apply Halerts.
    + apply Halerts.
Qed.

Lemma update_all_consistent (self : t) (now : Q) :
  consistent self -> consistent (_update_all_components self now).
Proof.
  unfold _update_all_components.
  generalize all_components as l. intros l. revert self.
  induction l as [|c l IH]; intros self H; [exact H|].
  cbn [fold_left]. apply IH. now apply update_component_consistent.
Qed.

Lemma sweep_consistent (self : t) (now : Q) :
  consistent self -> consistent (sweep_alerts self now).
Proof.
  intros [Hnd [Hknown Halerts]]. unfold consistent, sweep_alerts.
  cbn [_component_status _alert_history]. split; [|split].
  - unfold Dict.keys in *. rewrite map_map. cbn [fst]. exact Hnd.
  - intros c.
    rewrite (get_map_values
               (fun st => ComponentStatus.mk (ComponentStatus.component st)
                  (ComponentStatus.status st) (ComponentStatus.health st)
                  (ComponentStatus.last_update st) (ComponentStatus.metrics st)
                  (filter (fun a => Qltb (now - _alert_retention_period self)
                                         (SystemAlert.timestamp a))
                          (ComponentStatus.alerts st)))).
    specialize (Hknown c).
    destruct (Dict.get SystemComponent_eqb (_component_status self) c);
      [discriminate | now contradiction Hknown].
  - intros c st'.
    rewrite (get_map_values
               (fun st => ComponentStatus.mk (ComponentStatus.component st)
                  (ComponentStatus.status st) (ComponentStatus.health st)
                  (ComponentStatus.last_update st) (ComponentStatus.metrics st)
                  (filter (fun a => Qltb (now - _alert_retention_period self)
                                         (SystemAlert.timestamp a))
                          (ComponentStatus.alerts st)))).
    destruct (Dict.get SystemComponent_eqb (_component_status self) c)
      as [st|] eqn:Hst; [|discriminate].
    cbn [option_map]. intros H. injection H as <-.
    cbn [ComponentStatus.alerts]. rewrite (Halerts c st Hst).
    apply filter_commute.
Qed.

Lemma step_consistent (self : t) (s : Step) :
  consistent self -> consistent (step self s).
Proof.
  intros H. destruct s as [c l m now d|u a|now|l cb|l cb]; cbn [step].
  - now apply record_alert_consistent.
  - unfold poll. now apply analyze_consistent, update_all_consistent.
  - now apply sweep_consistent.
  - unfold register_alert_callback.
    now destruct (Dict.get AlertLevel_eqb (_alert_callbacks self) l).
  - unfold unregister_alert_callback.
    destruct (Dict.get AlertLevel_eqb (_alert_callbacks self) l);
      [|exact H].
    now destruct (existsb _ _).
Qed.

Lemma initialize_consistent (now : Q) :
  consistent (initialize __init__ now).
Proof.
  unfold consistent. cbn. split; [|split].
  - repeat (constructor; [simpl; intuition discriminate|]). constructor.
  - intros c. destruct c; discriminate.
  - intros c st. destruct c; intros H; injection H as <-; reflexivity.
Qed.

Lemma steps_consistent (ss : list Step) (self : t) :
  consistent self -> consistent (steps self ss).
Proof.
  unfold steps. revert self.
  induction ss as [|s ss IH]; intros self H; [exact H|].
  cbn [fold_left]. apply IH. now apply step_consistent.
Qed.

(** X17.  From its initialisation on, whatever is recorded, polled, swept,
    registered or unregistered, the monitor knows each of the six components
    exactly once, and the alerts it keeps with a component are exactly the
    alerts of its history that are about that component, in the same
    order. *)
Theorem monitor_stays_consistent (now : Q) (ss : list Step) :
  consistent (steps (initialize __init__ now) ss).
Proof.
  apply steps_consistent, initialize_consistent.
Qed.

End MonitorLife.

(** ** Sweeping, polling and callbacks of the status monitor *)

Section MonitorUpkeep.
Import StatusMonitor.

Lemma filter_later_cutoff (c c' : Q) (l : list SystemAlert.t) :
  c <= c' ->
  filter (fun a => Qltb c' (SystemAlert.timestamp a))
         (filter (fun a => Qltb c (SystemAlert.timestamp a)) l)
  = filter (fun a => Qltb c' (SystemAlert.timestamp a)) l.
Proof.
  intros Hc. induction l as [|a l IH]; simpl; [reflexivity|].
  destruct (Qltb c (SystemAlert.timestamp a)) eqn:E; simpl.
  - now rewrite IH.
  - rewrite IH. apply Qltb_ge in E.
    assert (E' : Qltb c' (SystemAlert.timestamp a) = false)
      by (apply Qltb_ge; lra).
    now rewrite E'.
Qed.

(** X18.  A sweep keeps of the history exactly the alerts that are newer than
    the retention period, in their order, and leaves the health scores alone;
    a sweep followed by a later sweep is the later sweep, so sweeping twice at
    the same time is sweeping once. *)
Theorem sweep_alerts_retention (self : t) (now now' : Q) :
  (forall a, In a (_alert_history (sweep_alerts self now))
             <-> In a (_alert_history self)
                 /\ now - _alert_retention_period self
                    < SystemAlert.timestamp a)
  /\ get_system_health (sweep_alerts self now) = get_system_health self
  /\ (now <= now' ->
      sweep_alerts (sweep_alerts self now) now' = sweep_alerts self now').
Proof.
  split; [|split].
  - intros a. unfold sweep_alerts. cbn [_alert_history].
    rewrite filter_In, Qltb_lt. reflexivity.
  - unfold get_system_health, sweep_alerts. cbn [_component_status].
    rewrite map_map. reflexivity.
  - intros Hle. unfold sweep_alerts.
    cbn [_component_status _alert_history _alert_callbacks _is_monitoring
         _status_update_interval _alert_retention_period callback_calls].
    rewrite map_map. cbn [fst snd ComponentStatus.component
      ComponentStatus.status ComponentStatus.health
      ComponentStatus.last_update ComponentStatus.metrics
      ComponentStatus.alerts].
    rewrite filter_later_cutoff by lra.
    f_equal. apply map_ext. intros [k v]. cbn [fst snd].
    now rewrite filter_later_cutoff by lra.
Qed.

Lemma sweep_alerts_retention_witness :
  sweep_alerts (sweep_alerts (_analyze_system_health three_bands 1) 3000) 4000
  = sweep_alerts (_analyze_system_health three_bands 1) 4000.
Proof.
  apply (proj2 (proj2 (sweep_alerts_retention
                         (_analyze_system_health three_bands 1) 3000 4000))).
  unfold Qle. simpl. lia.
Defined.

Lemma get_map_snd {V W : Type} (f : V -> W) (d : list (SystemComponent * V))
  (c : SystemComponent) :
  Dict.get SystemComponent_eqb (map (fun kv => (fst kv, f (snd kv))) d) c
  = option_map f (Dict.get SystemComponent_eqb d c).
Proof.
  induction d as [|[k v] d IH]; simpl; [reflexivity|].
  destruct (SystemComponent_eqb k c); [reflexivity | exact IH].
Qed.

Lemma update_component_history (now : Q) (self : t) (c : SystemComponent) :
  _alert_history (_update_component_status now self c) = _alert_history self.
Proof.
  unfold _update_component_status.
  destruct (Dict.get SystemComponent_eqb (_component_status self) c) eqn:E;
    [reflexivity|].
  unfold _record_alert. now rewrite E.
Qed.

Lemma update_all_history (self : t) (now : Q) :
  _alert_history (_update_all_components self now) = _alert_history self.
Proof.
  unfold _update_all_components.
  generalize all_components as l. intros l. revert self.
  induction l as [|c l IH]; intros self; [reflexivity|].
  cbn [fold_left]. now rewrite IH, update_component_history.
Qed.

(** The status of a component after the components of [l] were updated. *)
Lemma update_list_get (now : Q) (l : list SystemComponent) :
  NoDup l ->
  forall (self : t) (c : SystemComponent),
  consistent self ->
  exists old,
    Dict.get SystemComponent_eqb (_component_status self) c = Some old
    /\ Dict.get SystemComponent_eqb
         (_component_status (fold_left (_update_component_status now) l self))
         c
       = Some (if existsb (SystemComponent_eqb c) l
               then ComponentStatus.mk c
                      (match c with
                       | POWER | THERMAL => "degraded"
                       | _ => "operational"
                       end)
                      (match c with POWER | THERMAL => 0.0 | _ => 100.0 end)
                      now [] (ComponentStatus.alerts old)
               else old).
Proof.
  induction l as [|k l IH]; intros Hnd self c Hc.
  - destruct Hc as [_ [Hknown _]]. specialize (Hknown c). cbn.
    destruct (Dict.get SystemComponent_eqb (_component_status self) c)
      as [old|]; [|now contradiction Hknown].
    now exists old.
  - inversion Hnd as [|? ? Hk Hnd']; subst. cbn [fold_left existsb].
    pose proof (update_component_consistent now self k Hc) as Hc1.
    destruct (IH Hnd' (_update_component_status now self k) c Hc1)
      as [old1 [Hold1 Hget]].
    pose proof Hc as [_ [Hknown _]].
    destruct (Dict.get SystemComponent_eqb (_component_status self) k)
      as [oldk|] eqn:Holdk; [|now contradiction (Hknown k)].
    rewrite (update_component_known now self k oldk Holdk) in Hold1.
    cbn [_component_status] in Hold1. rewrite get_set_cases in Hold1.
    destruct (SystemComponent_eqb k c) eqn:E.
    + apply SystemComponent_eqb_eq in E. subst k.
      exists oldk. split; [exact Holdk|]. rewrite Hget.
      rewrite SystemComponent_eqb_refl. cbn [orb].
      assert (En : existsb (SystemComponent_eqb c) l = false).
      { destruct (existsb (SystemComponent_eqb c) l) eqn:Ex; [|reflexivity].
        apply existsb_exists in Ex. destruct Ex as [x [Hx Ex]].
        apply SystemComponent_eqb_eq in Ex. subst x. contradiction. }
      rewrite En. f_equal. now injection Hold1 as <-.
    + exists old1. split; [exact Hold1|]. rewrite Hget.
      assert (E' : SystemComponent_eqb c k = false).
      { destruct (SystemComponent_eqb c k) eqn:E'; [|reflexivity].
        apply SystemComponent_eqb_eq in E'. subst k.
        now rewrite SystemComponent_eqb_refl in E. }
      rewrite E'. reflexivity.
Qed.

(** X19.  One iteration of the status update loop on a monitor that knows its
    components: POWER and THERMAL come out with health 0.0 and one CRITICAL
    health alert each, however healthy they were, because the health
    calculation they need fails; every other component comes out with health
    100.0 and no health alert.  No alert is recorded by the update itself. *)
Theorem poll_fails_power_and_thermal (self : t) (updated analysed : Q)
  (c : SystemComponent) :
  consistent self ->
  let after := poll self updated analysed in
  let failing := match c with POWER | THERMAL => true | _ => false end in
  (exists st,
      get_component_status after c = Some st
      /\ ComponentStatus.health st = (if failing then 0.0 else 100.0)
      /\ ComponentStatus.last_update st = updated)
  /\ health_alerts c (recorded_since self after)
     = (if failing
        then [SystemAlert.mk c CRITICAL (Critical_health c 0.0) analysed None]
        else [])
  /\ _alert_history (_update_all_components self updated)
     = _alert_history self.
Proof.
  intros Hc after failing.
  pose proof (update_all_consistent self updated Hc) as Hc1.
  assert (Hall : NoDup all_components).
  { repeat (constructor; [simpl; intuition discriminate|]). constructor. }
  destruct (update_list_get updated all_components Hall self c Hc)
    as [old [Hold Hget]].
  fold (_update_all_components self updated) in Hget.
  assert (Ein : existsb (SystemComponent_eqb c) all_components = true)
    by (destruct c; reflexivity).
  rewrite Ein in Hget.
  set (s1 := _update_all_components self updated) in *.
  destruct (analyze_system_health_history s1 analysed) as [_ [Hv _]].
  change (vitals (_component_status after) = vitals (_component_status s1))
    in Hv.
  split; [|split].
  - assert (Hg : Dict.get SystemComponent_eqb
                   (vitals (_component_status after)) c
                 = Dict.get SystemComponent_eqb
                     (vitals (_component_status s1)) c)
      by now rewrite Hv.
    unfold vitals in Hg.
    rewrite (get_map_snd (fun st => (ComponentStatus.health st,
                                     ComponentStatus.last_update st))),
            (get_map_snd (fun st => (ComponentStatus.health st,
                                     ComponentStatus.last_update st)))
      in Hg.
    rewrite Hget in Hg. unfold get_component_status.
    destruct (Dict.get SystemComponent_eqb (_component_status after) c)
      as [st|]; [|discriminate].
    exists st. cbn in Hg. injection Hg as Hh Hu.
    split; [reflexivity|]. split; [|exact Hu].
    rewrite Hh. unfold failing. now destruct c.
  - assert (Hrs : recorded_since self after = recorded_since s1 after).
    { unfold recorded_since, s1. now rewrite update_all_history. }
    rewrite Hrs. unfold after, poll. fold s1.
    rewrite (pass_health_alerts s1 analysed c _ (proj1 Hc1)
               (get_In _ _ _ Hget)).
    unfold failing. now destruct c.
  - apply update_all_history.
Qed.

Lemma poll_fails_power_and_thermal_witness :
  health_alerts POWER
    (recorded_since (initialize __init__ 0) (poll (initialize __init__ 0) 1 1))
  = [SystemAlert.mk POWER CRITICAL (Critical_health POWER 0.0) 1 None].
Proof.
  apply (proj1 (proj2 (poll_fails_power_and_thermal
                         (initialize __init__ 0) 1 1 POWER
                         (initialize_consistent 0)))).
Defined.

Lemma AlertLevel_eqb_eq (a b : AlertLevel) :
  AlertLevel_eqb a b = true <-> a = b.
Proof. destruct a, b; simpl; split; intros H; congruence. Qed.

Lemma set_set_level (d : list (AlertLevel * list Callback))
  (k : AlertLevel) (v v' : list Callback) :
  Dict.set AlertLevel_eqb (Dict.set AlertLevel_eqb d k v) k v'
  = Dict.set AlertLevel_eqb d k v'.
Proof.
  induction d as [|[k0 v0] d IH]; simpl.
  - now rewrite (proj2 (AlertLevel_eqb_eq k k) eq_refl).
  - destruct (AlertLevel_eqb k0 k) eqn:E; simpl; rewrite E;
      [reflexivity | now rewrite IH].
Qed.

Lemma set_current_level (d : list (AlertLevel * list Callback))
  (k : AlertLevel) (v : list Callback) :
  Dict.get AlertLevel_eqb d k = Some v -> Dict.set AlertLevel_eqb d k v = d.
Proof.
  induction d as [|[k0 v0] d IH]; simpl; [discriminate|].
  destruct (AlertLevel_eqb k0 k).
  - intros H. now injection H as ->.
  - intros H. now rewrite IH.
Qed.

Lemma remove_first_appended (cb : Callback) (cbs : list Callback) :
  remove_first cb (cbs ++ [cb])
  = if existsb (Nat.eqb cb) cbs then remove_first cb cbs ++ [cb] else cbs.
Proof.
  induction cbs as [|y cbs IH]; simpl.
  - now rewrite Nat.eqb_refl.
  - rewrite (Nat.eqb_sym cb y). destruct (Nat.eqb y cb); simpl;
      [reflexivity|].
    rewrite IH. now destruct (existsb (Nat.eqb cb) cbs).
Qed.

Lemma existsb_appended (cb : Callback) (cbs : list Callback) :
  existsb (Nat.eqb cb) (cbs ++ [cb]) = true.
Proof.
  rewrite existsb_app. simpl. rewrite Nat.eqb_refl. apply orb_true_r.
Qed.

Lemma remove_first_perm (cb : Callback) (l : list Callback) :
  In cb l -> Permutation (cb :: remove_first cb l) l.
Proof.
  induction l as [|y l IH]; simpl; [intros []|].
  destruct (Nat.eqb y cb) eqn:E.
  - apply Nat.eqb_eq in E. subst y. reflexivity.
  - intros [H|H]; [subst y; now rewrite Nat.eqb_refl in E|].
    rewrite perm_swap. now rewrite (IH H).
Qed.

Lemma append_is_cons (x : Callback) (l : list Callback) :
  l ++ [x] = x :: l <-> l = repeat x (List.length l).
Proof.
  split.
  - induction l as [|a l IH]; simpl; [reflexivity|].
    intros H. injection H as -> H. f_equal. now apply IH.
  - intros H. rewrite H. generalize (List.length l) as n. intros n.
    symmetry. apply repeat_cons.
Qed.

(** Removing the first [cb] after appending one gives the list back exactly
    when every entry from the first [cb] on is [cb]. *)
Lemma remove_first_restores (cb : Callback) (cbs : list Callback) :
  remove_first cb (cbs ++ [cb]) = cbs
  <-> exists l n, cbs = l ++ repeat cb n /\ ~ In cb l.
Proof.
  induction cbs as [|y cbs IH]; simpl.
  - rewrite Nat.eqb_refl. split; [|reflexivity].
    intros _. exists [], 0%nat. now split.
  - destruct (Nat.eqb y cb) eqn:E.
    + apply Nat.eqb_eq in E. subst y. rewrite append_is_cons. split.
      * intros H. exists [], (S (List.length cbs)). simpl.
        split; [now rewrite <- H | tauto].
      * intros [l [n [H Hl]]]. destruct l as [|a l].
        -- simpl in H. destruct n as [|n]; [discriminate|].
           simpl in H. injection H as ->. now rewrite repeat_length.
        -- simpl in H. injection H as <- _. contradiction Hl. now left.
    + assert (Hne : y <> cb).
      { intros ->. now rewrite Nat.eqb_refl in E. }
      split.
      * intros H. injection H as H. apply IH in H.
        destruct H as [l [n [H Hl]]]. exists (y :: l), n. simpl.
        split; [now rewrite H|]. intros [F|F]; [now apply Hne | now apply Hl].
      * intros [l [n [H Hl]]]. f_equal. apply IH.
        destruct l as [|a l].
        -- simpl in H. destruct n as [|n]; [discriminate|].
           simpl in H. injection H as F _. now contradiction Hne.
        -- simpl in H. injection H as <- H. exists l, n.
           split; [exact H|]. intros F. apply Hl. now right.
Qed.

(** X20.  After registering a callback and unregistering it right away, the
    callbacks of the level are those there were, each as often as before:
    [list.remove] takes out the first registration of the callback, not the
    one just appended.  The monitor is exactly as it was if and only if, in
    the list there was, every entry from the first registration of the
    callback on is that callback; in particular when the callback was not
    registered.  Otherwise the callback has moved to the end of its
    level. *)
Theorem unregister_after_register (self : t) (level : AlertLevel)
  (callback : Callback) (cbs : list Callback) :
  Dict.get AlertLevel_eqb (_alert_callbacks self) level = Some cbs ->
  let self' :=
    unregister_alert_callback (register_alert_callback self level callback)
                              level callback in
  let cbs' := remove_first callback (cbs ++ [callback]) in
  Dict.get AlertLevel_eqb (_alert_callbacks self') level = Some cbs'
  /\ cbs' = (if existsb (Nat.eqb callback) cbs
             then remove_first callback cbs ++ [callback]
             else cbs)
  /\ Permutation cbs' cbs
  /\ (self' = self
      <-> exists l n, cbs = l ++ repeat callback n /\ ~ In callback l)
  /\ (~ In callback cbs -> self' = self).
Proof.
  intros Hget self' cbs'.
  assert (Hself' :
    self' = mk (_component_status self) (_alert_history self)
               (Dict.set AlertLevel_eqb (_alert_callbacks self) level cbs')
               (_is_monitoring self) (_status_update_interval self)
               (_alert_retention_period self) (callback_calls self)).
  { unfold self', register_alert_callback. rewrite Hget.
    unfold unregister_alert_callback.
    cbn [_component_status _alert_history _alert_callbacks _is_monitoring
         _status_update_interval _alert_retention_period callback_calls].
    rewrite (get_set_same AlertLevel_eqb AlertLevel_eqb_eq).
    rewrite existsb_appended. now rewrite set_set_level. }
  assert (Hiff : self' = self <-> cbs' = cbs).
  { rewrite Hself'. split.
    - intros H.
      apply (f_equal (fun m => Dict.get AlertLevel_eqb (_alert_callbacks m)
                                        level)) in H.
      cbn [_alert_callbacks] in H.
      rewrite (get_set_same AlertLevel_eqb AlertLevel_eqb_eq), Hget in H.
      now injection H.
    - intros ->. rewrite (set_current_level _ _ _ Hget). now destruct self. }
  split; [|split; [|split; [|split]]].
  - rewrite Hself'. cbn [_alert_callbacks].
    apply (get_set_same AlertLevel_eqb AlertLevel_eqb_eq).
  - apply remove_first_appended.
  - apply (Permutation_cons_inv (a := callback)).
    unfold cbs'. rewrite remove_first_perm by (apply in_or_app; right; now left).
    now rewrite Permutation_app_comm.
  - rewrite Hiff. apply remove_first_restores.
  - intros Hnot. apply Hiff. apply remove_first_restores.
    exists cbs, 0%nat. simpl. now rewrite app_nil_r.
Qed.

Lemma unregister_after_register_witness :
  unregister_alert_callback
    (register_alert_callback (initialize __init__ 0) WARNING 7%nat)
    WARNING 7%nat
  = initialize __init__ 0.
Proof.
  apply (proj2 (proj2 (proj2 (proj2
           (unregister_after_register (initialize __init__ 0) WARNING
              7%nat [] eq_refl))))).
  simpl. tauto.
Defined.

(** With 7 registered before 8, registering and unregistering 7 leaves 8
    before 7; with 7 the only callback, the list is the same again. *)
Example unregister_after_register_moves_the_callback :
  let monitor cbs :=
    fold_left (fun m cb => register_alert_callback m WARNING cb) cbs
              (initialize __init__ 0) in
  let round_trip m :=
    unregister_alert_callback (register_alert_callback m WARNING 7%nat)
                              WARNING 7%nat in
  Dict.get AlertLevel_eqb
    (_alert_callbacks (round_trip (monitor [7%nat; 8%nat]))) WARNING
  = Some [8%nat; 7%nat]
  /\ round_trip (monitor [7%nat]) = monitor [7%nat]
  /\ round_trip (monitor [8%nat; 7%nat]) = monitor [8%nat; 7%nat].
Proof. vm_compute. repeat split. Qed.

End MonitorUpkeep.

(** ** The loop of the safety monitor *)

Section SafetyLoop.
Import SafetyManager.

(** X21.  The mechanical stress level is at most 100, and exactly 100 from
    10 m/s² and 100 Hz on; it is not negative for readings that are not; and
    without vibration it is at most 70, below the warning level (85) of the
    MECHANICAL threshold, however large the acceleration. *)
Theorem mechanical_stress_bounds (acceleration vibration : Q) :
  _calculate_mechanical_stress acceleration vibration <= 100
  /\ (0 <= acceleration -> 0 <= vibration ->
      0 <= _calculate_mechanical_stress acceleration vibration)
  /\ (vibration <= 0 ->
      _calculate_mechanical_stress acceleration vibration <= 70)
  /\ (10 <= acceleration -> 100 <= vibration ->
      _calculate_mechanical_stress acceleration vibration == 100).
Proof.
  unfold _calculate_mechanical_stress, py_min.
  assert (Ha : acceleration / 10.0 == acceleration * (1 # 10)) by field.
  assert (Hv : vibration / 100.0 == vibration * (1 # 100)) by field.
  destruct (Q.min_spec (acceleration / 10.0) 1.0) as [[A1 A2]|[A1 A2]];
    destruct (Q.min_spec (vibration / 100.0) 1.0) as [[V1 V2]|[V1 V2]];
    rewrite A2, V2; rewrite ?Ha, ?Hv in *;
    (split; [lra | split; [intros; lra | split; intros; lra]]).
Qed.

Lemma mechanical_stress_bounds_witness :
  _calculate_mechanical_stress 1000 0 <= 70.
Proof.
  apply (proj1 (proj2 (proj2 (mechanical_stress_bounds 1000 0)))).
  unfold Qle. simpl. lia.
Defined.

Lemma fresh_monitor_well_formed (now : Q) : well_formed (fresh_monitor now).
Proof.
  split.
  - vm_compute. repeat (constructor; [simpl; intuition discriminate|]).
    constructor.
  - intros k _. destruct k; vm_compute; discriminate.
Qed.

(** A reading at or above the critical level. *)
Lemma tick_effect_critical (c : SafetyCondition) (th : SafetyThreshold.t)
  (events : list SafetyEvent.t) (executed : list (SafetyAction * Q))
  (is_warned : bool) (reading : Q * Q) :
  Qle_bool (SafetyThreshold.critical_level th) (fst reading) = true ->
  tick_effect c th (events, executed, is_warned) reading
  = (events ++ [critical_event c th reading],
     executed ++ [(SafetyThreshold.action th, fst reading);
                  (SafetyThreshold.action th, fst reading)],
     is_warned).
Proof.
  destruct reading as [v now]. cbn [fst]. intros E.
  unfold tick_effect, check_effect, process_effect. rewrite E.
  now rewrite <- app_assoc.
Qed.

(** A reading below the critical level that is also below the warning
    level, for a condition without a warning. *)
Lemma tick_effect_below (c : SafetyCondition) (th : SafetyThreshold.t)
  (events : list SafetyEvent.t) (executed : list (SafetyAction * Q))
  (reading : Q * Q) :
  Qle_bool (SafetyThreshold.critical_level th) (fst reading) = false ->
  Qle_bool (SafetyThreshold.warning_level th) (fst reading) = false ->
  tick_effect c th (events, executed, false) reading
  = (events, executed, false).
Proof.
  destruct reading as [v now]. cbn [fst]. intros E1 E2.
  unfold tick_effect, check_effect, process_effect.
  rewrite E1, E2. reflexivity.
Qed.

(** X22.  Nothing stops a critical condition from being handled again: over
    ticks that all read at or above the critical level, every tick records
    one more Critical event and executes the threshold's action two more
    times, and the warning state of the condition is what it was. *)
Theorem critical_readings_repeat (c : SafetyCondition)
  (th : SafetyThreshold.t) (self : t) (readings : list (Q * Q)) :
  well_formed self ->
  Dict.get SafetyCondition_eqb (_thresholds self) c = Some th ->
  Forall (fun r => SafetyThreshold.critical_level th <= fst r) readings ->
  let self' := run c self readings in
  events_of c self'
  = events_of c self ++ map (critical_event c th) readings
  /\ executed_for c self'
     = executed_for c self
       ++ flat_map (fun r => [(SafetyThreshold.action th, fst r);
                              (SafetyThreshold.action th, fst r)]) readings
  /\ warned c self' = warned c self.
Proof.
  intros Hwf Hth Hall self'.
  destruct (run_observe c th readings self Hwf Hth) as [Hobs _].
  fold self' in Hobs.
  assert (Hfold : forall events executed is_warned,
    fold_left (tick_effect c th) readings (events, executed, is_warned)
    = (events ++ map (critical_event c th) readings,
       executed
       ++ flat_map (fun r => [(SafetyThreshold.action th, fst r);
                              (SafetyThreshold.action th, fst r)]) readings,
       is_warned)).
  { clear Hobs self'.
    induction Hall as [|r readings' Hr Hall' IH]; intros events executed w.
    - cbn. now rewrite !app_nil_r.
    - cbn [fold_left map flat_map].
      rewrite tick_effect_critical by (now apply Qle_bool_iff).
      rewrite IH, <- !app_assoc. reflexivity. }
  unfold observe in Hobs. rewrite Hfold in Hobs.
  injection Hobs as H1 H2 H3. now rewrite H1, H2, H3.
Qed.

Lemma critical_readings_repeat_witness :
  executed_for TEMPERATURE
    (run TEMPERATURE (fresh_monitor 0) [(60, 1); (55, 2); (50, 3)])
  = executed_for TEMPERATURE (fresh_monitor 0)
    ++ [(SHUTDOWN, 60); (SHUTDOWN, 60); (SHUTDOWN, 55); (SHUTDOWN, 55);
        (SHUTDOWN, 50); (SHUTDOWN, 50)].
Proof.
  apply (proj1 (proj2 (critical_readings_repeat TEMPERATURE
           (SafetyThreshold.mk TEMPERATURE 40.0 50.0 SHUTDOWN 35.0)
           (fresh_monitor 0) [(60, 1); (55, 2); (50, 3)]
           (fresh_monitor_well_formed 0) eq_refl
           ltac:(repeat (constructor; [unfold Qle; simpl; lia|]);
                 constructor)))).
Defined.

(** X23.  A warning is recorded once: while a condition has its warning,
    readings below the critical level and above the recovery level record
    no event, execute no action and leave the warning in place. *)
Theorem warned_condition_is_quiet (c : SafetyCondition)
  (th : SafetyThreshold.t) (self : t) (readings : list (Q * Q)) :
  well_formed self ->
  Dict.get SafetyCondition_eqb (_thresholds self) c = Some th ->
  warned c self = true ->
  Forall (fun r => fst r < SafetyThreshold.critical_level th
                   /\ SafetyThreshold.recovery_level th < fst r) readings ->
  observe c (run c self readings) = observe c self.
Proof.
  intros Hwf Hth Hw Hall.
  destruct (run_observe c th readings self Hwf Hth) as [Hobs _].
  rewrite Hobs. clear Hobs. unfold observe. rewrite Hw.
  generalize (events_of c self) as events.
  generalize (executed_for c self) as executed.
  induction Hall as [|[v now] readings' [Hk Hr] Hall' IH];
    intros executed events; [reflexivity|].
  cbn [fold_left fst] in *.
  assert (E1 : Qle_bool (SafetyThreshold.critical_level th) v = false)
    by (apply Qle_bool_false; lra).
  assert (E2 : Qle_bool v (SafetyThreshold.recovery_level th) = false)
    by (apply Qle_bool_false; lra).
  assert (Hstep : tick_effect c th (events, executed, true) (v, now)
                  = (events, executed, true)).
  { unfold tick_effect, check_effect, process_effect. rewrite E1, E2.
    now destruct (Qle_bool (SafetyThreshold.warning_level th) v). }
  rewrite Hstep. apply IH.
Qed.

Lemma warned_condition_is_quiet_witness :
  observe TEMPERATURE
    (run TEMPERATURE (run TEMPERATURE (fresh_monitor 0) [(41, 1)])
         [(45, 2); (38, 3); (49, 4)])
  = observe TEMPERATURE (run TEMPERATURE (fresh_monitor 0) [(41, 1)]).
Proof.
  apply (warned_condition_is_quiet TEMPERATURE
           (SafetyThreshold.mk TEMPERATURE 40.0 50.0 SHUTDOWN 35.0)
           (run TEMPERATURE (fresh_monitor 0) [(41, 1)])
           [(45, 2); (38, 3); (49, 4)]).
  - apply (run_observe TEMPERATURE
             (SafetyThreshold.mk TEMPERATURE 40.0 50.0 SHUTDOWN 35.0)
             [(41, 1)] (fresh_monitor 0) (fresh_monitor_well_formed 0)
             eq_refl).
  - reflexivity.
  - reflexivity.
  - repeat (constructor; [split; unfold Qlt; simpl; lia|]). constructor.
Defined.

(** X24.  A threshold whose critical level is not above its warning level
    never warns: on a condition without a warning, the readings below the
    critical level leave no trace, whatever they are, and those at or above
    it are each handled as critical.  The default POWER threshold (critical
    5, warning 15) is such a threshold. *)
Theorem unordered_threshold_never_warns (c : SafetyCondition)
  (th : SafetyThreshold.t) (self : t) (readings : list (Q * Q)) :
  well_formed self ->
  Dict.get SafetyCondition_eqb (_thresholds self) c = Some th ->
  warned c self = false ->
  SafetyThreshold.critical_level th <= SafetyThreshold.warning_level th ->
  let self' := run c self readings in
  events_of c self'
  = events_of c self
    ++ map (critical_event c th) (critical_readings th readings)
  /\ executed_for c self'
     = executed_for c self
       ++ flat_map (fun r => [(SafetyThreshold.action th, fst r);
                              (SafetyThreshold.action th, fst r)])
                   (critical_readings th readings)
  /\ warned c self' = false.
Proof.
  intros Hwf Hth Hw Hkw self'.
  destruct (run_observe c th readings self Hwf Hth) as [Hobs _].
  fold self' in Hobs.
  assert (Hfold : forall events executed,
    fold_left (tick_effect c th) readings (events, executed, false)
    = (events ++ map (critical_event c th) (critical_readings th readings),
       executed
       ++ flat_map (fun r => [(SafetyThreshold.action th, fst r);
                              (SafetyThreshold.action th, fst r)])
                   (critical_readings th readings),
       false)).
  { clear Hobs self'.
    induction readings as [|r readings' IH]; intros events executed.
    - cbn. now rewrite !app_nil_r.
    - unfold critical_readings. cbn [fold_left filter].
      fold (critical_readings th readings').
      destruct (Qle_bool (SafetyThreshold.critical_level th) (fst r)) eqn:E.
      + rewrite tick_effect_critical by exact E.
        rewrite IH. cbn [map flat_map]. rewrite <- !app_assoc. reflexivity.
      + rewrite tick_effect_below; [apply IH | exact E |].
        apply Qle_bool_false. apply Qle_bool_false in E. lra. }
  unfold observe in Hobs. rewrite Hw, Hfold in Hobs.
  injection Hobs as H1 H2 H3. now rewrite H1, H2, H3.
Qed.

Lemma unordered_threshold_never_warns_witness :
  events_of POWER (run POWER (fresh_monitor 0) [(3, 1); (100, 2); (10, 3)])
  = events_of POWER (fresh_monitor 0)
    ++ [ SafetyEvent.mk POWER 100 SHUTDOWN 2 (Critical_level POWER 100);
         SafetyEvent.mk POWER 10 SHUTDOWN 3 (Critical_level POWER 10) ].
Proof.
  apply (proj1 (unordered_threshold_never_warns POWER
           (SafetyThreshold.mk POWER 15.0 5.0 SHUTDOWN 20.0)
           (fresh_monitor 0) [(3, 1); (100, 2); (10, 3)]
           (fresh_monitor_well_formed 0) eq_refl eq_refl
           ltac:(unfold Qle; simpl; lia))).
Defined.

End SafetyLoop.

(** ** The safety monitor beside the status monitor *)

Section SafetyLoopRuns.
Import SafetyManager.

Lemma record_alert_no_metrics (m : StatusMonitor.t)
  (c : StatusMonitor.SystemComponent) (lv : StatusMonitor.AlertLevel)
  (msg : StatusMonitor.Message) (now : Q)
  (data : option (list (string * Q))) :
  no_metrics m ->
  no_metrics (StatusMonitor._record_alert m c lv msg now data).
Proof.
  intros H. unfold StatusMonitor._record_alert.
  destruct (Dict.get StatusMonitor.SystemComponent_eqb
              (StatusMonitor._component_status m) c) as [st|] eqn:Hst;
    [|exact H].
  assert (Hcore : forall d',
    (forall c' st',
       Dict.get StatusMonitor.SystemComponent_eqb
         (Dict.set StatusMonitor.SystemComponent_eqb
            (StatusMonitor._component_status m) c
            (StatusMonitor.ComponentStatus.append_alert st d')) c'
       = Some st' ->
       StatusMonitor.ComponentStatus.metrics st' = [])).
  { intros d' c' st'. rewrite get_set_cases.
    destruct (StatusMonitor.SystemComponent_eqb c c').
    - intros E. injection E as <-. cbn. exact (H c st Hst).
    - apply H. }
  destruct (Dict.get StatusMonitor.AlertLevel_eqb _ lv);
    intros c' st'; unfold StatusMonitor.get_component_status;
    cbn [StatusMonitor._component_status]; apply Hcore.
Qed.

Lemma analyze_no_metrics (m : StatusMonitor.t) (now : Q) :
  no_metrics m -> no_metrics (StatusMonitor._analyze_system_health m now).
Proof.
  unfold StatusMonitor._analyze_system_health.
  generalize (StatusMonitor._component_status m) as items.
  intros items. revert m.
  induction items as [|[c st] items IH]; intros m H; [exact H|].
  cbn [fold_left]. apply IH. unfold StatusMonitor.analyze_component.
  assert (H1 : no_metrics
    (if Qltb (StatusMonitor.ComponentStatus.health st) 20.0
     then StatusMonitor._record_alert m c StatusMonitor.CRITICAL
            (StatusMonitor.Critical_health c
               (StatusMonitor.ComponentStatus.health st)) now None
     else if Qltb (StatusMonitor.ComponentStatus.health st) 50.0
     then StatusMonitor._record_alert m c StatusMonitor.WARNING
            (StatusMonitor.Low_health c
               (StatusMonitor.ComponentStatus.health st)) now None
     else m)).
  { destruct (Qltb _ 20.0); [now apply record_alert_no_metrics|].
    destruct (Qltb _ 50.0); [now apply record_alert_no_metrics | exact H]. }
  destruct (Qltb _ (now - _)); [now apply record_alert_no_metrics | exact H1].
Qed.

Lemma update_component_no_metrics (now : Q) (m : StatusMonitor.t)
  (c : StatusMonitor.SystemComponent) :
  no_metrics m -> no_metrics (StatusMonitor._update_component_status now m c).
Proof.
  intros H.
  destruct (Dict.get StatusMonitor.SystemComponent_eqb
              (StatusMonitor._component_status m) c) as [old|] eqn:Hold.
  - rewrite (update_component_known now m c old Hold).
    intros c' st'. unfold StatusMonitor.get_component_status.
    cbn [StatusMonitor._component_status]. rewrite get_set_cases.
    destruct (StatusMonitor.SystemComponent_eqb c c').
    + intros E. now injection E as <-.
    + apply H.
  - unfold StatusMonitor._update_component_status. rewrite Hold.
    now apply record_alert_no_metrics.
Qed.

Lemma update_all_no_metrics (m : StatusMonitor.t) (now : Q) :
  no_metrics m -> no_metrics (StatusMonitor._update_all_components m now).
Proof.
  unfold StatusMonitor._update_all_components.
  generalize StatusMonitor.all_components as l. intros l. revert m.
  induction l as [|c l IH]; intros m H; [exact H|].
  cbn [fold_left]. apply IH. now apply update_component_no_metrics.
Qed.

Lemma sweep_no_metrics (m : StatusMonitor.t) (now : Q) :
  no_metrics m -> no_metrics (StatusMonitor.sweep_alerts m now).
Proof.
  intros H c st'.
  unfold StatusMonitor.get_component_status, StatusMonitor.sweep_alerts.
  cbn [StatusMonitor._component_status].
  rewrite (get_map_snd
    (fun st => StatusMonitor.ComponentStatus.mk
       (StatusMonitor.ComponentStatus.component st)
       (StatusMonitor.ComponentStatus.status st)
       (StatusMonitor.ComponentStatus.health st)
       (StatusMonitor.ComponentStatus.last_update st)
       (StatusMonitor.ComponentStatus.metrics st)
       (filter (fun a => Qltb (now - StatusMonitor._alert_retention_period m)
                              (StatusMonitor.SystemAlert.timestamp a))
               (StatusMonitor.ComponentStatus.alerts st)))).
  destruct (Dict.get StatusMonitor.SystemComponent_eqb
              (StatusMonitor._component_status m) c) as [st|] eqn:Hst;
    [|discriminate].
  cbn [option_map]. intros E. injection E as <-. cbn. exact (H c st Hst).
Qed.

Lemma step_no_metrics (m : StatusMonitor.t) (s : StatusMonitor.Step) :
  no_metrics m -> no_metrics (StatusMonitor.step m s).
Proof.
  intros H. destruct s as [c l msg now d|u a|now|l cb|l cb];
    cbn [StatusMonitor.step].
  - now apply record_alert_no_metrics.
  - unfold StatusMonitor.poll.
    now apply analyze_no_metrics, update_all_no_metrics.
  - now apply sweep_no_metrics.
  - unfold StatusMonitor.register_alert_callback.
    now destruct (Dict.get StatusMonitor.AlertLevel_eqb _ l).
  - unfold StatusMonitor.unregister_alert_callback.
    destruct (Dict.get StatusMonitor.AlertLevel_eqb _ l); [|exact H].
    now destruct (existsb _ _).
Qed.

(** With nothing to act on, an evaluation changes nothing. *)
Lemma evaluate_idle (m : StatusMonitor.t) (mon : bool) (interval : Q)
  (hs : list (SafetyAction * list Handler)) (now : Q) :
  evaluate (mk m mon interval default_thresholds idle_conditions [] [] hs [])
           now
  = mk m mon interval default_thresholds idle_conditions [] [] hs [].
Proof. reflexivity. Qed.

Lemma loop_iteration_idle (self : t) (now : Q) :
  idle self -> idle (loop_iteration self now).
Proof.
  intros [Hc [Hm [Hth [Hw [He [Hx Hcc]]]]]].
  destruct self as [m mon interval th cc aw ev hs ex].
  cbn [_status_monitor _thresholds _active_warnings _safety_events executions
       _current_conditions] in *.
  subst th aw ev ex.
  pose proof Hc as [_ [Hknown _]].
  assert (Hmetric : forall c st name,
            StatusMonitor.get_component_status m c = Some st ->
            metric st name = 0.0).
  { intros c st name Hst. unfold metric. now rewrite (Hm c st Hst). }
  assert (Hup : _update_safety_conditions
                  (mk m mon interval default_thresholds cc [] [] hs [])
                = Some (mk m mon interval default_thresholds idle_conditions
                           [] [] hs [])).
  { unfold _update_safety_conditions, _update_environmental_conditions,
      _update_mechanical_conditions.
    cbn [_status_monitor set_condition set_current_conditions
         _current_conditions _is_monitoring _safety_check_interval
         _thresholds _active_warnings _safety_events _event_handlers
         executions].
    destruct (StatusMonitor.get_component_status m StatusMonitor.POWER)
      as [p|] eqn:Hp; [|now contradiction (Hknown StatusMonitor.POWER)].
    destruct (StatusMonitor.get_component_status m StatusMonitor.THERMAL)
      as [t|] eqn:Ht; [|now contradiction (Hknown StatusMonitor.THERMAL)].
    destruct (StatusMonitor.get_component_status m StatusMonitor.PROJECTION)
      as [pr|] eqn:Hpr;
      [|now contradiction (Hknown StatusMonitor.PROJECTION)].
    destruct (StatusMonitor.get_component_status m StatusMonitor.MOTION)
      as [mo|] eqn:Hmo; [|now contradiction (Hknown StatusMonitor.MOTION)].
    rewrite (Hmetric _ _ _ Hp), (Hmetric _ _ _ Ht), (Hmetric _ _ _ Hpr),
            !(Hmetric _ _ _ Hmo).
    destruct Hcc as [-> | ->]; reflexivity. }
  unfold loop_iteration. rewrite Hup, evaluate_idle.
  exact (conj Hc (conj Hm (conj eq_refl (conj eq_refl (conj eq_refl
           (conj eq_refl (or_intror eq_refl))))))).
Qed.

Lemma occur_idle (self : t) (o : Occurrence) :
  idle self -> idle (occur self o).
Proof.
  intros H. destruct o as [now|s|a h]; cbn [occur].
  - now apply loop_iteration_idle.
  - destruct H as [Hc [Hm H]]. unfold idle. cbn. split; [|split].
    + now apply step_consistent.
    + now apply step_no_metrics.
    + exact H.
  - unfold register_safety_handler.
    now destruct (Dict.get SafetyAction_eqb (_event_handlers self) a).
Qed.

Lemma fresh_monitor_idle (now : Q) : idle (fresh_monitor now).
Proof.
  unfold idle. split; [|split].
  - apply (steps_consistent
             [StatusMonitor.Register StatusMonitor.WARNING
                _handle_system_warning;
              StatusMonitor.Register StatusMonitor.CRITICAL
                _handle_system_critical]
             (StatusMonitor.initialize StatusMonitor.__init__ now)).
    apply initialize_consistent.
  - intros c st. destruct c; cbn; intros E; injection E as <-; reflexivity.
  - cbn. repeat split; try reflexivity. now left.
Qed.

(** X25.  Beside a status monitor that is only recorded into, polled, swept
    and subscribed to, the loop of the safety monitor has nothing to act on:
    no component ever has a metric, so every update reads 0.0 for
    temperature, power, projection and mechanical stress, and 50.0 for the
    environment, and from a fresh monitor on no event is ever recorded, no
    action executed and no warning raised. *)
Theorem safety_loop_has_nothing_to_act_on (now : Q) (os : list Occurrence) :
  let self' := occurrences (fresh_monitor now) os in
  _safety_events self' = []
  /\ executions self' = []
  /\ _active_warnings self' = []
  /\ no_metrics (_status_monitor self')
  /\ (_current_conditions self' = map (fun c => (c, 0.0)) all_conditions
      \/ _current_conditions self' = idle_conditions).
Proof.
  intros self'.
  assert (H : idle self').
  { unfold self', occurrences.
    generalize (fresh_monitor_idle now). generalize (fresh_monitor now).
    induction os as [|o os IH]; intros self H; [exact H|].
    cbn [fold_left]. apply IH. now apply occur_idle. }
  destruct H as [_ [Hm [_ [Hw [He [Hx Hcc]]]]]].
  exact (conj He (conj Hx (conj Hw (conj Hm Hcc)))).
Qed.

End SafetyLoopRuns.

(** ** The coordinator: emergencies and the start of a projection *)

Section CoordinatorPaths.
Import MainController.

(** X26.  The emergency handler of the coordinator never gets to record its
    alert: securing the battery raises first, so the status monitor is left
    as it was.  The laser is marked inactive only when disabling the emission
    and resetting the hardware both returned, and the mirror is marked as not
    scanning only when its emergency stop returned; otherwise each keeps the
    mark it had. *)
Theorem emergency_shutdown_effects (env : Environment) (now : Q)
  (condition : SafetyManager.SafetyCondition) (value : Q) (self : t) :
  let self' := snd (_handle_emergency_shutdown env now condition value self) in
  status_monitor self' = status_monitor self
  /\ gesture_recognizer self' = gesture_recognizer self
  /\ LaserController._is_active (laser_controller self')
     = (if laser_disable_emission_returns env && laser_reset_returns env
        then false
        else LaserController._is_active (laser_controller self))
  /\ MEMSController._is_scanning (mems_controller self')
     = (if mems_emergency_stop_returns env
        then false
        else MEMSController._is_scanning (mems_controller self)).
Proof.
  unfold _handle_emergency_shutdown, LaserController_emergency_shutdown,
    MEMSController_emergency_stop, BatteryController_emergency_shutdown,
    SupercapacitorController_emergency_stop, await_record_alert,
    driver_call, try_except, bind, raise, ret, set_state,
    set_laser_is_active, set_mems_is_scanning, modify.
  destruct (laser_disable_emission_returns env),
    (laser_reset_returns env), (mems_emergency_stop_returns env);
    simpl; repeat split.
Qed.

(** One call: the verification fails at its first check, and what is left
    is what that check alone leaves. *)
Lemma start_hologram_projection_fails
  (await_handler : SafetyManager.Handler ->
                   SafetyManager.SafetyCondition -> Q ->
                   ProjectionStart.t -> ProjectionStart.t)
  (start_verified : ProjectionStart.t -> bool * ProjectionStart.t)
  (now1 now2 : Q) (self : ProjectionStart.t) :
  ProjectionStart.start_hologram_projection await_handler start_verified
    now1 now2 self
  = (false,
     snd (ProjectionStart.check_safety_threshold await_handler
            SafetyManager.TEMPERATURE now1 self)).
Proof. reflexivity. Qed.

(** Below the critical level no handler is awaited. *)
Lemma check_below_critical
  (await_handler : SafetyManager.Handler ->
                   SafetyManager.SafetyCondition -> Q ->
                   ProjectionStart.t -> ProjectionStart.t)
  (c : SafetyManager.SafetyCondition) (now : Q) (self : ProjectionStart.t) :
  ProjectionStart.below_critical c (ProjectionStart.safety_manager self) ->
  snd (ProjectionStart.check_safety_threshold await_handler c now self)
  = ProjectionStart.mk (ProjectionStart.state self)
      (SafetyManager._check_safety_threshold
         (ProjectionStart.safety_manager self) c now).
Proof.
  intros Hb. unfold ProjectionStart.check_safety_threshold,
    SafetyManager._check_safety_threshold. cbn [snd].
  destruct (Dict.get SafetyManager.SafetyCondition_eqb
              (SafetyManager._current_conditions
                 (ProjectionStart.safety_manager self)) c) as [v|] eqn:Hv;
    [|now destruct self].
  destruct (Dict.get SafetyManager.SafetyCondition_eqb
              (SafetyManager._thresholds
                 (ProjectionStart.safety_manager self)) c) as [th|] eqn:Hth;
    [|now destruct self].
  assert (E : Qle_bool (SafetyManager.SafetyThreshold.critical_level th) v
              = false).
  { apply Qle_bool_false. exact (Hb v th Hv Hth). }
  now rewrite E.
Qed.

(** With handlers that do nothing, the check is the safety manager's own. *)
Lemma check_without_handlers
  (c : SafetyManager.SafetyCondition) (now : Q) (self : ProjectionStart.t) :
  snd (ProjectionStart.check_safety_threshold (fun _ _ _ s => s) c now self)
  = ProjectionStart.mk (ProjectionStart.state self)
      (SafetyManager._check_safety_threshold
         (ProjectionStart.safety_manager self) c now).
Proof.
  unfold ProjectionStart.check_safety_threshold,
    SafetyManager._check_safety_threshold. cbn [snd].
  destruct (Dict.get SafetyManager.SafetyCondition_eqb
              (SafetyManager._current_conditions
                 (ProjectionStart.safety_manager self)) c) as [v|] eqn:Hv;
    [|now destruct self].
  destruct (Dict.get SafetyManager.SafetyCondition_eqb
              (SafetyManager._thresholds
                 (ProjectionStart.safety_manager self)) c) as [th|] eqn:Hth;
    [|now destruct self].
  destruct (Qle_bool _ v); [|reflexivity].
  unfold ProjectionStart._handle_critical_condition,
    SafetyManager._handle_critical_condition,
    ProjectionStart._execute_safety_action,
    SafetyManager._execute_safety_action.
  rewrite Hth.
  cbn [ProjectionStart.safety_manager ProjectionStart.state
       SafetyManager.append_event SafetyManager._event_handlers].
  destruct (Dict.get SafetyManager.SafetyAction_eqb _ _) as [hs|];
    [|reflexivity].
  assert (Hfold : forall (l : list SafetyManager.Handler)
                         (s : ProjectionStart.t),
             fold_left (fun s0 _ => s0) l s = s)
    by (induction l; intros; [reflexivity | now cbn]).
  now rewrite Hfold.
Qed.

(** X27.  [start_hologram_projection] never starts a projection.  The
    verification tests the result of a method that returns nothing, so it
    fails at its first check: whatever the conditions read, whatever the
    registered handlers do and whatever the rest of the method would do,
    every call returns [False], and what it leaves is what the check of the
    TEMPERATURE threshold alone leaves, the POWER check never being reached.
    When TEMPERATURE reads below its critical level no handler is awaited:
    the state of the coordinator is what it was and nothing is recorded,
    executed or warned about for any other condition.  (When it reads
    critical, the handlers of the threshold's action run, the coordinator's
    own among them, and the state is theirs to set.) *)
Theorem start_hologram_projection_never_starts
  (await_handler : SafetyManager.Handler ->
                   SafetyManager.SafetyCondition -> Q ->
                   ProjectionStart.t -> ProjectionStart.t)
  (start_verified : ProjectionStart.t -> bool * ProjectionStart.t) :
  (forall now1 now2 self,
      ProjectionStart.start_hologram_projection await_handler start_verified
        now1 now2 self
      = (false,
         snd (ProjectionStart.check_safety_threshold await_handler
                SafetyManager.TEMPERATURE now1 self)))
  /\ (forall readings self,
        let result :=
          ProjectionStart.attempts await_handler start_verified readings
                                   self in
        Forall (fun returned => returned = false) (fst result)
        /\ List.length (fst result) = List.length readings)
  /\ (forall now1 now2 self,
        ProjectionStart.below_critical SafetyManager.TEMPERATURE
          (ProjectionStart.safety_manager self) ->
        let self' :=
          snd (ProjectionStart.start_hologram_projection await_handler
                 start_verified now1 now2 self) in
        ProjectionStart.state self' = ProjectionStart.state self
        /\ ProjectionStart.safety_manager self'
           = SafetyManager._check_safety_threshold
               (ProjectionStart.safety_manager self)
               SafetyManager.TEMPERATURE now1
        /\ (forall c, c <> SafetyManager.TEMPERATURE ->
              SafetyManager.observe c (ProjectionStart.safety_manager self')
              = SafetyManager.observe c
                  (ProjectionStart.safety_manager self))).
Proof.
  split; [|split].
  - intros now1 now2 self. apply start_hologram_projection_fails.
  - intros readings. induction readings as [|[now1 now2] readings IH];
      intros self.
    + cbn. split; [constructor | reflexivity].
    + cbn [ProjectionStart.attempts].
      rewrite start_hologram_projection_fails.
      specialize (IH (snd (ProjectionStart.check_safety_threshold
                             await_handler SafetyManager.TEMPERATURE now1
                             self))).
      destruct (ProjectionStart.attempts await_handler start_verified
                  readings _) as [later self2].
      cbn [fst snd] in *. destruct IH as [Hall Hlen].
      split; [now constructor | cbn; now rewrite Hlen].
  - intros now1 now2 self Hb self'. unfold self'.
    rewrite start_hologram_projection_fails. cbn [snd].
    rewrite (check_below_critical await_handler _ now1 self Hb).
    cbn [ProjectionStart.state ProjectionStart.safety_manager].
    split; [reflexivity|]. split; [reflexivity|].
    intros c Hc.
    apply (check_other c SafetyManager.TEMPERATURE).
    intros E. apply Hc. now symmetry.
Qed.

Lemma start_hologram_projection_never_starts_witness :
  ProjectionStart.state
    (snd (ProjectionStart.start_hologram_projection
            (fun _ _ _ s =>
               ProjectionStart.mk MainController.SHUTDOWN
                 (ProjectionStart.safety_manager s))
            (fun s => (true, s)) 1 2
            (ProjectionStart.mk MainController.READY
               (SafetyManager.register_safety_handler
                  (SafetyManager.fresh_monitor 0) SafetyManager.SHUTDOWN
                  0%nat))))
  = MainController.READY.
Proof.
  apply (proj2 (proj2 (start_hologram_projection_never_starts
           (fun _ _ _ s =>
              ProjectionStart.mk MainController.SHUTDOWN
                (ProjectionStart.safety_manager s))
           (fun s => (true, s)))) 1 2
           (ProjectionStart.mk MainController.READY
              (SafetyManager.register_safety_handler
                 (SafetyManager.fresh_monitor 0) SafetyManager.SHUTDOWN
                 0%nat))).
  intros value threshold Hv Hth.
  injection Hv as <-. injection Hth as <-. reflexivity.
Defined.

(** A critical TEMPERATURE reading during the verification: the call
    returns [False] all the same, and a handler that sets the state, as
    [_handle_controlled_shutdown] does, has set it. *)
Example start_hologram_projection_at_critical_temperature :
  let handlers :=
    fun (_ : SafetyManager.Handler) (_ : SafetyManager.SafetyCondition)
        (_ : Q) (s : ProjectionStart.t) =>
      ProjectionStart.mk MainController.SHUTDOWN
        (ProjectionStart.safety_manager s) in
  let hot :=
    ProjectionStart.mk MainController.READY
      (SafetyManager.set_condition
         (SafetyManager.register_safety_handler
            (SafetyManager.fresh_monitor 0) SafetyManager.SHUTDOWN 0%nat)
         SafetyManager.TEMPERATURE 51) in
  let result :=
    ProjectionStart.start_hologram_projection handlers (fun s => (true, s))
      1 2 hot in
  fst result = false
  /\ ProjectionStart.state (snd result) = MainController.SHUTDOWN.
Proof. vm_compute. split; reflexivity. Qed.

End CoordinatorPaths.
